(** * TikTok Ads creation agent: validation, merge, error classification,
      capability retry and turn bookkeeping

    A shallow embedding of the Python sources

      - [agent.py]          AdConfig, LLMClient, ConversationManager
      - [mock_api.py]       MockTikTokAPI, ErrorInterpreter
      - [app.py]            chat_fn
      - [src/agent.py]      AdAgent
      - [src/api_mock.py]   MockTikTokAPI (second variant)
      - [src/api_real.py]   RealTikTokAPI
      - [src/server.py]     callback
      - [src/ui.py]         chat_interface

    Python values are modelled as the code uses them: [str] as [string]
    (one [ascii] per code point, so the model covers code points below
    256), dictionaries with string keys as [gmap string _], [None] as a
    constructor of its own, exceptions as an explicit sum, and every
    external collaborator (language model, HTTP endpoints, clock, random
    source) as an oracle the function receives. *)

From Stdlib Require Import ZArith QArith Ascii String DecimalString DecimalZ
  DecimalPos List.
From stdpp Require Import gmap strings list fin_maps.

Local Open Scope string_scope.

(** stdpp freezes [String.append] under [simpl]; the proofs below unfold
    it on constructor-headed arguments. *)
#[local] Arguments String.append !s1 s2 : simpl nomatch.

(* ===================================================================== *)
(** * Part I: definitions                                                 *)
(* ===================================================================== *)

(** ** Python primitives *)

Module Py.

(** The line feed, written [\n] in the sources. *)
Definition nl : string := String (ascii_of_nat 10) EmptyString.

(** [str(n)] for a non-negative integer. *)
Definition str_of_nat (n : nat) : string :=
  NilZero.string_of_uint (Nat.to_uint n).

(** [str(z)] for an integer. *)
Definition str_of_Z (z : Z) : string :=
  NilZero.string_of_int (Z.to_int z).

(** [s.startswith(p)]. *)
Fixpoint startswith (p s : string) : bool :=
  match p, s with
  | EmptyString, _ => true
  | String a p', String b s' => if Ascii.eqb a b then startswith p' s' else false
  | String _ _, EmptyString => false
  end.

(** [sub in s] for strings. *)
Fixpoint str_in (sub s : string) : bool :=
  startswith sub s ||
  match s with
  | EmptyString => false
  | String _ s' => str_in sub s'
  end.

(** The declarative reading of [sub in s]. *)
Definition contains (sub s : string) : Prop :=
  exists pre post, s = pre ++ sub ++ post.

(** [c.isspace()] for a code point below 256: TAB..CR, FS..US, SPACE,
    NEL and NBSP. *)
Definition isspace (c : ascii) : bool :=
  let n := nat_of_ascii c in
  (((9 <=? n) && (n <=? 13)) || ((28 <=? n) && (n <=? 32))
   || (n =? 133) || (n =? 160))%nat.

(** [s.lstrip()], [s.rstrip()] and [s.strip()] without argument. *)
Fixpoint lstrip (s : string) : string :=
  match s with
  | EmptyString => EmptyString
  | String c s' => if isspace c then lstrip s' else s
  end.

Fixpoint rstrip (s : string) : string :=
  match s with
  | EmptyString => EmptyString
  | String c s' =>
      match rstrip s' with
      | EmptyString => if isspace c then EmptyString else String c EmptyString
      | r => String c r
      end
  end.

Definition strip (s : string) : string := rstrip (lstrip s).

(** Truthiness of a string: [bool(s)]. *)
Definition truthy (s : string) : bool :=
  match s with EmptyString => false | _ => true end.

(** The part of [s] after the last occurrence of the character [sep]:
    [s.split(sep)[-1]] for a one-character separator. *)
Fixpoint after_last (sep : ascii) (s : string) : string :=
  match s with
  | EmptyString => EmptyString
  | String c s' =>
      if Ascii.eqb c sep then after_last sep s'
      else if str_in (String sep EmptyString) s' then after_last sep s'
      else s
  end.

(** A value that is [None] or a [str]: a keyword argument, an entry of
    the configuration dictionary, a validated field. *)
Inductive pyval :=
| PyNone
| PyStr (s : string).

#[global] Instance pyval_eq_dec : EqDecision pyval.
Proof. solve_decision. Defined.

(** [bool(v)] and [str(v)] (as an f-string renders it). *)
Definition truthy_val (v : pyval) : bool :=
  match v with PyNone => false | PyStr s => truthy s end.

Definition str_val (v : pyval) : string :=
  match v with PyNone => "None" | PyStr s => s end.

(** Exceptions, as far as the handlers of the sources tell them apart:
    [except ValueError] (which also catches pydantic's ValidationError)
    against [except Exception]. The argument is [str(e)]. *)
Inductive exn :=
| ValueError (msg : string)
| OtherError (msg : string).

Definition str_exn (e : exn) : string :=
  match e with ValueError m | OtherError m => m end.

(** A call that either raises or returns. *)
Definition result (A : Type) : Type := exn + A.

End Py.

(** ** [mock_api.py]: ErrorInterpreter *)

Module ErrorInterpreter.

(** One row of the table: the four keys of each dictionary. *)
Record entry := Entry {
  explanation : string;
  action : string;
  retryable : bool;
  severity : string
}.

(** [ErrorInterpreter.ERRORS]. *)
Definition ERRORS : gmap string entry :=
  <["INVALID_TOKEN" := Entry
      "Your TikTok access token has expired or is invalid."
      "I'll attempt to refresh your token automatically. If this fails, you'll need to re-authenticate with TikTok."
      true "medium"]>
  (<["INSUFFICIENT_PERMISSIONS" := Entry
      "Your TikTok app doesn't have the required permissions to create ads."
      "Please go to TikTok Developer Portal → Your App → Permissions and enable 'Ads Management' scope, then re-authenticate."
      false "high"]>
  (<["MUSIC_NOT_FOUND" := Entry
      "The music ID you provided doesn't exist in TikTok's library or has been removed."
      "Would you like to: 1) Try a different music ID, 2) Upload your own music, or 3) Proceed without music (if your objective allows)?"
      false "low"]>
  (<["INVALID_MUSIC_ID" := Entry
      "This music track cannot be used for TikTok ads, possibly due to licensing restrictions."
      "Please choose a different music track from TikTok's library or upload your own music with proper licensing."
      false "medium"]>
  (<["GEO_RESTRICTED" := Entry
      "This feature is not available in your geographical region."
      "Unfortunately, TikTok Ads API has regional restrictions. You may need to use a different account or contact TikTok Business support."
      false "high"]> ∅)))).

(** [ErrorInterpreter.interpret]: [cls.ERRORS.get(error_code, default)]. *)
Definition interpret (error_code : string) : entry :=
  default
    (Entry ("An unexpected error occurred: " ++ error_code)
           "Please try again. If the issue persists, contact support."
           true "medium")
    (ERRORS !! error_code).

End ErrorInterpreter.

(** ** pydantic: the validation pipeline behind the [AdConfig] constructor

    [agent.py] declares [AdConfig] as a pydantic [BaseModel] with
    [Field(...)] constraints and [@validator] class methods (the 1.x
    interface: [@validator], the [values] argument, [.dict()]). What the
    constructor does with them is fixed by the library:

      - the fields are validated in declaration order; a failing field
        adds one error and is left out of [values], the others go on;
      - a required field whose key is missing gives "field required";
      - a field with a default whose key is missing takes the default
        and its validators are NOT called, unless the validator is
        declared with [always=True];
      - [None] for a [str] field is an error; [None] for an
        [Optional[str]] field goes straight to the class validator;
      - for a string the [min_length] / [max_length] constraints of
        [Field] are checked first, and the class validator runs only if
        they hold;
      - a [ValueError] raised by a class validator becomes the field's
        error, with [str(exc)] as message.

    The texts of the library's own errors are those of the 1.x series;
    the 2.x series words them differently ("String should have at most
    100 characters") and keeps the order of the checks and the rule for
    missing keys. *)

Module Pydantic.

Export Py.

(** One entry of [ValidationError.errors()]. [ctx] is the rendered
    context ("; limit_value=3") or empty. *)
Record error := Error {
  loc : string;
  msg : string;
  typ : string;
  ctx : string
}.

(** A field declaration: [name: str = Field(..., min_length=,
    max_length=)] with an optional class validator, or
    [name: Optional[str] = Field(None)] with an optional class
    validator and its [always] flag. A class validator returns the
    message of the [ValueError] it raises, or the value it returns. *)
Inductive field_spec :=
| StrField (min_length max_length : option nat)
           (post : option (string -> gmap string pyval -> string + string))
| OptStrField (post : option (pyval -> gmap string pyval -> string + pyval))
              (always : bool).

Definition value_error (name m : string) : error :=
  Error name m "value_error" "".

(** [constr_length_validator]. *)
Definition length_check (name : string) (min_length max_length : option nat)
    (s : string) : option error :=
  match min_length with
  | Some lo =>
      if (String.length s <? lo)%nat then
        Some (Error name
                ("ensure this value has at least " ++ Py.str_of_nat lo ++ " characters")
                "value_error.any_str.min_length"
                ("; limit_value=" ++ Py.str_of_nat lo))
      else
        match max_length with
        | Some hi =>
            if (hi <? String.length s)%nat then
              Some (Error name
                      ("ensure this value has at most " ++ Py.str_of_nat hi ++ " characters")
                      "value_error.any_str.max_length"
                      ("; limit_value=" ++ Py.str_of_nat hi))
            else None
        | None => None
        end
  | None =>
      match max_length with
      | Some hi =>
          if (hi <? String.length s)%nat then
            Some (Error name
                    ("ensure this value has at most " ++ Py.str_of_nat hi ++ " characters")
                    "value_error.any_str.max_length"
                    ("; limit_value=" ++ Py.str_of_nat hi))
          else None
      | None => None
      end
  end.

(** [ModelField.validate] on a supplied value. *)
Definition validate_value (name : string) (f : field_spec) (v : pyval)
    (values : gmap string pyval) : error + pyval :=
  match f, v with
  | StrField _ _ _, PyNone =>
      inl (Error name "none is not an allowed value" "type_error.none.not_allowed" "")
  | StrField lo hi post, PyStr s =>
      match length_check name lo hi s with
      | Some e => inl e
      | None =>
          match post with
          | None => inr (PyStr s)
          | Some g =>
              match g s values with
              | inl m => inl (value_error name m)
              | inr s' => inr (PyStr s')
              end
          end
      end
  | OptStrField post _, PyNone =>
      match post with
      | None => inr PyNone
      | Some g =>
          match g PyNone values with
          | inl m => inl (value_error name m)
          | inr v' => inr v'
          end
      end
  | OptStrField post _, PyStr s =>
      match post with
      | None => inr (PyStr s)
      | Some g =>
          match g (PyStr s) values with
          | inl m => inl (value_error name m)
          | inr v' => inr v'
          end
      end
  end.

(** One round of the loop of [validate_model]: the key is looked up in
    the input; a missing key is an error for a required field, and for
    a field with default [None] the default is stored unvalidated
    unless [always] is set. *)
Definition validate_field (name : string) (f : field_spec)
    (input : gmap string pyval) (values : gmap string pyval)
    : error + pyval :=
  match input !! name with
  | Some v => validate_value name f v values
  | None =>
      match f with
      | StrField _ _ _ =>
          inl (Error name "field required" "value_error.missing" "")
      | OptStrField _ always =>
          if always then validate_value name f PyNone values
          else inr PyNone
      end
  end.

(** [validate_model]: all fields, in order; errors are collected and
    validated values accumulate in [values]. *)
Fixpoint validate_model (fields : list (string * field_spec))
    (input values : gmap string pyval) (errors : list error)
    : gmap string pyval * list error :=
  match fields with
  | [] => (values, errors)
  | (name, f) :: rest =>
      match validate_field name f input values with
      | inl e => validate_model rest input values (errors ++ [e])
      | inr v => validate_model rest input (<[name := v]> values) errors
      end
  end.

(** The model constructor applied to the keyword arguments [input]:
    the validated values (what [.dict()] returns),
    or the errors of the [ValidationError] raised. *)
Definition construct (fields : list (string * field_spec))
    (input : gmap string pyval) : list error + gmap string pyval :=
  match validate_model fields input ∅ [] with
  | (values, []) => inr values
  | (_, errors) => inl errors
  end.

(** [display_errors] and [ValidationError.__str__]. *)
Definition display_error (e : error) : string :=
  loc e ++ nl ++ "  " ++ msg e ++ " (type=" ++ typ e ++ ctx e ++ ")".

Fixpoint join (sep : string) (l : list string) : string :=
  match l with
  | [] => ""
  | [x] => x
  | x :: rest => x ++ sep ++ join sep rest
  end.

Definition str_ValidationError (model : string) (errors : list error) : string :=
  Py.str_of_nat (List.length errors) ++ " validation error"
    ++ (if (List.length errors =? 1)%nat then "" else "s")
    ++ " for " ++ model ++ nl ++ join nl (map display_error errors).

End Pydantic.

(** ** [agent.py]: AdConfig *)

Module AdConfig.
Import Pydantic.

(** [validate_campaign_name]. *)
Definition validate_campaign_name (v : string) (values : gmap string pyval)
    : string + string :=
  let v := Py.strip v in
  if (String.length v <? 3)%nat then
    inl "Campaign name must be at least 3 characters"
  else inr v.

(** [validate_objective]. *)
Definition validate_objective (v : string) (values : gmap string pyval)
    : string + string :=
  if bool_decide (v ∈ ["Traffic"; "Conversions"]) then inr v
  else inl "Objective must be 'Traffic' or 'Conversions'".

(** [validate_ad_text]. *)
Definition validate_ad_text (v : string) (values : gmap string pyval)
    : string + string :=
  if (100 <? String.length v)%nat then
    inl ("Ad text cannot exceed 100 characters (current: "
           ++ Py.str_of_nat (String.length v) ++ ")")
  else inr v.

(** [validate_music_logic]. *)
Definition validate_music_logic (v : pyval) (values : gmap string pyval)
    : string + pyval :=
  let objective := values !! "objective" in
  if bool_decide (objective = Some (PyStr "Conversions")) && negb (truthy_val v) then
    inl "Music is REQUIRED when objective is 'Conversions'. Please provide a music ID or upload custom music."
  else
    match v with
    | PyStr s =>
        if (String.length (Py.strip s) =? 0)%nat then inl "Music ID cannot be empty"
        else inr v
    | PyNone => inr v
    end.

(** The five field declarations, in order. *)
Definition fields : list (string * field_spec) :=
  [ ("campaign_name", StrField (Some 3%nat) None (Some validate_campaign_name));
    ("objective", StrField None None (Some validate_objective));
    ("ad_text", StrField None (Some 100%nat) (Some validate_ad_text));
    ("cta", StrField None None None);
    ("music_id", OptStrField (Some validate_music_logic) false) ].

(** The [AdConfig] constructor applied to keyword arguments. *)
Definition AdConfig (kwargs : gmap string pyval)
    : list error + gmap string pyval :=
  construct fields kwargs.

(** The violations the constructor reports (none when it returns). *)
Definition violations (kwargs : gmap string pyval) : list error :=
  match AdConfig kwargs with inl errs => errs | inr _ => [] end.

(** The errors that concern one field. *)
Definition violations_of (name : string) (kwargs : gmap string pyval)
    : list error :=
  List.filter (fun e => String.eqb (loc e) name) (violations kwargs).

End AdConfig.

(** ** The capability interface [agent.py] programs against

    [ConversationManager] receives its [api_client] as an argument and
    calls three methods on it. A method either raises or returns a
    dictionary with ["success"] and then ["data"] or ["error_code"]; a
    dictionary without the keys the caller reads makes the caller raise
    [KeyError], which the model counts as the call raising. *)

Module API.
Export Py.

Inductive response (D : Type) :=
| Success (data : D)
| Failure (error_code message : string).
Arguments Success {D} data.
Arguments Failure {D} error_code message.

Record music_data := MusicData {
  music_id : string;
  title : string;
  artist : string;
  duration : Z;
  genre : string
}.

Record upload_data := UploadData {
  up_music_id : string;
  up_title : string;
  up_status : string;
  up_duration : Z
}.

Record ad_data := AdData {
  ad_id : string;
  campaign_id : string;
  ad_status : string;
  created_at : string;
  ad_campaign_name : pyval;
  ad_objective : pyval
}.

(** The three methods, over the client's own state [S]. *)
Class TikTokAPI (S : Type) := {
  validate_music_id : string -> string -> S -> result (response music_data) * S;
  upload_music : string -> string -> S -> result (response upload_data) * S;
  create_ad : gmap string pyval -> string -> S -> result (response ad_data) * S
}.

(** The calls a client has received, for stating that none was made. *)
Inductive call :=
| CallValidateMusic (music_id token : string)
| CallUploadMusic (file_path token : string)
| CallCreateAd (payload : gmap string pyval) (token : string).

End API.

(** ** [mock_api.py]: MockTikTokAPI *)

Module MockTikTokAPI.
Import API.

(** The [random] module: [random.random()] and [random.randint(a, b)]
    over a generator state [R]. *)
Class RandomSource (R : Type) := {
  random : R -> Q * R;
  randint : Z -> Z -> R -> Z * R
}.

Section WithRandom.
Context {R : Type} `{RandomSource R}.

Record state := State {
  valid_music_ids : list string;
  uploaded_music : gmap string (string * string);
  simulate_failures : bool;
  failure_rate : Q;
  rng : R
}.

(** [__init__(simulate_failures=True, failure_rate=0.1)]. *)
Definition init (simulate_failures : bool) (failure_rate : Q) (g : R) : state :=
  State ["12345"; "67890"; "11111"; "22222"; "33333"] ∅
        simulate_failures failure_rate g.

Definition with_rng (st : state) (g : R) : state :=
  State (valid_music_ids st) (uploaded_music st)
        (simulate_failures st) (failure_rate st) g.

(** [self.simulate_failures and random.random() < self.failure_rate]:
    the generator is only consulted when failures are simulated. *)
Definition induced_failure (st : state) : bool * state :=
  if simulate_failures st then
    let '(x, g) := random (rng st) in
    ((if Qlt_le_dec x (failure_rate st) then true else false), with_rng st g)
  else (false, st).

(** [validate_music_id]. *)
Definition mock_validate_music_id (music_id token : string) (st : state)
    : response music_data * state :=
  let '(fail, st) := induced_failure st in
  if fail then
    (Failure "INVALID_TOKEN" "Access token has expired", st)
  else if bool_decide (music_id ∈ valid_music_ids st)
          || startswith "UPLOAD_" music_id then
    (Success (MusicData music_id ("Sample Track " ++ music_id)
                        "Mock Artist" 30 "Pop"), st)
  else
    (Failure "MUSIC_NOT_FOUND"
       ("Music ID '" ++ music_id ++ "' does not exist or has been removed"), st).

(** [upload_music]. *)
Definition mock_upload_music (file_path token : string) (st : state)
    : response upload_data * state :=
  let '(fail, st) := induced_failure st in
  if fail then
    (Failure "GEO_RESTRICTED" "Music upload is not available in your region", st)
  else
    let '(n, g) := randint 10000 99999 (rng st) in
    let new_music_id := "UPLOAD_" ++ str_of_Z n in
    let st' :=
      State (valid_music_ids st ++ [new_music_id])
            (<[new_music_id := (file_path, "2026-01-31T12:00:00Z")]> (uploaded_music st))
            (simulate_failures st) (failure_rate st) g in
    (Success (UploadData new_music_id
                (after_last "\" (after_last "/" file_path)) "ready" 30), st').

(** [create_ad]. *)
Definition mock_create_ad (payload : gmap string pyval) (token : string)
    (st : state) : response ad_data * state :=
  let success (st : state) :=
    let '(a, g) := randint 100000 999999 (rng st) in
    let '(c, g) := randint 100000 999999 g in
    (Success (AdData ("AD_" ++ str_of_Z a) ("CAMP_" ++ str_of_Z c)
                "pending_review" "2026-01-31T12:00:00Z"
                (default PyNone (payload !! "campaign_name"))
                (default PyNone (payload !! "objective"))),
     with_rng st g) in
  if simulate_failures st then
    let '(rand, g) := random (rng st) in
    let st := with_rng st g in
    if Qlt_le_dec rand (5 # 100) then
      (Failure "INVALID_TOKEN" "Access token has expired", st)
    else if Qlt_le_dec rand (8 # 100) then
      (Failure "INSUFFICIENT_PERMISSIONS" "Missing ads management permission", st)
    else if Qlt_le_dec rand (10 # 100) then
      (Failure "INVALID_MUSIC_ID" "Music cannot be used for ads due to licensing", st)
    else success st
  else success st.

(** The mock never raises. *)
#[global] Instance mock_api : TikTokAPI state := {|
  validate_music_id m t st := let '(r, st) := mock_validate_music_id m t st in (inr r, st);
  upload_music f t st := let '(r, st) := mock_upload_music f t st in (inr r, st);
  create_ad p t st := let '(r, st) := mock_create_ad p t st in (inr r, st)
|}.

End WithRandom.
Arguments state R : clear implicits.

End MockTikTokAPI.

(** ** [agent.py]: LLMClient *)

Module LLMClient.
Export Py.

(** An entry of the conversation history. *)
Record chat_message := ChatMessage {
  role : string;
  content : string
}.

(** The dictionary [get_response] returns. A field is [None] when the
    key is missing from the dictionary. *)
Record response := Response {
  message : option string;
  reasoning : option string;
  state : option (gmap string pyval);
  action : option string;
  errors : option (list string)
}.

Section WithModel.
(** [SYSTEM_PROMPT], [json.dumps] on the configuration, and the remote
    call together with the parsing of its answer
    ([chat.completions.create] followed by [json.loads]), which
    raises or yields a dictionary. *)
Variable SYSTEM_PROMPT : string.
Variable json_dumps : gmap string pyval -> string.
Variable completion : list chat_message -> result response.

Definition full_messages (messages : list chat_message)
    (context : gmap string pyval) : list chat_message :=
  [ChatMessage "system" SYSTEM_PROMPT] ++ messages ++
  [ChatMessage "system" ("Current ad configuration state: " ++ json_dumps context)].

(** The client; [requests] records what has been sent to the model. *)
Record client := Client {
  requests : list (list chat_message)
}.

(** [get_response]: one call; missing keys are filled in; any
    exception is turned into the fallback dictionary. *)
Definition get_response (messages : list chat_message)
    (context : gmap string pyval) (c : client) : response * client :=
  let request := full_messages messages context in
  let c := Client (requests c ++ [request]) in
  match completion request with
  | inr result =>
      (Response (message result)
                (Some (default "No reasoning provided" (reasoning result)))
                (Some (default ∅ (state result)))
                (action result)
                (Some (default [] (errors result))), c)
  | inl e =>
      (Response
         (Some ("I apologize, but I encountered an error: " ++ str_exn e
                  ++ ". Let's try again."))
         (Some ("LLM error: " ++ str_exn e))
         (Some context)
         (Some "collect")
         (Some [str_exn e]), c)
  end.

End WithModel.

End LLMClient.

(** ** [agent.py]: ConversationManager *)

Module ConversationManager.
Import API LLMClient.

Section WithCollaborators.
Context {S : Type} `{TikTokAPI S}.

(** [self.llm.get_response]: any client, so it may raise. *)
Variable llm : list chat_message -> gmap string pyval -> result response.

(** The attributes of the manager; [calls] records the capability
    calls made so far. *)
Record manager := Manager {
  messages : list chat_message;
  ad_config : gmap string pyval;
  api : S;
  calls : list call
}.

Definition init (a : S) : manager := Manager [] ∅ a [].

Definition append_message (m : manager) (r c : string) : manager :=
  Manager (messages m ++ [ChatMessage r c]) (ad_config m) (api m) (calls m).

Definition set_config (m : manager) (cfg : gmap string pyval) : manager :=
  Manager (messages m) cfg (api m) (calls m).

Definition called (m : manager) (c : call) (a : S) : manager :=
  Manager (messages m) (ad_config m) a (calls m ++ [c]).

(** The state update of [process_message]:
    [for key, value in response["state"].items():
       if value is not None: self.ad_config[key] = value]. *)
Definition merge (delta cfg : gmap string pyval) : gmap string pyval :=
  map_fold (fun key value acc =>
              match value with
              | PyNone => acc
              | _ => <[key := value]> acc
              end) cfg delta.

Definition error_text (code : string) : string :=
  let error := ErrorInterpreter.interpret code in
  "❌ **" ++ ErrorInterpreter.explanation error ++ "**" ++ nl ++ nl ++
  "💡 " ++ ErrorInterpreter.action error.

(** [_validate_music]. *)
Definition _validate_music (m : manager) : result string * manager :=
  let music_id := default PyNone (ad_config m !! "music_id") in
  match music_id with
  | PyStr (String _ _ as mid) =>
      let '(r, a) := validate_music_id mid "mock_access_token" (api m) in
      let m := called m (CallValidateMusic mid "mock_access_token") a in
      match r with
      | inl e => (inl e, m)
      | inr (Success data) =>
          (inr ("✅ Music validated successfully!" ++ nl ++ nl ++
                "🎵 **Track**: " ++ title data ++ nl ++
                "🎤 **Artist**: " ++ artist data ++ nl ++
                "⏱️ **Duration**: " ++ str_of_Z (duration data) ++ "s" ++ nl ++ nl ++
                "Great choice! Now, what would you like your ad text to say? (Max 100 characters)"),
           m)
      | inr (Failure code _) => (inr (error_text code), m)
      end
  | _ => (inr "⚠️ Please provide a music ID to validate.", m)
  end.

(** [_upload_music]. *)
Definition _upload_music (file_path : string) (m : manager)
    : result string * manager :=
  let '(r, a) := upload_music file_path "mock_access_token" (api m) in
  let m := called m (CallUploadMusic file_path "mock_access_token") a in
  match r with
  | inl e => (inl e, m)
  | inr (Success data) =>
      let m := set_config m (<["music_id" := PyStr (up_music_id data)]> (ad_config m)) in
      (inr ("✅ Music uploaded successfully!" ++ nl ++ nl ++
            "🎵 **Music ID**: " ++ up_music_id data ++ nl ++
            "📁 **File**: " ++ up_title data ++ nl ++
            "✨ **Status**: " ++ up_status data ++ nl ++ nl ++
            "Excellent! Now let's create your ad text. What message would you like to convey? (Max 100 characters)"),
       m)
  | inr (Failure code _) => (inr (error_text code), m)
  end.

Definition validation_failed (issue : string) : string :=
  "❌ **Validation Failed**" ++ nl ++ nl ++
  "**Issue**: " ++ issue ++ nl ++ nl ++
  "Please provide the correct information and I'll help you fix this.".

(** [_submit_ad]: the configuration goes through [AdConfig] first;
    its [ValidationError] is a [ValueError] and is answered without
    calling the capability. Both handlers also guard the call. *)
Definition _submit_ad (m : manager) : string * manager :=
  match AdConfig.AdConfig (ad_config m) with
  | inl errs =>
      (validation_failed (Pydantic.str_ValidationError "AdConfig" errs), m)
  | inr validated_config =>
      let '(r, a) := create_ad validated_config "mock_access_token" (api m) in
      let m := called m (CallCreateAd validated_config "mock_access_token") a in
      match r with
      | inl (ValueError e) => (validation_failed e, m)
      | inl (OtherError e) =>
          ("❌ An unexpected error occurred: " ++ e ++ nl ++ nl ++ "Please try again.", m)
      | inr (Success data) =>
          ("🎉 **SUCCESS! Your TikTok ad has been created!**" ++ nl ++ nl ++
           "📊 **Ad ID**: " ++ ad_id data ++ nl ++
           "📊 **Campaign ID**: " ++ campaign_id data ++ nl ++
           "📊 **Status**: " ++ ad_status data ++ nl ++
           "📅 **Created**: " ++ created_at data ++ nl ++ nl ++
           "**Campaign Details:**" ++ nl ++
           "- Name: " ++ str_val (ad_campaign_name data) ++ nl ++
           "- Objective: " ++ str_val (ad_objective data) ++ nl ++ nl ++
           "Your ad is now pending review by TikTok. You'll be notified once it's approved!" ++ nl ++ nl ++
           "Would you like to create another ad? Just say 'yes' or 'new campaign'!",
           m)
      | inr (Failure code _) =>
          let error := ErrorInterpreter.interpret code in
          let retry_msg :=
            if ErrorInterpreter.retryable error
            then nl ++ nl ++ "Would you like me to retry the submission?"
            else "" in
          ("❌ **Submission Failed**" ++ nl ++ nl ++
           "**Issue**: " ++ ErrorInterpreter.explanation error ++ nl ++ nl ++
           "💡 **What to do**: " ++ ErrorInterpreter.action error ++ retry_msg,
           m)
      end
  end.

(** The [try] block of [process_message], up to the point where the
    answer is known: it returns the answer or the exception raised,
    with the attributes as they are at that point. *)
Definition turn (user_msg : string) (m : manager) : result string * manager :=
  match llm (messages m) (ad_config m) with
  | inl e => (inl e, m)
  | inr response =>
      match message response with
      | None => (inl (OtherError "'message'"), m)
      | Some agent_msg =>
          let action := default "collect" (action response) in
          let m :=
            match state response with
            | Some delta => set_config m (merge delta (ad_config m))
            | None => m
            end in
          if String.eqb action "validate_music" then _validate_music m
          else if String.eqb action "upload_music" then _upload_music user_msg m
          else if String.eqb action "submit" then
            let '(msg, m) := _submit_ad m in (inr msg, m)
          else (inr agent_msg, m)
      end
  end.

(** [process_message]. *)
Definition process_message (user_msg : string) (m : manager)
    : string * manager :=
  let m := append_message m "user" user_msg in
  match turn user_msg m with
  | (inr agent_msg, m) => (agent_msg, append_message m "assistant" agent_msg)
  | (inl e, m) =>
      let error_msg :=
        "I apologize, but I encountered an error: " ++ str_exn e
          ++ ". Could you please try again?" in
      (error_msg, append_message m "assistant" error_msg)
  end.

End WithCollaborators.
Arguments manager S : clear implicits.

End ConversationManager.

(** ** JSON values, as [json.loads] builds them *)

Module Json.

#[warnings="-register-all"]
Inductive json :=
| JNull
| JBool (b : bool)
| JNum (z : Z)
| JStr (s : string)
| JArr (l : list json)
| JObj (o : gmap string json).

Definition is_string (j : json) : bool :=
  match j with JStr _ => true | _ => false end.

Definition is_object (j : json) : bool :=
  match j with JObj _ => true | _ => false end.

(** [d.get(k)] on a value that is a dictionary. *)
Definition get (k : string) (j : json) : option json :=
  match j with JObj o => o !! k | _ => None end.

End Json.

(** ** [src/schemas.py]: AGENT_OUTPUT_SCHEMA, read by [jsonschema.validate] *)

Module Schemas.
Import Json.

(** A key under ["properties"]: checked only when present. *)
Definition property (o : gmap string json) (k : string)
    (check : json -> bool) : bool :=
  match o !! k with Some v => check v | None => true end.

(** A key under ["required"]. *)
Definition required (o : gmap string json) (k : string) : bool :=
  bool_decide (is_Some (o !! k)).

Definition action_ok (j : json) : bool :=
  match j with
  | JStr s => bool_decide (s ∈ ["NONE"; "VALIDATE_MUSIC"; "SUBMIT_AD"; "UPLOAD_MUSIC"])
  | _ => false
  end.

Definition updated_ad_state_ok (j : json) : bool :=
  match j with
  | JObj o =>
      property o "campaign_name" is_string
      && property o "objective" is_string
      && property o "creative_details" is_object
  | _ => false
  end.

Definition AGENT_OUTPUT_SCHEMA (instance : json) : bool :=
  match instance with
  | JObj o =>
      required o "thought" && required o "message_to_user"
      && required o "action" && required o "updated_ad_state"
      && property o "thought" is_string
      && property o "message_to_user" is_string
      && property o "action" action_ok
      && property o "action_params" is_object
      && property o "updated_ad_state" updated_ad_state_ok
  | _ => false
  end.

End Schemas.

(** ** [src/agent.py]: AdAgent *)

Module AdAgent.
Import Py Json.

Section WithModel.
(** The language model with everything up to [json.loads]: the
    call number and the last message part go in; an exception (no
    text, text that is not JSON, a failing call) or the parsed value
    comes out. [schema_error] is the text of the [ValidationError]
    that [jsonschema.validate] raises on a value. *)
Variable generate : nat -> string -> string + json.
Variable schema_error : json -> string.

(** The attributes of the agent; [prompts] records the calls of the
    model made so far. *)
Record agent := Agent {
  history : list (string * json);
  collected_data : gmap string json;
  prompts : list string
}.

Definition init : agent := Agent [] ∅ [].

(** ["Merge State"]:
    [for k, v in new_state.items(): self.collected_data[k] = v]. *)
Definition merge (new_state collected : gmap string json) : gmap string json :=
  map_fold (fun k v acc => <[k := v]> acc) collected new_state.

Definition answer (thought message_to_user action : string) : json :=
  JObj (<["thought" := JStr thought]>
       (<["message_to_user" := JStr message_to_user]>
       (<["action" := JStr action]> ∅))).

Definition context_of (authenticated : bool) (system_context : option string)
    : string :=
  "Auth status: " ++ (if authenticated then "OK" else "None") ++
  match system_context with
  | Some c => if truthy c then " | System Msg: " ++ c else ""
  | None => ""
  end.

(** What one pass through the [try] block ends in. *)
Inductive pass :=
| Returned (data : json)
| SchemaInvalid (e : string)
| Raised (e : string).

(** The [try] block: call the model, parse, validate against the
    schema, merge the state, extend the history. *)
Definition try_block (authenticated : bool) (user_input : string)
    (system_context : option string) (a : agent) : pass * agent :=
  let prompt := "Ctx: " ++ context_of authenticated system_context ++ nl
                  ++ "User: " ++ user_input in
  let reply := generate (List.length (prompts a)) prompt in
  let a := Agent (history a) (collected_data a) (prompts a ++ [prompt]) in
  match reply with
  | inl e => (Raised e, a)
  | inr data =>
      if Schemas.AGENT_OUTPUT_SCHEMA data then
        let new_state :=
          match default (JObj ∅) (get "updated_ad_state" data) with
          | JObj o => o
          | _ => ∅
          end in
        (Returned data,
         Agent (history a ++ [(user_input, data)])
               (merge new_state (collected_data a))
               (prompts a))
      else (SchemaInvalid (schema_error data), a)
  end.

(** [process_message(user_input, system_context, retry=True)]: the
    [except ValidationError] handler returns the fixed answer. *)
Definition process_message_retry (authenticated : bool) (user_input : string)
    (system_context : option string) (a : agent) : json * agent :=
  match try_block authenticated user_input system_context a with
  | (Returned data, a) => (data, a)
  | (SchemaInvalid e, a) =>
      (answer "Fail" "System Error: Output Validation Failed." "NONE", a)
  | (Raised e, a) => (answer "Fail" ("System Error: " ++ e) "NONE", a)
  end.

(** [process_message(user_input, system_context, retry=False)]: the
    [except ValidationError] handler calls the method again, once,
    with the error text as system context and [retry=True]. *)
Definition process_message (authenticated : bool) (user_input : string)
    (system_context : option string) (a : agent) : json * agent :=
  match try_block authenticated user_input system_context a with
  | (Returned data, a) => (data, a)
  | (SchemaInvalid e, a) =>
      process_message_retry authenticated user_input
        (Some ("JSON Schema Error: " ++ e ++ ". Retry with valid JSON.")) a
  | (Raised e, a) => (answer "Fail" ("System Error: " ++ e) "NONE", a)
  end.

End WithModel.

End AdAgent.

(** ** The dictionaries the clients of [src/api_interface.py] return *)

Module Reply.
Import Py.

(** Keys ["status"], ["code"], ["message"], ["ad_id"], ["music_id"];
    an absent key is [None]. Under ["message"] the value itself may be
    [None] (the live capability stores what [data.get("message")]
    gave), which [r["message"]] and [r.get("message", "")] tell apart
    from an absent key. *)
Record reply := Reply {
  status : string;
  code : option Z;
  message : option pyval;
  ad_id : option string;
  music_id : option string
}.

Definition success : reply := Reply "success" None None None None.

(** ["message": x] for the result [x] of a [.get]. *)
Definition stored (x : option string) : option pyval :=
  Some (match x with Some s => PyStr s | None => PyNone end).

Definition is_error (r : reply) : bool := String.eqb (status r) "error".

End Reply.

(** ** [src/api_mock.py]: MockTikTokAPI *)

Module SimpleMock.
Import Py Reply.

Record state := State {
  access_token : option string;
  music_db : gmap string bool;
  geo_failure : bool
}.

(** [__init__]. *)
Definition init : state :=
  State None (<["123" := true]> (<["456" := false]> ∅)) false.

(** [refresh_access_token]. *)
Definition refresh_access_token (st : state) : bool * state :=
  (true, State (Some "mock_refreshed_token") (music_db st) (geo_failure st)).

(** [ensure_token]: [if not self.access_token] is true for [None] and
    for the empty string. It never calls [refresh_access_token]. *)
Definition ensure_token (st : state) : reply * state :=
  match access_token st with
  | Some (String _ _) => (success, st)
  | _ => (Reply "error" None (Some (PyStr "Not Connected")) None None, st)
  end.

(** [validate_music_id]. *)
Definition validate_music_id (mid : string) (st : state) : reply * state :=
  if startswith "mock_up" mid then (success, st)
  else
    match music_db st !! mid with
    | Some true => (success, st)
    | Some false =>
        (Reply "error" None (Some (PyStr "Copyright Error")) None None, st)
    | None => (Reply "error" None (Some (PyStr "Not Found")) None None, st)
    end.

(** [upload_music]; [token_hex] is the value [secrets.token_hex(4)]
    returns. *)
Definition upload_music (token_hex : string) (file_name : string) (st : state)
    : reply * state :=
  (Reply "success" None None None (Some ("mock_up_" ++ token_hex)), st).

(** [submit_ad]. *)
Definition submit_ad (st : state) : reply * state :=
  if geo_failure st then
    (Reply "error" (Some 403%Z) (Some (PyStr "Geo Restricted")) None None, st)
  else (Reply "success" None None (Some "mock_ad_id") None, st).

End SimpleMock.

(** ** [src/api_real.py]: RealTikTokAPI

    The network and the clock are oracles indexed by how often they have
    been consulted: [clock k] is what the [k]-th [time.time()] returns,
    [refresh_http k] what the [k]-th request to the refresh endpoint
    yields, [create_http k] what the [k]-th request to the ad-creation
    endpoint yields. Time is rational seconds. *)

Module RealTikTokAPI.
Import Py Reply.

(** The value passed to [save_token] as [expires_in]: a number of
    seconds, or a value that cannot be added to a time (null, a
    string), given by the name of its type. *)
Inductive lifetime :=
| Seconds (q : Q)
| NotANumber (type_name : string).

(** The refresh endpoint: [code == 0] with token data whose
    ["expires_in"] is a number (86400 when the key is missing);
    [code == 0] with token data whose ["expires_in"] is no number; or
    anything else (another code, an exception, a missing
    ["access_token"]). *)
Inductive refresh_response :=
| RefreshOk (access_token : string) (refresh_token : option string) (expires_in : Q)
| RefreshBadLifetime (access_token : string) (refresh_token : option string)
                     (type_name : string)
| RefreshFailed.

(** The ad-creation endpoint: the decoded body with its ["code"],
    ["message"] and ["data"]["ad_id"], or an exception. *)
Inductive create_response :=
| CreateBody (code : option Z) (message : option string) (ad_id : option string)
| CreateRaises (e : string).

(** Where [refresh_access_token] is called from. *)
Inductive site :=
| InEnsureToken          (* line 125, inside [ensure_token] *)
| AfterFailedEnsure      (* line 150, first attempt of [submit_ad] *)
| AfterRejected.         (* line 165, after a 401 body *)

(** What a run does to the outside, in order. *)
Inductive event :=
| RefreshAttempt (s : site) (ok : bool)
| SubmitAttempt (attempt : nat).

Record state := State {
  access_token : option string;
  refresh_token : option string;
  expires_at : Q;
  clock_reads : nat;
  refresh_requests : nat;
  create_requests : nat;
  trace : list event
}.

Definition is_truthy (o : option string) : bool :=
  match o with Some s => truthy s | None => false end.

Section WithWorld.
Variable clock : nat -> Q.
Variable refresh_http : nat -> refresh_response.
Variable create_http : nat -> create_response.

(** [time.time()]. *)
Definition time (st : state) : Q * state :=
  (clock (clock_reads st),
   State (access_token st) (refresh_token st) (expires_at st)
         (Datatypes.S (clock_reads st)) (refresh_requests st)
         (create_requests st) (trace st)).

Definition record (e : event) (st : state) : state :=
  State (access_token st) (refresh_token st) (expires_at st)
        (clock_reads st) (refresh_requests st) (create_requests st)
        (trace st ++ [e]).

(** [save_token] (the token file is not modelled): the two tokens are
    assigned first, then the clock is read and the expiry computed. The
    addition raises [TypeError] when [expires_in] is no number; the
    tokens are stored by then and the expiry is the old one. The result
    is the text of the exception, or [None] when the method returns. *)
Definition save_token (a : string) (r : option string) (expires_in : lifetime)
    (st : state) : option string * state :=
  let st := State (Some a) r (expires_at st)
                  (clock_reads st) (refresh_requests st) (create_requests st)
                  (trace st) in
  let '(now, st) := time st in
  match expires_in with
  | Seconds e =>
      (None,
       State (access_token st) (refresh_token st) (now + e)
             (clock_reads st) (refresh_requests st) (create_requests st)
             (trace st))
  | NotANumber type_name =>
      (Some ("unsupported operand type(s) for +: 'float' and '" ++ type_name ++ "'"),
       st)
  end.

(** [refresh_access_token], called from [s]. Without a refresh token
    no request is sent. An exception of [save_token] is swallowed like
    any other and the answer is [False], with the tokens already
    replaced. *)
Definition refresh_access_token (s : site) (st : state) : bool * state :=
  if is_truthy (refresh_token st) then
    let resp := refresh_http (refresh_requests st) in
    let st := State (access_token st) (refresh_token st) (expires_at st)
                    (clock_reads st) (Datatypes.S (refresh_requests st))
                    (create_requests st) (trace st) in
    match resp with
    | RefreshOk a r e =>
        (true, record (RefreshAttempt s true) (snd (save_token a r (Seconds e) st)))
    | RefreshBadLifetime a r type_name =>
        (false,
         record (RefreshAttempt s false)
                (snd (save_token a r (NotANumber type_name) st)))
    | RefreshFailed => (false, record (RefreshAttempt s false) st)
    end
  else (false, record (RefreshAttempt s false) st).

Definition session_expired : reply :=
  Reply "error" (Some 401%Z)
        (Some (PyStr "Session expired. Please reconnect TikTok.")) None None.

(** [ensure_token]: the clock is read only when a token is there. *)
Definition ensure_token (st : state) : reply * state :=
  let '(fresh, st1) :=
    if is_truthy (access_token st) then
      let '(now, st1) := time st in
      ((if Qlt_le_dec now (expires_at st - 300) then true else false), st1)
    else (false, st) in
  if fresh then (success, st1)
  else
    let '(ok, st2) := refresh_access_token InEnsureToken st1 in
    if ok then (success, st2) else (session_expired, st2).

(** One round of the loop of [submit_ad] is the head of [attempts];
    [continue] and falling out of the [except] clause go on with the
    tail. *)
Fixpoint submit_loop (attempts : list nat) (st : state) : reply * state :=
  match attempts with
  | [] => (Reply "error" None (Some (PyStr "Max retries exceeded")) None None, st)
  | attempt :: rest =>
      let '(auth, st) := ensure_token st in
      if is_error auth then
        if (attempt =? 0)%nat then
          let '(ok, st) := refresh_access_token AfterFailedEnsure st in
          if ok then submit_loop rest st else (auth, st)
        else (auth, st)
      else
        let resp := create_http (create_requests st) in
        let st := State (access_token st) (refresh_token st) (expires_at st)
                        (clock_reads st) (refresh_requests st)
                        (Datatypes.S (create_requests st))
                        (trace st ++ [SubmitAttempt attempt]) in
        let raised (e : string) :=
          if (attempt =? 1)%nat
          then (Reply "error" None (Some (PyStr e)) None None, st)
          else submit_loop rest st in
        match resp with
        | CreateRaises e => raised e
        | CreateBody c m a =>
            if bool_decide (c = Some 0%Z) then
              match a with
              | Some i => (Reply "success" None None (Some i) None, st)
              | None => raised "'ad_id'"
              end
            else if bool_decide (c = Some 401%Z) && (attempt =? 0)%nat then
              let '(ok, st') := refresh_access_token AfterRejected st in
              if ok then submit_loop rest st'
              else (Reply "error" c (stored m) None None, st')
            else (Reply "error" c (stored m) None None, st)
        end
  end.

(** [submit_ad]: [for attempt in range(2)]. *)
Definition submit_ad (st : state) : reply * state :=
  submit_loop (seq 0 2) st.

End WithWorld.





End RealTikTokAPI.

(** ** [src/ui.py]: the SUBMIT_AD branch of [chat_interface]

    The branch reads the state the agent has accumulated, consults the
    capability and either hands a system-made message to the agent and
    shows the agent's answer, or extends the message it already has, or
    ends in an exception that nothing in [chat_interface] catches.
    [agent_says text] is [agent.process_message(text)["message_to_user"]];
    the capability is given by its two methods over its own state. *)

Module ChatInterface.
Import Py Json Reply.

(** [bool(x)] for the result of a [.get]: [None] when the key is
    missing. *)
Definition truthy_json (x : option json) : bool :=
  match x with
  | None | Some JNull | Some (JBool false) | Some (JNum 0%Z) => false
  | Some (JStr s) => truthy s
  | Some (JArr l) => match l with [] => false | _ => true end
  | Some (JObj o) => negb (bool_decide (size o = 0%nat))
  | Some _ => true
  end.

(** [x == s] for the result of a [.get] and a string literal. *)
Definition is_str (x : option json) (s : string) : bool :=
  match x with Some (JStr t) => String.eqb t s | _ => false end.

(** The exceptions the branch can end in. *)
Inductive error :=
| AttributeError
| KeyError (key : string)
| TypeError.

(** [state.get("creative_details", {}).get("music_id")]: a stored
    value that is no dictionary has no [get] and the call raises
    [AttributeError]. *)
Definition music_id_of (state : gmap string json) : error + option json :=
  match state !! "creative_details" with
  | None => inr None
  | Some (JObj o) => inr (o !! "music_id")
  | Some _ => inl AttributeError
  end.

(** An f-string hole holding the result of a [.get] on a reply. *)
Definition str_opt (o : option string) : string := default "None" o.

Definition str_code (c : option Z) : string :=
  match c with Some z => str_of_Z z | None => "None" end.

(** [";".join(errors)]. *)
Fixpoint join (sep : string) (l : list string) : string :=
  match l with
  | [] => ""
  | [x] => x
  | x :: rest => x ++ sep ++ join sep rest
  end.

Inductive capability_call :=
| ValidateMusic (mid : json)
| SubmitAd (payload : json).

(** How the branch ends: with the message to show, or in an
    exception. *)
Inductive outcome :=
| Shown (msg : string)
| Raises (e : error).

Section WithClient.
Context {S : Type}.
Variable validate_music_id : json -> S -> reply * S.
Variable submit_ad : json -> S -> reply * S.
Variable agent_says : string -> string.

(** [msg_api = r.get("message", "")]. *)
Definition msg_api (r : reply) : pyval := default (PyStr "") (message r).

(** The advice chosen from the code of a failed submission. In the last
    case the literal is concatenated with [msg_api], which raises
    [TypeError] when that is [None]. *)
Definition advice (r : reply) : error + string :=
  let other :=
    match msg_api r with
    | PyStr m => inr ("Check payload and music. " ++ m)
    | PyNone => inl TypeError
    end in
  match code r with
  | Some 401%Z =>
      inr "Session expired or invalid token. Please reconnect via the Connect button (will refresh tokens) or reauthorize."
  | Some 403%Z =>
      inr "Permission or geo restriction. Check TikTok developer console and your campaign targeting."
  | Some c =>
      if (500 <=? c)%Z && (c <? 600)%Z then
        inr "Server error at TikTok. Will retry shortly. If repeated, try again later."
      else other
  | None => other
  end.

(** Lines 35-39, the music check: the errors so far extended by the
    one of the check, or the [KeyError] of [mr['message']] on an error
    reply without that key; the capability afterwards and the calls
    made. *)
Definition music_check (mid : option json) (errors : list string) (a : S)
    : (error + list string) * S * list capability_call :=
  match mid with
  | Some j =>
      if truthy_json mid then
        let '(mr, a') := validate_music_id j a in
        ((if is_error mr then
            match message mr with
            | Some v => inr (errors ++ [("Music Invalid: " ++ str_val v)%string])%list
            | None => inl (KeyError "message")
            end
          else inr errors),
         a', [ValidateMusic j])
      else (inr errors, a, [])
  | None => (inr errors, a, [])
  end.

(** Lines 29-72: how the branch ends, the capability afterwards and the
    capability calls made, in order. *)
Definition submit_branch (msg : string) (state : gmap string json) (a : S)
    : outcome * S * list capability_call :=
  match music_id_of state with
  | inl e => (Raises e, a, [])
  | inr mid =>
      let errors :=
        if is_str (state !! "objective") "Conversions" && negb (truthy_json mid)
        then ["Conversions require Music."] else [] in
      match music_check mid errors a with
      | (inl e, a, calls) => (Raises e, a, calls)
      | (inr ((_ :: _) as errors), a, calls) =>
          (Shown (agent_says ("Submit Blocked: " ++ join ";" errors)), a, calls)
      | (inr [], a, calls) =>
          let name := state !! "campaign_name" in
          let objective := state !! "objective" in
          let payload :=
            JObj (<["campaign" :=
                      JObj (<["name" := default JNull name]>
                           (<["objective" := default JNull objective]> ∅))]>
                 (<["creative" := default (JObj ∅) (state !! "creative_details")]> ∅)) in
          if negb (truthy_json name) || negb (truthy_json objective) then
            (Shown (agent_says
                      "System Error: Payload incomplete (Missing Name/Objective)."),
             a, calls)
          else
            let '(r, a') := submit_ad payload a in
            let calls := (calls ++ [SubmitAd payload])%list in
            if is_error r then
              match advice r with
              | inl e => (Raises e, a', calls)
              | inr adv =>
                  (Shown (agent_says ("API Error " ++ str_code (code r) ++ ": "
                                        ++ str_val (msg_api r)
                                        ++ ". Advice: " ++ adv)),
                   a', calls)
              end
            else
              (Shown (msg ++ nl ++ nl ++ "SUCCESS! Ad ID: " ++ str_opt (ad_id r)),
               a', calls)
      end
  end.

End WithClient.

End ChatInterface.

(** ** Concrete inputs used below *)

Module Examples.
Import Py Json.

Definition kwargs (l : list (string * pyval)) : gmap string pyval :=
  list_to_map l.

(** [n] times the letter A: ["A" * n]. *)
Definition As (n : nat) : string := string_of_list_ascii (repeat "A"%char n).

(** An agent whose state holds a music id, and a schema-valid model
    output whose state carries [null] for it. *)
Definition agent_with_music : AdAgent.agent :=
  AdAgent.Agent [] (<["music_id" := JStr "X"]> ∅) [].

Definition output_with_null : json :=
  JObj (<["thought" := JStr "user wants no music"]>
       (<["message_to_user" := JStr "Noted."]>
       (<["action" := JStr "NONE"]>
       (<["updated_ad_state" := JObj (<["music_id" := JNull]> ∅)]> ∅)))).

(** The keyword arguments of [test_ad_text_max_length] in test.py. *)
Definition too_long_ad_text : gmap string pyval :=
  kwargs [("campaign_name", PyStr "Test Campaign"); ("objective", PyStr "Traffic");
          ("ad_text", PyStr (As 101)); ("cta", PyStr "Click")].

(** A configuration as [process_message] accumulates it when the user of
    a Conversions campaign never names a track: the model's state carries
    [null] for the music id, so the key is never stored. *)
Definition conversions_without_music : gmap string pyval :=
  kwargs [("campaign_name", PyStr "Lead Gen Campaign");
          ("objective", PyStr "Conversions");
          ("ad_text", PyStr "Sign up for our newsletter!");
          ("cta", PyStr "Subscribe")].

(** A configuration with a campaign name that is too short and nothing
    else. *)
Definition short_name_only : gmap string pyval :=
  kwargs [("campaign_name", PyStr "ab")].

(** The state of [AdAgent] with a two-letter campaign name. *)
Definition short_name_state : gmap string json :=
  <["campaign_name" := JStr "ab"]> (<["objective" := JStr "Traffic"]> ∅).

(** A deterministic random source: [random()] yields 1/2 and
    [randint(a, b)] yields [a]. *)
#[global] Instance fixed_random : MockTikTokAPI.RandomSource nat := {|
  MockTikTokAPI.random g := (1 # 2, Datatypes.S g);
  MockTikTokAPI.randint a b g := (a, Datatypes.S g)
|}.

(** The mock of mock_api.py with failure simulation switched off. *)
Definition quiet_mock : MockTikTokAPI.state nat :=
  MockTikTokAPI.init false (1 # 10) 0%nat.

(** A manager over that mock holding a given configuration. *)
Definition manager_with (cfg : gmap string pyval)
    : ConversationManager.manager (MockTikTokAPI.state nat) :=
  ConversationManager.Manager [] cfg quiet_mock [].

(** Live capability: a credential that expires at second 2000, and no
    credential at all. *)
Definition fresh_credential : RealTikTokAPI.state :=
  RealTikTokAPI.State (Some "tok") (Some "ref") 2000%Q 0%nat 0%nat 0%nat [].

Definition no_credential : RealTikTokAPI.state :=
  RealTikTokAPI.State None None 0%Q 0%nat 0%nat 0%nat [].

(** A clock that always reads second 1000; a refresh endpoint that always
    fails and one that always issues a day-long token; an ad endpoint
    that rejects the first request with 401 and accepts the next ones. *)
Definition clock_1000 : nat -> Q := fun _ => 1000%Q.

Definition refresh_fails : nat -> RealTikTokAPI.refresh_response :=
  fun _ => RealTikTokAPI.RefreshFailed.

Definition refresh_works : nat -> RealTikTokAPI.refresh_response :=
  fun _ => RealTikTokAPI.RefreshOk "tok2" (Some "ref2") 86400%Q.

Definition rejected_once : nat -> RealTikTokAPI.create_response :=
  fun k =>
    match k with
    | O => RealTikTokAPI.CreateBody (Some 401%Z) (Some "Access token expired") None
    | _ => RealTikTokAPI.CreateBody (Some 0%Z) (Some "OK") (Some "ad_1")
    end.

End Examples.

(** ** [app.py]: the chat callbacks over the conversation manager *)

Module App.
Import Py API LLMClient ConversationManager.

Section WithCollaborators.
Context {S : Type} `{TikTokAPI S}.
Variable llm : list chat_message -> gmap string pyval -> result response.

(** [chat_fn]: a message that is empty or blank after trimming is
    dropped; otherwise the trimmed message goes to the manager and the
    message as typed goes to the displayed history. *)
Definition chat_fn (message : string) (history : list (string * string))
    (m : manager S) : list (string * string) * manager S :=
  if negb (truthy message) || negb (truthy (strip message)) then (history, m)
  else
    let '(response, m) := process_message llm (strip message) m in
    ((history ++ [(message, response)])%list, m).

End WithCollaborators.

End App.

(** ** [src/api_mock.py]: connecting the simulated capability *)

Module SimpleMockAuth.
Import Py Reply SimpleMock.

(** [get_access_token]. *)
Definition get_access_token (code : string) (st : state) : reply * state :=
  (success, State (Some "mock_token") (music_db st) (geo_failure st)).

End SimpleMockAuth.

(** ** [src/api_real.py]: the anti-forgery state, the token exchange and
       the music check of the live capability *)

Module RealAuth.
Import Py Reply RealTikTokAPI.

(** [s.split(sep)] for a one-character separator. *)
Fixpoint split (sep : ascii) (s : string) : list string :=
  match s with
  | EmptyString => [EmptyString]
  | String c s' =>
      if Ascii.eqb c sep then EmptyString :: split sep s'
      else
        match split sep s' with
        | [] => [String c EmptyString]
        | w :: ws => String c w :: ws
        end
  end.

(** The state file: [None] when it does not exist or cannot be read as
    JSON, otherwise the value under ["state"] ([None] when absent). *)
Definition state_file : Type := option (option string).


(** [verify_state]. *)
Definition verify_state (received_state : option string) (f : state_file) : bool :=
  match received_state with
  | Some (String _ _ as r) =>
      match f with
      | Some saved => bool_decide (saved = Some r)
      | None => false
      end
  | _ => false
  end.

(** The ["scope"] of the token data: a string, or already a list (the
    default, when absent, is the empty list). *)
Inductive scope_raw :=
| ScopeStr (s : string)
| ScopeList (l : list string).

(** Scope parsing: [[s.strip() for s in scope_raw.split(",") if s.strip()]]. *)
Definition parse_scopes (raw : scope_raw) : list string :=
  match raw with
  | ScopeStr s =>
      map strip (List.filter (fun x => truthy (strip x)) (split "," s))
  | ScopeList l => l
  end.

(** [required.issubset(set(scopes))]. *)
Definition has_required (scopes : list string) : bool :=
  bool_decide ("ads_management" ∈ scopes) && bool_decide ("creative_management" ∈ scopes).

(** The token endpoint: the decoded body, or an exception. In the body,
    [access_token] and [expires_in] are [None] when ["data"] has no
    such key; a body with code 0 and no ["data"] raises [KeyError] and
    is a [TokenRaises]. *)
Inductive token_response :=
| TokenBody (code : option Z) (message : option string)
            (access_token : option string) (refresh_token : option string)
            (scope : scope_raw) (expires_in : option lifetime)
| TokenRaises (e : string).

(** The music endpoint: the decoded body with its ["code"] and
    ["message"] and whether it has ["data"], or an exception. *)
Inductive music_response :=
| MusicBody (code : option Z) (message : option string) (has_data : bool)
| MusicRaises (e : string).

Section WithWorld.
Variable clock : nat -> Q.
Variable refresh_http : nat -> refresh_response.
(** What the token endpoint answers to an authorization code and the
    music endpoint to a music id. *)
Variable token_http : string -> token_response.
Variable music_http : string -> music_response.
(** [repr] of a list of strings, for the "Missing Scopes" message. *)
Variable repr_scopes : list string -> string.

(** [get_access_token]. An exception of [save_token] is caught like
    any other and answered with its text; the tokens are stored by
    then. *)
Definition get_access_token (code : string) (st : state) : reply * state :=
  match token_http code with
  | TokenRaises e => (Reply "error" None (Some (PyStr e)) None None, st)
  | TokenBody c m a r scope e =>
      if bool_decide (c = Some 0%Z) then
        let scopes := parse_scopes scope in
        if negb (has_required scopes) then
          (Reply "error" None
                 (Some (PyStr ("Missing Scopes. Got: " ++ repr_scopes scopes)))
                 None None, st)
        else
          match a with
          | Some tok =>
              match save_token clock tok r (default (Seconds 86400) e) st with
              | (None, st') => (success, st')
              | (Some raised, st') =>
                  (Reply "error" None (Some (PyStr raised)) None None, st')
              end
          | None =>
              (Reply "error" None (Some (PyStr "'access_token'")) None None, st)
          end
      else (Reply "error" None (stored m) None None, st)
  end.

(** [validate_music_id]: the credential check comes first and its
    failure is returned as it is; the last component lists the music
    ids asked from the endpoint. The ["data"] of a successful reply is
    not represented. *)
Definition validate_music_id (music_id : string) (st : state)
    : reply * state * list string :=
  let '(auth, st) := ensure_token clock refresh_http st in
  if is_error auth then (auth, st, [])
  else
    match music_http music_id with
    | MusicRaises e =>
        (Reply "error" None (Some (PyStr e)) None None, st, [music_id])
    | MusicBody c m has_data =>
        if bool_decide (c = Some 0%Z) then
          if has_data then (Reply "success" None None None None, st, [music_id])
          else (Reply "error" None (Some (PyStr "'data'")) None None, st, [music_id])
        else (Reply "error" None (stored m) None None, st, [music_id])
    end.

(** [upload_music]. *)
Definition upload_music (file_name : string) (st : state) : reply * state :=
  (Reply "error" None (Some (PyStr "Real Upload Not Implemented in Demo")) None None,
   st).

End WithWorld.

End RealAuth.

(** ** [src/server.py]: the callback endpoint *)

Module Server.
Import Py Reply.

Section WithClient.
Context {W : Type}.
(** The flag [USE_REAL_API] and the two methods of the client the
    endpoint calls. *)
Variable USE_REAL_API : bool.
Variable verify_state : option string -> W -> bool.
Variable get_access_token : string -> W -> reply * W.

(** [callback]: the page returned (its HTML body) and the client
    afterwards. *)
Definition callback (code state : option string) (w : W) : string * W :=
  match code with
  | Some (String _ _ as c) =>
      if USE_REAL_API && negb (verify_state state w) then
        ("<h1>Error: Invalid State (CSRF Warning).</h1>", w)
      else
        let '(res, w') := get_access_token c w in
        if String.eqb (status res) "success" then
          ("<h1>Connected! You can close this tab and return to the Agent.</h1>", w')
        else ("<h1>Error: " ++ str_val (default PyNone (message res)) ++ "</h1>", w')
  | _ => ("<h1>Error: No code provided.</h1>", w)
  end.

End WithClient.

(** [src/instances.py] with [USE_REAL_API] set: the client is the live
    capability, here its state file and its credential. *)
Definition live_callback (clock : nat -> Q)
    (token_http : string -> RealAuth.token_response)
    (repr_scopes : list string -> string)
    (code state : option string)
    (w : RealAuth.state_file * RealTikTokAPI.state)
    : string * (RealAuth.state_file * RealTikTokAPI.state) :=
  callback true
    (fun received w => RealAuth.verify_state received (fst w))
    (fun c w =>
       let '(res, st) :=
         RealAuth.get_access_token clock token_http repr_scopes c (snd w) in
       (res, (fst w, st)))
    code state w.

End Server.

(** ** [src/ui.py]: the UPLOAD_MUSIC branch of [chat_interface] *)

Module ChatUpload.
Import Py Json Reply.

Section WithClient.
Context {S : Type}.
Variable upload_music : string -> S -> reply * S.

(** Lines 21-27: the message shown, the agent's state and the
    capability afterwards. A successful reply without ["music_id"] and
    a stored ["creative_details"] that is no dictionary make the
    branch raise ([None]). *)
Definition upload_branch (msg : string) (state : gmap string json) (a : S)
    : option (string * gmap string json * S) :=
  let '(r, a') := upload_music "test.mp3" a in
  if String.eqb (status r) "success" then
    match music_id r with
    | None => None
    | Some mid =>
        match default (JObj ∅) (state !! "creative_details") with
        | JObj o =>
            Some (msg ++ nl ++ "(System: Uploaded ID " ++ mid ++ ")",
                  <["creative_details" := JObj (<["music_id" := JStr mid]> o)]> state,
                  a')
        | _ => None
        end
    end
  else Some (msg, state, a').

End WithClient.

End ChatUpload.

(** ** Further concrete inputs *)

Module MoreExamples.
Import Py Json.

(** The mock of mock_api.py with every call class failing. *)
Definition failing_mock : MockTikTokAPI.state nat :=
  MockTikTokAPI.init true 1%Q 0%nat.

(** A random source whose [random()] yields 1/100, and a manager over
    the mock of mock_api.py driven by it, holding a configuration that
    validates. *)
#[global] Instance low_random : MockTikTokAPI.RandomSource unit := {|
  MockTikTokAPI.random g := (1 # 100, g);
  MockTikTokAPI.randint a b g := (a, g)
|}.

Definition traffic_config : gmap string pyval :=
  Examples.kwargs [("campaign_name", PyStr "Summer Sale 2026");
                   ("objective", PyStr "Traffic");
                   ("ad_text", PyStr "Get 50% off on all products!");
                   ("cta", PyStr "Shop Now")].

Definition rejected_manager
    : ConversationManager.manager (MockTikTokAPI.state unit) :=
  ConversationManager.Manager [] traffic_config
    (MockTikTokAPI.init true (1 # 10) tt) [].



(** An agent that has collected a name, an objective and empty creative
    details, and a schema-valid model output that renames the campaign
    and sets a music id. *)
Definition typed_agent : AdAgent.agent :=
  AdAgent.Agent []
    (<["campaign_name" := JStr "Draft"]>
    (<["objective" := JStr "Conversions"]>
    (<["creative_details" := JObj ∅]> ∅))) [].

Definition output_with_details : json :=
  JObj (<["thought" := JStr "user picked a track"]>
       (<["message_to_user" := JStr "Got it."]>
       (<["action" := JStr "NONE"]>
       (<["updated_ad_state" :=
            JObj (<["campaign_name" := JStr "Summer Sale 2026"]>
                 (<["creative_details" :=
                      JObj (<["music_id" := JStr "123"]> ∅)]> ∅))]> ∅)))).

(** States of the interface: one ready to be submitted with a music id
    the simulated capability knows, and one whose creative details are
    a string. *)
Definition ready_state : gmap string json :=
  <["campaign_name" := JStr "Summer Sale 2026"]>
  (<["objective" := JStr "Conversions"]>
  (<["creative_details" := JObj (<["music_id" := JStr "123"]> ∅)]> ∅)).

Definition broken_state : gmap string json :=
  <["campaign_name" := JStr "Summer Sale 2026"]>
  (<["objective" := JStr "Traffic"]>
  (<["creative_details" := JStr "music 123"]> ∅)).

End MoreExamples.

(* ===================================================================== *)
(** * Part II: properties                                                 *)
(* ===================================================================== *)

Section PyFacts.
Import Py.

Lemma startswith_app (p t : string) : startswith p (p ++ t) = true.
Proof.
  induction p as [|a p IH]; simpl; [reflexivity|].
  rewrite Ascii.eqb_refl. exact IH.
Qed.

Lemma startswith_inv (p s : string) :
  startswith p s = true -> exists t, s = p ++ t.
Proof.
  revert s. induction p as [|a p IH]; intros s H; simpl in *.
  - exists s. reflexivity.
  - destruct s as [|b s]; [discriminate|].
    destruct (Ascii.eqb a b) eqn:E; [|discriminate].
    apply Ascii.eqb_eq in E. subst b.
    destruct (IH _ H) as [t ->]. exists t. reflexivity.
Qed.

Lemma str_in_startswith (p s : string) :
  startswith p s = true -> str_in p s = true.
Proof.
  intros H. destruct s; unfold str_in; fold str_in; rewrite H; reflexivity.
Qed.

Lemma str_in_cons (sub : string) (c : ascii) (s : string) :
  str_in sub s = true -> str_in sub (String c s) = true.
Proof.
  intros H. unfold str_in; fold str_in. rewrite H. apply orb_true_r.
Qed.

Lemma str_in_contains (sub s : string) :
  str_in sub s = true <-> contains sub s.
Proof.
  split.
  - induction s as [|c s IH]; unfold str_in; fold str_in; intros H.
    + apply orb_true_iff in H as [H|H]; [|discriminate].
      apply startswith_inv in H as [t ->]. exists "", t. reflexivity.
    + apply orb_true_iff in H as [H|H].
      * apply startswith_inv in H as [t ->]. exists "", t. reflexivity.
      * destruct (IH H) as (pre & post & ->).
        exists (String c pre), post. reflexivity.
  - intros (pre & post & ->).
    induction pre as [|c pre IH].
    + change ("" ++ sub ++ post) with (sub ++ post).
      apply str_in_startswith, startswith_app.
    + change (String c pre ++ sub ++ post) with (String c (pre ++ sub ++ post)).
      apply str_in_cons, IH.
Qed.

Lemma contains_suffix (pre sub : string) : contains sub (pre ++ sub).
Proof.
  exists pre, "". f_equal.
  induction sub as [|a sub IH]; simpl; [reflexivity | now rewrite <- IH].
Qed.

End PyFacts.

(** ** ErrorInterpreter *)

Section ErrorInterpreterFacts.
Import Py ErrorInterpreter.

Lemma interpret_unmapped (code : string) :
  code ∉ ["INVALID_TOKEN"; "INSUFFICIENT_PERMISSIONS"; "MUSIC_NOT_FOUND";
          "INVALID_MUSIC_ID"; "GEO_RESTRICTED"] ->
  ERRORS !! code = None.
Proof.
  intros Hn. unfold ERRORS.
  repeat (rewrite lookup_insert_ne;
          [| intros <-; apply Hn; repeat constructor]).
  apply lookup_empty.
Qed.

End ErrorInterpreterFacts.

(** C5. [interpret] is a total function from error-code strings to rows
    with explanation, action, retryable flag and severity. The five codes
    of the table get their rows (invalid token: retryable, medium;
    insufficient permissions: not retryable, high; music not found: not
    retryable, low; invalid music id: not retryable, medium; geo
    restricted: not retryable, high), and every other code gets the default
    row: retryable, medium, with an explanation that ends in the code. *)
Theorem C5_interpret_table :
  let row c := (ErrorInterpreter.retryable (ErrorInterpreter.interpret c),
                ErrorInterpreter.severity (ErrorInterpreter.interpret c)) in
  row "INVALID_TOKEN" = (true, "medium") /\
  row "INSUFFICIENT_PERMISSIONS" = (false, "high") /\
  row "MUSIC_NOT_FOUND" = (false, "low") /\
  row "INVALID_MUSIC_ID" = (false, "medium") /\
  row "GEO_RESTRICTED" = (false, "high") /\
  forall code : string,
    code ∉ ["INVALID_TOKEN"; "INSUFFICIENT_PERMISSIONS"; "MUSIC_NOT_FOUND";
            "INVALID_MUSIC_ID"; "GEO_RESTRICTED"] ->
    ErrorInterpreter.interpret code =
      ErrorInterpreter.Entry
        ("An unexpected error occurred: " ++ code)
        "Please try again. If the issue persists, contact support."
        true "medium" /\
    Py.contains code (ErrorInterpreter.explanation (ErrorInterpreter.interpret code)).
Proof.
  cbv zeta. repeat (split; [vm_compute; reflexivity|]).
  intros code Hn. unfold ErrorInterpreter.interpret.
  rewrite (interpret_unmapped code Hn). split; [reflexivity|].
  exact (contains_suffix "An unexpected error occurred: " code).
Qed.

Lemma C5_interpret_table_witness :
  ErrorInterpreter.retryable (ErrorInterpreter.interpret "UNKNOWN_ERROR_12345") = true /\
  Py.contains "UNKNOWN_ERROR_12345"
    (ErrorInterpreter.explanation (ErrorInterpreter.interpret "UNKNOWN_ERROR_12345")).
Proof.
  destruct C5_interpret_table as (_ & _ & _ & _ & _ & H).
  destruct (H "UNKNOWN_ERROR_12345") as [E C].
  - intros Hin. repeat (apply elem_of_cons in Hin as [Hin|Hin]; [discriminate Hin|]).
    inversion Hin.
  - split; [rewrite E; reflexivity | exact C].
Defined.

(** ** Merging a proposed state into the configuration *)

Section MergeFacts.
Import Py Json.

(** [ConversationManager.merge], key by key: a string in the delta
    wins, [None] or no entry leaves the configuration as it was. *)
Lemma manager_merge_lookup (delta cfg : gmap string pyval) (k : string) :
  ConversationManager.merge delta cfg !! k =
    match delta !! k with
    | Some (PyStr s) => Some (PyStr s)
    | _ => cfg !! k
    end.
Proof.
  unfold ConversationManager.merge.
  apply (map_fold_weak_ind
           (fun r (m : gmap string pyval) =>
              r !! k = match m !! k with
                       | Some (PyStr s) => Some (PyStr s)
                       | _ => cfg !! k
                       end)).
  - rewrite lookup_empty. reflexivity.
  - intros i x m r Hi IH.
    destruct (decide (i = k)) as [->|Hne].
    + rewrite lookup_insert_eq.
      destruct x as [|s].
      * rewrite IH, Hi. reflexivity.
      * apply lookup_insert_eq.
    + rewrite (lookup_insert_ne m) by exact Hne.
      destruct x as [|s]; [exact IH|].
      rewrite lookup_insert_ne by exact Hne. exact IH.
Qed.

(** [AdAgent.merge], key by key: whatever the new state holds wins,
    [null] included. *)
Lemma agent_merge_lookup (new_state collected : gmap string json) (k : string) :
  AdAgent.merge new_state collected !! k =
    match new_state !! k with
    | Some v => Some v
    | None => collected !! k
    end.
Proof.
  unfold AdAgent.merge.
  apply (map_fold_weak_ind
           (fun r (m : gmap string json) =>
              r !! k = match m !! k with
                       | Some v => Some v
                       | None => collected !! k
                       end)).
  - rewrite lookup_empty. reflexivity.
  - intros i x m r Hi IH.
    destruct (decide (i = k)) as [->|Hne].
    + rewrite !lookup_insert_eq. reflexivity.
    + rewrite !lookup_insert_ne by exact Hne. exact IH.
Qed.

End MergeFacts.

(** C3. Merging a state delta. In [ConversationManager] (agent.py) the
    merge is field-wise: a key whose delta entry is [None] or absent keeps
    its value, a key whose delta entry is a string takes it. In [AdAgent]
    (src/agent.py) the merge has no such guard: a schema-valid output
    whose state maps ["music_id"] to [null] replaces the stored ["X"] by
    [null]. *)
Theorem C3_merge_fieldwise :
  (forall (delta cfg : gmap string Py.pyval) (k : string),
      delta !! k = None \/ delta !! k = Some Py.PyNone ->
      ConversationManager.merge delta cfg !! k = cfg !! k) /\
  (forall (delta cfg : gmap string Py.pyval) (k s : string),
      delta !! k = Some (Py.PyStr s) ->
      ConversationManager.merge delta cfg !! k = Some (Py.PyStr s)) /\
  (Schemas.AGENT_OUTPUT_SCHEMA Examples.output_with_null = true /\
   AdAgent.collected_data Examples.agent_with_music !! "music_id"
     = Some (Json.JStr "X") /\
   AdAgent.collected_data
     (snd (AdAgent.process_message
             (fun _ _ => inr Examples.output_with_null) (fun _ => "")
             true "no music please" None Examples.agent_with_music))
     !! "music_id" = Some Json.JNull).
Proof.
  split; [|split].
  - intros delta cfg k [E|E]; rewrite manager_merge_lookup, E; reflexivity.
  - intros delta cfg k s E. rewrite manager_merge_lookup, E. reflexivity.
  - split; [vm_compute; reflexivity|]. split; [vm_compute; reflexivity|].
    vm_compute. reflexivity.
Qed.

Lemma C3_merge_fieldwise_witness :
  ConversationManager.merge
    (<["music_id" := Py.PyNone]> ∅) (<["music_id" := Py.PyStr "X"]> ∅)
    !! "music_id" = Some (Py.PyStr "X") /\
  ConversationManager.merge
    (<["music_id" := Py.PyStr "12345"]> ∅) (<["music_id" := Py.PyStr "X"]> ∅)
    !! "music_id" = Some (Py.PyStr "12345").
Proof.
  destruct C3_merge_fieldwise as (Hnoop & Hset & _).
  split.
  - rewrite (Hnoop (<["music_id" := Py.PyNone]> ∅)
               (<["music_id" := Py.PyStr "X"]> ∅) "music_id").
    + reflexivity.
    + right. reflexivity.
  - apply Hset. reflexivity.
Defined.

(** ** One turn of the conversation manager *)

Section ManagerFacts.
Import API LLMClient ConversationManager.
Context {S : Type} `{TikTokAPI S}.
Variable llm : list chat_message -> gmap string pyval -> result response.

Lemma validate_music_messages (m : manager S) :
  messages (snd (_validate_music m)) = messages m.
Proof.
  unfold _validate_music.
  destruct (default PyNone (ad_config m !! "music_id")) as [|[|c mid]];
    try reflexivity.
  destruct (validate_music_id _ _ _) as [[e|[d|code msg]] a]; reflexivity.
Qed.

Lemma upload_music_messages (file_path : string) (m : manager S) :
  messages (snd (_upload_music file_path m)) = messages m.
Proof.
  unfold _upload_music.
  destruct (upload_music _ _ _) as [[e|[d|code msg]] a]; reflexivity.
Qed.

Lemma submit_ad_messages (m : manager S) :
  messages (snd (_submit_ad m)) = messages m.
Proof.
  unfold _submit_ad.
  destruct (AdConfig.AdConfig (ad_config m)) as [errs|cfg]; [reflexivity|].
  destruct (create_ad _ _ _) as [[[e|e]|[d|code msg]] a]; reflexivity.
Qed.

(** The [try] block never touches the history. *)
Lemma turn_messages (user_msg : string) (m : manager S) :
  messages (snd (turn llm user_msg m)) = messages m.
Proof.
  unfold turn.
  destruct (llm (messages m) (ad_config m)) as [e|r]; [reflexivity|].
  destruct (message r) as [agent_msg|]; [|reflexivity].
  set (m' := match state r with Some _ => _ | None => _ end).
  assert (Hm : messages m' = messages m)
    by (subst m'; destruct (state r); reflexivity).
  destruct (String.eqb _ "validate_music");
    [rewrite validate_music_messages; exact Hm|].
  destruct (String.eqb _ "upload_music");
    [rewrite upload_music_messages; exact Hm|].
  destruct (String.eqb _ "submit"); [|exact Hm].
  pose proof (submit_ad_messages m') as Hs.
  destruct (_submit_ad m') as [msg m'']. simpl in *. congruence.
Qed.

End ManagerFacts.

(** C10. Whatever the language-model client and the capability do
    (return or raise), [process_message] returns a string and leaves the
    history longer by exactly two entries: the user's message, then the
    assistant's answer, which is the string returned. *)
Theorem C10_process_message_appends_two :
  forall (S : Type) (A : API.TikTokAPI S)
         (llm : list LLMClient.chat_message -> gmap string Py.pyval ->
                Py.result LLMClient.response)
         (user_msg : string) (m : ConversationManager.manager S),
    let '(answer, m') := ConversationManager.process_message llm user_msg m in
    ConversationManager.messages m' =
      (ConversationManager.messages m ++
         [LLMClient.ChatMessage "user" user_msg;
          LLMClient.ChatMessage "assistant" answer])%list.
Proof.
  intros S A llm user_msg m. unfold ConversationManager.process_message.
  pose proof (turn_messages llm user_msg
                (ConversationManager.append_message m "user" user_msg)) as Ht.
  destruct (ConversationManager.turn llm user_msg _) as [[e|agent_msg] m'];
    simpl in *; rewrite Ht; rewrite <- app_assoc; reflexivity.
Qed.

(** ** Substrings of composed messages *)

Section ContainsFacts.
Import Py.

Lemma append_assoc (a b c : string) : (a ++ b) ++ c = a ++ b ++ c.
Proof. induction a as [|x a IH]; simpl; [reflexivity | now rewrite IH]. Qed.

Lemma contains_refl (s : string) : contains s s.
Proof. exact (contains_suffix "" s). Qed.

Lemma contains_app_r (x a b : string) : contains x b -> contains x (a ++ b).
Proof.
  intros (pre & post & ->). exists (a ++ pre), post.
  now rewrite append_assoc.
Qed.

Lemma contains_app_l (x a b : string) : contains x a -> contains x (a ++ b).
Proof.
  intros (pre & post & ->). exists pre, (post ++ b).
  now rewrite !append_assoc.
Qed.

Lemma contains_join (x sep : string) (l : list string) (s : string) :
  In s l -> contains x s -> contains x (Pydantic.join sep l).
Proof.
  induction l as [|y l IH]; intros Hin Hx; [destruct Hin|].
  destruct Hin as [->|Hin].
  - destruct l as [|z l]; [exact Hx|].
    cbn [Pydantic.join]. now apply contains_app_l.
  - destruct l as [|z l]; [destruct Hin|].
    cbn [Pydantic.join]. apply contains_app_r, contains_app_r. now apply IH.
Qed.

End ContainsFacts.

(** ** The validation pipeline on [AdConfig] *)

Section AdConfigFacts.
Import Pydantic AdConfig.

(** An error carries the name of its field. *)
Lemma validate_field_loc (name : string) (f : field_spec)
    (kwargs values : gmap string pyval) (e : error) :
  validate_field name f kwargs values = inl e -> loc e = name.
Proof.
  unfold validate_field, validate_value, length_check, value_error.
  intros Hv. repeat case_match; simplify_eq; reflexivity.
Qed.

(** The constructor fails exactly with the errors collected, and never
    with an empty list. *)
Lemma violations_unfold (kwargs : gmap string pyval) :
  violations kwargs = snd (validate_model fields kwargs ∅ []).
Proof.
  unfold violations, AdConfig.AdConfig, construct.
  destruct (validate_model fields kwargs ∅ []) as [v [|e l]]; reflexivity.
Qed.

Lemma AdConfig_inl (kwargs : gmap string pyval) (errs : list error) :
  AdConfig.AdConfig kwargs = inl errs -> errs <> [] /\ violations kwargs = errs.
Proof.
  unfold violations. intros E. rewrite E. split; [|reflexivity].
  unfold AdConfig.AdConfig, construct in E.
  destruct (validate_model fields kwargs ∅ []) as [v [|e l]];
    [discriminate | injection E as <-; discriminate].
Qed.

Lemma AdConfig_inr (kwargs cfg : gmap string pyval) :
  AdConfig.AdConfig kwargs = inr cfg -> violations kwargs = [].
Proof. unfold violations. now intros ->. Qed.

(** The [ad_text] field on a string: the [max_length] constraint decides,
    and the class validator only ever sees strings that satisfy it. *)
Lemma ad_text_field (kwargs values : gmap string pyval) (s : string) :
  kwargs !! "ad_text" = Some (PyStr s) ->
  validate_field "ad_text" (StrField None (Some 100%nat) (Some validate_ad_text))
    kwargs values =
  if (100 <? String.length s)%nat then
    inl (Error "ad_text" "ensure this value has at most 100 characters"
           "value_error.any_str.max_length" "; limit_value=100")
  else inr (PyStr s).
Proof.
  intros E. unfold validate_field. rewrite E.
  unfold validate_value, length_check.
  destruct (100 <? String.length s)%nat eqn:L; [reflexivity|].
  unfold validate_ad_text. rewrite L. reflexivity.
Qed.

(** The errors of [ad_text] among all violations. *)
Lemma ad_text_violations (kwargs : gmap string pyval) (s : string) :
  kwargs !! "ad_text" = Some (PyStr s) ->
  violations_of "ad_text" kwargs =
  if (100 <? String.length s)%nat then
    [Error "ad_text" "ensure this value has at most 100 characters"
       "value_error.any_str.max_length" "; limit_value=100"]
  else [].
Proof.
  intros E. unfold violations_of. rewrite violations_unfold.
  unfold fields. cbn [validate_model].
  destruct (validate_field "campaign_name" _ _ _) as [e1|v1] eqn:E1;
    [apply validate_field_loc in E1|];
  (destruct (validate_field "objective" _ _ _) as [e2|v2] eqn:E2;
    [apply validate_field_loc in E2|]);
  rewrite (ad_text_field _ _ s E);
  destruct (100 <? String.length s)%nat;
  (destruct (validate_field "cta" _ _ _) as [e4|v4] eqn:E4;
    [apply validate_field_loc in E4|]);
  (destruct (validate_field "music_id" _ _ _) as [e5|v5] eqn:E5;
    [apply validate_field_loc in E5|]);
  cbn [snd app List.filter loc];
  rewrite ?E1, ?E2, ?E4, ?E5; reflexivity.
Qed.

End AdConfigFacts.

(** C7. The [ad_text] rule is an exact boundary on the untrimmed length:
    a text of length 100 yields no [ad_text] violation and a text of
    length 101 yields one. That violation, however, is the one of the
    [max_length=100] constraint of the field declaration, which runs
    before [validate_ad_text]: its message names the limit and not the
    current length, and the message of [validate_ad_text], which would
    name it, is never produced. On the input of [test_ad_text_max_length]
    the text of the error does not contain what that test matches. *)
Theorem C7_ad_text_boundary :
  (forall (kwargs : gmap string Py.pyval) (s : string),
      kwargs !! "ad_text" = Some (Py.PyStr s) ->
      String.length s = 100%nat ->
      AdConfig.violations_of "ad_text" kwargs = []) /\
  (forall (kwargs : gmap string Py.pyval) (s : string),
      kwargs !! "ad_text" = Some (Py.PyStr s) ->
      String.length s = 101%nat ->
      AdConfig.violations_of "ad_text" kwargs =
        [Pydantic.Error "ad_text" "ensure this value has at most 100 characters"
           "value_error.any_str.max_length" "; limit_value=100"] /\
      AdConfig.validate_ad_text s ∅ =
        inl "Ad text cannot exceed 100 characters (current: 101)") /\
  Py.str_in "101" "ensure this value has at most 100 characters" = false /\
  (exists errs,
      AdConfig.AdConfig Examples.too_long_ad_text = inl errs /\
      Py.str_in "cannot exceed 100 characters"
        (Pydantic.str_ValidationError "AdConfig" errs) = false /\
      Py.str_in "101" (Pydantic.str_ValidationError "AdConfig" errs) = false).
Proof.
  split; [|split; [|split]].
  - intros kwargs s E L. rewrite (ad_text_violations kwargs s E), L. reflexivity.
  - intros kwargs s E L. rewrite (ad_text_violations kwargs s E), L.
    split; [reflexivity|].
    unfold AdConfig.validate_ad_text. rewrite L. reflexivity.
  - vm_compute. reflexivity.
  - eexists. split; [vm_compute; reflexivity|].
    split; vm_compute; reflexivity.
Qed.

Lemma C7_ad_text_boundary_witness :
  AdConfig.violations_of "ad_text"
    (<["ad_text" := Py.PyStr (Examples.As 100)]> ∅) = [] /\
  AdConfig.violations_of "ad_text"
    (<["ad_text" := Py.PyStr (Examples.As 101)]> ∅) =
    [Pydantic.Error "ad_text" "ensure this value has at most 100 characters"
       "value_error.any_str.max_length" "; limit_value=100"].
Proof.
  destruct C7_ad_text_boundary as (H100 & H101 & _).
  split.
  - apply (H100 _ (Examples.As 100)); reflexivity.
  - apply (H101 _ (Examples.As 101)); reflexivity.
Defined.

(** ** The music rule inside the pipeline *)

Section MusicRuleFacts.
Import Pydantic AdConfig.

Lemma length_zero (s : string) : (String.length s =? 0)%nat = true <-> s = "".
Proof. destruct s; simpl; split; intros; congruence. Qed.

Lemma objective_field (kwargs values : gmap string pyval) :
  validate_field "objective" (StrField None None (Some validate_objective))
    kwargs values =
  match kwargs !! "objective" with
  | None => inl (Error "objective" "field required" "value_error.missing" "")
  | Some PyNone =>
      inl (Error "objective" "none is not an allowed value"
             "type_error.none.not_allowed" "")
  | Some (PyStr o) =>
      if bool_decide (o ∈ ["Traffic"; "Conversions"]) then inr (PyStr o)
      else inl (value_error "objective" "Objective must be 'Traffic' or 'Conversions'")
  end.
Proof.
  unfold validate_field. destruct (kwargs !! "objective") as [[|o]|]; try reflexivity.
  unfold validate_value, length_check, validate_objective.
  destruct (bool_decide _); reflexivity.
Qed.

(** Without [always=True] the validator of [music_id] is not called when
    the key is missing. *)
Lemma music_field (kwargs values : gmap string pyval) :
  validate_field "music_id" (OptStrField (Some validate_music_logic) false)
    kwargs values =
  match kwargs !! "music_id" with
  | None => inr PyNone
  | Some v =>
      match validate_music_logic v values with
      | inl m => inl (value_error "music_id" m)
      | inr v' => inr v'
      end
  end.
Proof.
  unfold validate_field. destruct (kwargs !! "music_id") as [[|s]|]; reflexivity.
Qed.

(** The violations of [music_id] are those of its field, validated
    against the values that hold the objective exactly when the objective
    itself is valid. *)
Lemma music_step (kwargs : gmap string pyval) :
  exists values : gmap string pyval,
    values !! "objective" =
      match kwargs !! "objective" with
      | Some (PyStr o) =>
          if bool_decide (o ∈ ["Traffic"; "Conversions"]) then Some (PyStr o) else None
      | _ => None
      end /\
    violations_of "music_id" kwargs =
      match validate_field "music_id" (OptStrField (Some validate_music_logic) false)
              kwargs values with
      | inl e => [e]
      | inr _ => []
      end.
Proof.
  unfold violations_of. rewrite violations_unfold.
  unfold fields. cbn [validate_model].
  destruct (validate_field "campaign_name" _ _ _) as [e1|v1] eqn:E1;
    [apply validate_field_loc in E1|];
  rewrite objective_field;
  destruct (kwargs !! "objective") as [[|o]|];
  try destruct (bool_decide (o ∈ ["Traffic"; "Conversions"]));
  (destruct (validate_field "ad_text" _ _ _) as [e3|v3] eqn:E3;
    [apply validate_field_loc in E3|]);
  (destruct (validate_field "cta" _ _ _) as [e4|v4] eqn:E4;
    [apply validate_field_loc in E4|]);
  match goal with
  | |- context [validate_field "music_id" _ kwargs ?V] => exists V
  end;
  (split;
   [ simplify_map_eq; reflexivity
   | destruct (validate_field "music_id" _ _ _) as [e5|v5] eqn:E5;
     [apply validate_field_loc in E5|];
     cbn [snd app List.filter loc value_error];
     rewrite ?E1, ?E3, ?E4, ?E5; simpl; reflexivity ]).
Qed.

End MusicRuleFacts.

(** C2. The music rule as [AdConfig] applies it. When the keyword
    [music_id] is passed and the objective is Conversions, a [music_id]
    violation is reported exactly when the value is [None] or blank after
    trimming; with objective Traffic a missing or [None] music id gives no
    violation; a blank string is a violation whatever the objective.
    When the key is not passed at all, the validator is not called: a
    Conversions configuration without the key is accepted, with
    [music_id = None]. *)
Theorem C2_music_rule :
  (forall (kwargs : gmap string Py.pyval) (v : Py.pyval),
      kwargs !! "objective" = Some (Py.PyStr "Conversions") ->
      kwargs !! "music_id" = Some v ->
      (AdConfig.violations_of "music_id" kwargs <> [] <->
       v = Py.PyNone \/ exists s, v = Py.PyStr s /\ Py.strip s = "")) /\
  (forall kwargs : gmap string Py.pyval,
      kwargs !! "objective" = Some (Py.PyStr "Traffic") ->
      kwargs !! "music_id" = None \/ kwargs !! "music_id" = Some Py.PyNone ->
      AdConfig.violations_of "music_id" kwargs = []) /\
  (forall (kwargs : gmap string Py.pyval) (s : string),
      kwargs !! "music_id" = Some (Py.PyStr s) ->
      Py.strip s = "" ->
      AdConfig.violations_of "music_id" kwargs <> []) /\
  (Examples.conversions_without_music !! "objective" = Some (Py.PyStr "Conversions") /\
   Examples.conversions_without_music !! "music_id" = None /\
   AdConfig.violations Examples.conversions_without_music = [] /\
   exists cfg,
     AdConfig.AdConfig Examples.conversions_without_music = inr cfg /\
     cfg !! "music_id" = Some Py.PyNone).
Proof.
  split; [|split; [|split]].
  - intros kwargs v Ho Hm.
    destruct (music_step kwargs) as (values & Hobj & ->).
    rewrite music_field, Hm. rewrite Ho in Hobj. simpl in Hobj.
    unfold AdConfig.validate_music_logic. rewrite Hobj.
    rewrite bool_decide_eq_true_2 by reflexivity.
    destruct v as [|[|c s]]; simpl.
    + split; [intros _; left; reflexivity | discriminate].
    + split; [intros _; right; exists ""; split; reflexivity | discriminate].
    + destruct (String.length (Py.strip (String c s)) =? 0)%nat eqn:L.
      * apply length_zero in L.
        split; [intros _; right; exists (String c s); split; [reflexivity|exact L]
               | discriminate].
      * split; [intros Hne; exfalso; apply Hne; reflexivity|].
        intros [Hv|(s' & Hv & Hs)]; [discriminate|].
        injection Hv as <-. apply length_zero in Hs. congruence.
  - intros kwargs Ho Hm.
    destruct (music_step kwargs) as (values & Hobj & ->).
    rewrite music_field. rewrite Ho in Hobj. simpl in Hobj.
    destruct Hm as [->| ->]; [reflexivity|].
    unfold AdConfig.validate_music_logic. rewrite Hobj.
    rewrite bool_decide_eq_false_2 by discriminate. reflexivity.
  - intros kwargs s Hm Hs.
    destruct (music_step kwargs) as (values & _ & ->).
    rewrite music_field, Hm. unfold AdConfig.validate_music_logic.
    destruct (bool_decide _ && _); [discriminate|].
    apply length_zero in Hs. rewrite Hs. discriminate.
  - split; [vm_compute; reflexivity|]. split; [vm_compute; reflexivity|].
    split; [vm_compute; reflexivity|].
    eexists. split; [vm_compute; reflexivity|]. vm_compute. reflexivity.
Qed.

Lemma C2_music_rule_witness :
  AdConfig.violations_of "music_id"
    (<["music_id" := Py.PyNone]> Examples.conversions_without_music) <> [] /\
  AdConfig.violations_of "music_id"
    (<["objective" := Py.PyStr "Traffic"]> ∅) = [] /\
  AdConfig.violations_of "music_id"
    (<["music_id" := Py.PyStr "   "]> (<["objective" := Py.PyStr "Traffic"]> ∅)) <> [].
Proof.
  destruct C2_music_rule as (Hc & Ht & Hb & _).
  split; [|split].
  - apply (Hc _ Py.PyNone); [reflexivity | reflexivity | left; reflexivity].
  - apply Ht; [reflexivity | left; reflexivity].
  - apply (Hb _ "   "); reflexivity.
Defined.

(** ** Submission *)

Section SubmitFacts.
Import API Pydantic ConversationManager.

(** Every error of a failed validation is spelled out in the answer. *)
Lemma validation_failed_lists (errs : list error) (e : error) :
  In e errs ->
  contains (loc e) (validation_failed (str_ValidationError "AdConfig" errs)) /\
  contains (msg e) (validation_failed (str_ValidationError "AdConfig" errs)).
Proof.
  intros Hin.
  assert (Hd : In (display_error e) (map display_error errs))
    by (apply in_map; exact Hin).
  unfold validation_failed, str_ValidationError.
  split;
    do 4 apply contains_app_r; apply contains_app_l;
    do 6 apply contains_app_r;
    apply (contains_join _ _ _ _ Hd); unfold display_error.
  - apply contains_app_l, contains_refl.
  - do 3 apply contains_app_r. apply contains_app_l, contains_refl.
Qed.

(** The Conversions configuration without a [music_id] key passes. *)
Lemma conversions_without_music_accepted :
  exists cfg : gmap string pyval,
    AdConfig.AdConfig Examples.conversions_without_music = inr cfg /\
    cfg !! "objective" = Some (PyStr "Conversions") /\
    cfg !! "music_id" = Some PyNone.
Proof.
  eexists. split; [vm_compute; reflexivity|].
  split; vm_compute; reflexivity.
Qed.

End SubmitFacts.

(** C1. [_submit_ad] validates the configuration first. Whenever the
    validation reports violations, the answer is the validation-failure
    message, which spells out the field and the message of every
    violation, and neither the capability nor the record of calls
    changes. For the Conversions configuration in which no music id was
    ever stored, however, the validation reports nothing, and
    [_submit_ad] calls [create_ad] with objective Conversions and
    [music_id = None], whatever capability is plugged in. The SUBMIT_AD
    branch of [chat_interface] (src/ui.py) does block that case: with
    objective Conversions and no music id it makes no capability call
    and hands "Submit Blocked: Conversions require Music." to the agent
    (when the stored creative details are no dictionary it ends in
    [AttributeError], again without a capability call);
    its gate, in turn, is not the full ruleset, and a state with a
    two-letter campaign name is submitted. *)
Theorem C1_submit_gate :
  (forall (S : Type) (A : API.TikTokAPI S) (m : ConversationManager.manager S)
          (errs : list Pydantic.error),
      AdConfig.AdConfig (ConversationManager.ad_config m) = inl errs ->
      errs <> [] /\
      ConversationManager._submit_ad m =
        (ConversationManager.validation_failed
           (Pydantic.str_ValidationError "AdConfig" errs), m) /\
      forall e, In e errs ->
        Py.contains (Pydantic.loc e) (fst (ConversationManager._submit_ad m)) /\
        Py.contains (Pydantic.msg e) (fst (ConversationManager._submit_ad m))) /\
  (forall (S : Type) (A : API.TikTokAPI S) (m : ConversationManager.manager S),
      ConversationManager.ad_config m = Examples.conversions_without_music ->
      exists payload : gmap string Py.pyval,
        ConversationManager.calls (snd (ConversationManager._submit_ad m)) =
          (ConversationManager.calls m ++
             [API.CallCreateAd payload "mock_access_token"])%list /\
        payload !! "objective" = Some (Py.PyStr "Conversions") /\
        payload !! "music_id" = Some Py.PyNone) /\
  (forall (S : Type) (validate_music_id submit_ad : Json.json -> S -> Reply.reply * S)
          (agent_says : string -> string) (msg : string)
          (state : gmap string Json.json) (a : S),
      ChatInterface.is_str (state !! "objective") "Conversions" = true ->
      match ChatInterface.music_id_of state with
      | inr mid =>
          ChatInterface.truthy_json mid = false ->
          ChatInterface.submit_branch validate_music_id submit_ad agent_says
            msg state a
            = (ChatInterface.Shown
                 (agent_says "Submit Blocked: Conversions require Music."), a, [])
      | inl e =>
          ChatInterface.submit_branch validate_music_id submit_ad agent_says
            msg state a = (ChatInterface.Raises e, a, [])
      end) /\
  (forall (S : Type) (validate_music_id submit_ad : Json.json -> S -> Reply.reply * S)
          (agent_says : string -> string) (msg : string) (a : S),
      exists payload : Json.json,
        snd (ChatInterface.submit_branch validate_music_id submit_ad agent_says
               msg Examples.short_name_state a)
          = [ChatInterface.SubmitAd payload]).
Proof.
  split; [|split; [|split]]; cycle 2.
  - intros S validate_music_id submit_ad agent_says msg state a Ho.
    unfold ChatInterface.submit_branch.
    destruct (ChatInterface.music_id_of state) as [e|mid]; [reflexivity|].
    intros Hm. rewrite Ho, Hm. unfold ChatInterface.music_check. rewrite Hm.
    cbn [andb negb]. destruct mid; reflexivity.
  - intros S validate_music_id submit_ad agent_says msg a.
    unfold ChatInterface.submit_branch.
    change (ChatInterface.music_id_of Examples.short_name_state)
      with (@inr ChatInterface.error _ (@None Json.json)).
    change (ChatInterface.is_str (Examples.short_name_state !! "objective") "Conversions")
      with false.
    cbn [andb negb ChatInterface.music_check].
    change (Examples.short_name_state !! "campaign_name") with (Some (Json.JStr "ab")).
    change (Examples.short_name_state !! "objective") with (Some (Json.JStr "Traffic")).
    cbn [ChatInterface.truthy_json Py.truthy negb orb].
    destruct (submit_ad _ a) as [r a'].
    destruct (Reply.is_error r); [destruct (ChatInterface.advice r)|];
      eexists; reflexivity.
  - intros S A m errs E.
    assert (Hs : ConversationManager._submit_ad m =
                 (ConversationManager.validation_failed
                    (Pydantic.str_ValidationError "AdConfig" errs), m))
      by (unfold ConversationManager._submit_ad; rewrite E; reflexivity).
    split; [exact (proj1 (AdConfig_inl _ _ E))|]. split; [exact Hs|].
    intros e Hin. rewrite Hs. apply validation_failed_lists, Hin.
  - intros S A m Hcfg.
    destruct conversions_without_music_accepted as (cfg & Hok & Ho & Hm).
    exists cfg. unfold ConversationManager._submit_ad. rewrite Hcfg, Hok.
    destruct (API.create_ad cfg "mock_access_token" (ConversationManager.api m))
      as [[[e|e]|[d|c msg]] a]; (split; [reflexivity|split; assumption]).
Qed.

Lemma C1_submit_gate_witness :
  ConversationManager.calls
    (snd (ConversationManager._submit_ad
            (Examples.manager_with Examples.short_name_only))) = [] /\
  (exists payload,
      ConversationManager.calls
        (snd (ConversationManager._submit_ad
                (Examples.manager_with Examples.conversions_without_music))) =
        [API.CallCreateAd payload "mock_access_token"]) /\
  snd (ChatInterface.submit_branch
         (fun j st => SimpleMock.validate_music_id "" st)
         (fun _ st => SimpleMock.submit_ad st)
         (fun text => text) "Submitting."
         (<["objective" := Json.JStr "Conversions"]> ∅) SimpleMock.init) = [].
Proof.
  destruct C1_submit_gate as (Hgate & Hbug & Hui & _).
  split; [|split].
  - destruct (AdConfig.AdConfig Examples.short_name_only) as [errs|cfg] eqn:E;
      [|vm_compute in E; discriminate E].
    destruct (Hgate _ _ (Examples.manager_with Examples.short_name_only) errs E)
      as (_ & -> & _).
    reflexivity.
  - destruct (Hbug _ _ (Examples.manager_with Examples.conversions_without_music)
                eq_refl) as (payload & Hc & _).
    exists payload. exact Hc.
  - pose proof (Hui SimpleMock.state
                  (fun j st => SimpleMock.validate_music_id "" st)
                  (fun _ st => SimpleMock.submit_ad st)
                  (fun text => text) "Submitting."
                  (<["objective" := Json.JStr "Conversions"]> ∅) SimpleMock.init
                  eq_refl) as H.
    change (ChatInterface.music_id_of (<["objective" := Json.JStr "Conversions"]> ∅))
      with (@inr ChatInterface.error _ (@None Json.json)) in H.
    cbv beta iota in H. rewrite (H eq_refl). reflexivity.
Defined.

(** ** Uploaded references *)

Section UploadFacts.
Import Py.

Lemma str_of_Z_inj (a b : Z) : str_of_Z a = str_of_Z b -> a = b.
Proof.
  unfold str_of_Z. intros H. apply DecimalZ.to_int_inj.
  assert (Hn : forall z : Z,
             Z.to_int z <> Decimal.Pos Decimal.Nil /\
             Z.to_int z <> Decimal.Neg Decimal.Nil).
  { intros [|p|p]; cbn [Z.to_int]; split; try discriminate;
      intros [= Hp]; exact (DecimalPos.Unsigned.to_uint_nonnil p Hp). }
  pose proof (NilZero.isi (Z.to_int a) (proj1 (Hn a)) (proj2 (Hn a))) as Ha.
  pose proof (NilZero.isi (Z.to_int b) (proj1 (Hn b)) (proj2 (Hn b))) as Hb.
  rewrite H in Ha. rewrite Ha in Hb. injection Hb as Hb. exact Hb.
Qed.

Lemma append_inj (p a b : string) : p ++ a = p ++ b -> a = b.
Proof.
  induction p as [|c p IH]; [intros H; exact H|].
  simpl. intros [= H]. apply IH, H.
Qed.

End UploadFacts.

(** C9, as stated, at the simulated capability of mock_api.py: the
    reference that [upload_music] returns need not be new. When the
    number drawn is one drawn before, the reference is the one returned
    by the earlier upload and is already registered when the second
    upload is made. *)
Lemma C9_new_reference_counterexample :
  exists (d1 d2 : API.upload_data) (st1 st2 : MockTikTokAPI.state nat),
    MockTikTokAPI.mock_upload_music "/path/to/first.mp3" "token" Examples.quiet_mock
      = (API.Success d1, st1) /\
    MockTikTokAPI.mock_upload_music "/path/to/second.mp3" "token" st1
      = (API.Success d2, st2) /\
    API.up_music_id d2 = API.up_music_id d1 /\
    API.up_music_id d2 ∈ MockTikTokAPI.valid_music_ids st1.
Proof.
  eexists. eexists. eexists. eexists.
  split; [reflexivity|]. split; [reflexivity|]. split; [reflexivity|].
  vm_compute. repeat constructor.
Qed.

(** C9, amended. In the simulated capability of mock_api.py with
    failure simulation off, [upload_music] succeeds for every file path;
    its reference is ["UPLOAD_"] followed by the number drawn, it is
    appended to the valid ids, it is none of the five ids of the initial
    catalogue and differs from the reference of every other number, so
    it is new unless the same number was drawn before; and
    [validate_music_id] on that reference, called right after, succeeds
    for it and changes nothing. The simulated capability of
    src/api_mock.py behaves alike: [upload_music] returns ["mock_up_"]
    followed by the token drawn, which is no key of the built-in
    database and differs from the reference of every other token, and
    that reference validates at once. *)
Theorem C9_upload_then_validate :
  (forall (R : Type) (RS : MockTikTokAPI.RandomSource R)
          (st : MockTikTokAPI.state R) (file_path token token' : string),
      MockTikTokAPI.simulate_failures st = false ->
      exists (d : API.upload_data) (st' : MockTikTokAPI.state R),
        MockTikTokAPI.mock_upload_music file_path token st = (API.Success d, st') /\
        API.up_music_id d =
          "UPLOAD_" ++ Py.str_of_Z
             (fst (MockTikTokAPI.randint 10000 99999 (MockTikTokAPI.rng st))) /\
        MockTikTokAPI.valid_music_ids st' =
          (MockTikTokAPI.valid_music_ids st ++ [API.up_music_id d])%list /\
        (API.up_music_id d ∉ ["12345"; "67890"; "11111"; "22222"; "33333"]) /\
        (forall m : Z,
            m <> fst (MockTikTokAPI.randint 10000 99999 (MockTikTokAPI.rng st)) ->
            API.up_music_id d <> "UPLOAD_" ++ Py.str_of_Z m) /\
        exists md : API.music_data,
          MockTikTokAPI.mock_validate_music_id (API.up_music_id d) token' st'
            = (API.Success md, st') /\
          API.music_id md = API.up_music_id d) /\
  (forall (token_hex file_name : string) (st : SimpleMock.state),
      SimpleMock.upload_music token_hex file_name st =
        (Reply.Reply "success" None None None (Some ("mock_up_" ++ token_hex)), st) /\
      SimpleMock.music_db SimpleMock.init !! ("mock_up_" ++ token_hex) = None /\
      (forall other : string,
          other <> token_hex -> "mock_up_" ++ token_hex <> "mock_up_" ++ other) /\
      SimpleMock.validate_music_id ("mock_up_" ++ token_hex) st = (Reply.success, st)).
Proof.
  split.
  - intros R RS st file_path token token' Hoff.
    unfold MockTikTokAPI.mock_upload_music, MockTikTokAPI.induced_failure.
    rewrite Hoff.
    destruct (MockTikTokAPI.randint 10000 99999 (MockTikTokAPI.rng st)) as [n g].
    eexists. eexists. split; [reflexivity|]. cbn [API.up_music_id fst].
    split; [reflexivity|]. split; [reflexivity|]. split; [|split].
    + intros Hin.
      repeat (apply elem_of_cons in Hin as [Hin|Hin]; [discriminate Hin|]).
      inversion Hin.
    + intros m Hm Heq. apply Hm. symmetry.
      apply str_of_Z_inj, (append_inj "UPLOAD_"), Heq.
    + unfold MockTikTokAPI.mock_validate_music_id, MockTikTokAPI.induced_failure.
      cbn [MockTikTokAPI.simulate_failures]. rewrite Hoff.
      rewrite startswith_app, orb_true_r.
      eexists. split; reflexivity.
  - intros token_hex file_name st. split; [reflexivity|]. split; [|split].
    + unfold SimpleMock.init. cbn [SimpleMock.music_db].
      rewrite !lookup_insert_ne by discriminate. apply lookup_empty.
    + intros other Hne Heq. apply Hne. symmetry. exact (append_inj "mock_up_" _ _ Heq).
    + unfold SimpleMock.validate_music_id.
      change ("mock_up_" ++ token_hex) with ("mock_up" ++ ("_" ++ token_hex)).
      rewrite startswith_app. reflexivity.
Qed.

Lemma C9_upload_then_validate_witness :
  exists (d : API.upload_data) (st' : MockTikTokAPI.state nat),
    MockTikTokAPI.mock_upload_music "/path/to/custom.mp3" "token" Examples.quiet_mock
      = (API.Success d, st') /\
    MockTikTokAPI.valid_music_ids st' =
      (MockTikTokAPI.valid_music_ids Examples.quiet_mock ++ [API.up_music_id d])%list /\
    exists md : API.music_data,
      MockTikTokAPI.mock_validate_music_id (API.up_music_id d) "token" st'
        = (API.Success md, st').
Proof.
  destruct C9_upload_then_validate as (H & _).
  destruct (H nat _ Examples.quiet_mock "/path/to/custom.mp3" "token" "token" eq_refl)
    as (d & st' & Hu & _ & Hreg & _ & _ & md & Hv & _).
  exists d, st'. split; [exact Hu|]. split; [exact Hreg|]. exists md. exact Hv.
Defined.

(** ** The live capability: credential checks and submission *)

Section RealFacts.
Import Reply RealTikTokAPI.
Variable clock : nat -> Q.
Variable refresh_http : nat -> refresh_response.
Variable create_http : nat -> create_response.

(** A call of [refresh_access_token] leaves exactly one entry in the
    trace, with its call site and its outcome, and sends no ad. *)
Lemma refresh_trace (s : site) (st : state) :
  trace (snd (refresh_access_token clock refresh_http s st)) =
    (trace st ++ [RefreshAttempt s (fst (refresh_access_token clock refresh_http s st))])%list
  /\ create_requests (snd (refresh_access_token clock refresh_http s st))
     = create_requests st.
Proof.
  unfold refresh_access_token.
  destruct (is_truthy (refresh_token st)); [|split; reflexivity].
  destruct (refresh_http (refresh_requests st)); split; reflexivity.
Qed.

(** [ensure_token] with a token that is still fresh. *)
Lemma ensure_token_fresh (st : state) :
  is_truthy (access_token st) = true ->
  (clock (clock_reads st) < expires_at st - 300)%Q ->
  ensure_token clock refresh_http st =
    (success,
     State (access_token st) (refresh_token st) (expires_at st)
           (Datatypes.S (clock_reads st)) (refresh_requests st)
           (create_requests st) (trace st)).
Proof.
  intros Ht Hf. unfold ensure_token. rewrite Ht. cbn [time].
  destruct (Qlt_le_dec _ _) as [_|Hle]; [reflexivity|].
  exfalso. exact (Qlt_not_le _ _ Hf Hle).
Qed.

(** [ensure_token] without a token, or with one inside the buffer. *)
Lemma ensure_token_stale (st : state) :
  is_truthy (access_token st) = false \/
  (expires_at st - 300 <= clock (clock_reads st))%Q ->
  exists st1 : state,
    trace st1 = trace st /\ create_requests st1 = create_requests st /\
    ensure_token clock refresh_http st =
      ((if fst (refresh_access_token clock refresh_http InEnsureToken st1)
        then success else session_expired),
       snd (refresh_access_token clock refresh_http InEnsureToken st1)).
Proof.
  intros Hs. unfold ensure_token.
  destruct (is_truthy (access_token st)) eqn:Ht.
  - destruct Hs as [Hs|Hs]; [discriminate|]. cbn [time].
    destruct (Qlt_le_dec _ _) as [Hlt|_];
      [exfalso; exact (Qlt_not_le _ _ Hlt Hs)|].
    exists (snd (time clock st)). cbn [time snd].
    split; [reflexivity|]. split; [reflexivity|].
    destruct (refresh_access_token clock refresh_http InEnsureToken _)
      as [[|] st2]; reflexivity.
  - exists st. split; [reflexivity|]. split; [reflexivity|].
    destruct (refresh_access_token clock refresh_http InEnsureToken st)
      as [[|] st2]; reflexivity.
Qed.

End RealFacts.

(** C6, as stated, at the simulated capability of src/api_mock.py: with
    no credential a refresh would succeed, yet [ensure_token] answers
    with an error and leaves the state as it was, so no refresh was
    attempted. *)
Lemma C6_simulated_counterexample :
  SimpleMock.access_token SimpleMock.init = None /\
  fst (SimpleMock.refresh_access_token SimpleMock.init) = true /\
  SimpleMock.ensure_token SimpleMock.init =
    (Reply.Reply "error" None (Some (Py.PyStr "Not Connected")) None None,
     SimpleMock.init).
Proof. repeat split. Qed.

(** C6, amended. Live capability: if an access token is present and the
    clock reads more than 300 seconds before its expiry, [ensure_token]
    returns success and changes neither the credential nor the trace nor
    the request counters (it only read the clock); otherwise it calls
    [refresh_access_token] exactly once and returns success if that call
    succeeds and the 401 "Session expired" error if not. Simulated
    capability of src/api_mock.py: success exactly when an access token
    is present, otherwise the "Not Connected" error; the state is never
    changed and no refresh is attempted. *)
Theorem C6_ensure_token :
  (forall (clock : nat -> Q) (refresh_http : nat -> RealTikTokAPI.refresh_response)
          (st : RealTikTokAPI.state),
      RealTikTokAPI.is_truthy (RealTikTokAPI.access_token st) = true ->
      (clock (RealTikTokAPI.clock_reads st) < RealTikTokAPI.expires_at st - 300)%Q ->
      let '(r, st') := RealTikTokAPI.ensure_token clock refresh_http st in
      r = Reply.success /\
      RealTikTokAPI.access_token st' = RealTikTokAPI.access_token st /\
      RealTikTokAPI.refresh_token st' = RealTikTokAPI.refresh_token st /\
      RealTikTokAPI.expires_at st' = RealTikTokAPI.expires_at st /\
      RealTikTokAPI.refresh_requests st' = RealTikTokAPI.refresh_requests st /\
      RealTikTokAPI.trace st' = RealTikTokAPI.trace st) /\
  (forall (clock : nat -> Q) (refresh_http : nat -> RealTikTokAPI.refresh_response)
          (st : RealTikTokAPI.state),
      RealTikTokAPI.is_truthy (RealTikTokAPI.access_token st) = false \/
      (RealTikTokAPI.expires_at st - 300 <= clock (RealTikTokAPI.clock_reads st))%Q ->
      let '(r, st') := RealTikTokAPI.ensure_token clock refresh_http st in
      exists ok : bool,
        RealTikTokAPI.trace st' =
          (RealTikTokAPI.trace st ++
             [RealTikTokAPI.RefreshAttempt RealTikTokAPI.InEnsureToken ok])%list /\
        r = if ok then Reply.success else RealTikTokAPI.session_expired) /\
  (forall st : SimpleMock.state,
      SimpleMock.ensure_token st =
        ((if RealTikTokAPI.is_truthy (SimpleMock.access_token st)
          then Reply.success
          else Reply.Reply "error" None (Some (Py.PyStr "Not Connected")) None None),
         st)).
Proof.
  split; [|split].
  - intros clock refresh_http st Ht Hf.
    rewrite (ensure_token_fresh clock refresh_http st Ht Hf).
    repeat split.
  - intros clock refresh_http st Hs.
    destruct (ensure_token_stale clock refresh_http st Hs) as (st1 & Ht & _ & ->).
    destruct (refresh_trace clock refresh_http RealTikTokAPI.InEnsureToken st1)
      as [Htr _].
    exists (fst (RealTikTokAPI.refresh_access_token clock refresh_http
                   RealTikTokAPI.InEnsureToken st1)).
    rewrite Htr, Ht. split; reflexivity.
  - intros st. unfold SimpleMock.ensure_token.
    destruct (SimpleMock.access_token st) as [[|c s]|]; reflexivity.
Qed.

Lemma C6_ensure_token_witness :
  fst (RealTikTokAPI.ensure_token Examples.clock_1000 Examples.refresh_fails
         Examples.fresh_credential) = Reply.success /\
  exists ok : bool,
    RealTikTokAPI.trace
      (snd (RealTikTokAPI.ensure_token Examples.clock_1000 Examples.refresh_fails
              Examples.no_credential)) =
      [RealTikTokAPI.RefreshAttempt RealTikTokAPI.InEnsureToken ok] /\
    fst (RealTikTokAPI.ensure_token Examples.clock_1000 Examples.refresh_fails
           Examples.no_credential) =
      if ok then Reply.success else RealTikTokAPI.session_expired.
Proof.
  destruct C6_ensure_token as (Hfresh & Hstale & _).
  split.
  - pose proof (Hfresh Examples.clock_1000 Examples.refresh_fails
                  Examples.fresh_credential eq_refl eq_refl) as H.
    destruct (RealTikTokAPI.ensure_token _ _ Examples.fresh_credential) as [r st'].
    exact (proj1 H).
  - pose proof (Hstale Examples.clock_1000 Examples.refresh_fails
                  Examples.no_credential (or_introl eq_refl)) as H.
    destruct (RealTikTokAPI.ensure_token _ _ Examples.no_credential) as [r st'].
    destruct H as (ok & Ht & Hr). exists ok. split; [exact Ht | exact Hr].
Defined.

(** ** The retry loop of [submit_ad] *)

Section SubmitLoopFacts.
Import Reply RealTikTokAPI.
Variable clock : nat -> Q.
Variable refresh_http : nat -> refresh_response.
Variable create_http : nat -> create_response.




End SubmitLoopFacts.

Section SubmitBounds.
Import Reply RealTikTokAPI.
Variable clock : nat -> Q.
Variable refresh_http : nat -> refresh_response.
Variable create_http : nat -> create_response.





End SubmitBounds.

Section SubmitScenario.
Import Reply RealTikTokAPI.
Variable clock : nat -> Q.
Variable refresh_http : nat -> refresh_response.
Variable create_http : nat -> create_response.




End SubmitScenario.



(** ** Failures of the language model *)

Section CollaboratorFacts.
Import Json AdAgent.
Variable generate : nat -> string -> string + json.
Variable schema_error : json -> string.

(** The message part that carries the context. *)
Lemma try_block_prompts (authenticated : bool) (user_input : string)
    (system_context : option string) (a : agent) :
  prompts (snd (try_block generate schema_error authenticated user_input
                  system_context a)) =
    (prompts a ++
       [("Ctx: " ++ context_of authenticated system_context ++ Py.nl
           ++ "User: " ++ user_input)%string])%list.
Proof.
  unfold try_block.
  destruct (generate _ _) as [e|data]; [reflexivity|].
  destruct (Schemas.AGENT_OUTPUT_SCHEMA data); reflexivity.
Qed.

End CollaboratorFacts.

(** C8, as stated, at a model whose output is not JSON: [AdAgent]
    answers after a single call of the model, so without any retry, and
    [LLMClient.get_response] likewise sends a single request. *)
Lemma C8_no_retry_counterexample :
  (let run :=
     AdAgent.process_message
       (fun _ _ => inl "Expecting value: line 1 column 1 (char 0)")
       (fun _ => "") true "hello" None AdAgent.init in
   List.length (AdAgent.prompts (snd run)) = 1%nat /\
   fst run =
     AdAgent.answer "Fail"
       "System Error: Expecting value: line 1 column 1 (char 0)" "NONE") /\
  (let run :=
     LLMClient.get_response "" (fun _ => "")
       (fun _ => inl (Py.ValueError "Expecting value: line 1 column 1 (char 0)"))
       [] ∅ (LLMClient.Client []) in
   List.length (LLMClient.requests (snd run)) = 1%nat /\
   LLMClient.action (fst run) = Some "collect").
Proof. split; split; vm_compute; reflexivity. Qed.

(** C8, amended. [AdAgent.process_message]: when the first output of
    the model fails the schema, the model is called exactly once more,
    with the text of the schema error in the context; if that second
    output fails the schema too the answer is the fixed "System Error:
    Output Validation Failed." with action NONE, and if the second call
    fails otherwise the answer is "System Error: " followed by the error
    text. When the first call fails in any other way (no text, text that
    is not JSON, an exception of the call) there is no retry and the
    answer is "System Error: " followed by the error text, action NONE.
    [LLMClient.get_response] sends exactly one request and never retries:
    any failure yields the apology dictionary with action collect. In
    [ConversationManager.process_message] an exception of the client is
    answered by the apology string. None of the three raises. *)
Theorem C8_collaborator_failures :
  (forall (generate : nat -> string -> string + Json.json)
          (schema_error : Json.json -> string)
          (authenticated : bool) (user_input : string)
          (system_context : option string) (a : AdAgent.agent),
      let p0 := "Ctx: " ++ AdAgent.context_of authenticated system_context
                  ++ Py.nl ++ "User: " ++ user_input in
      let k := List.length (AdAgent.prompts a) in
      let run := AdAgent.process_message generate schema_error authenticated
                   user_input system_context a in
      match generate k p0 with
      | inl e =>
          run = (AdAgent.answer "Fail" ("System Error: " ++ e) "NONE",
                 AdAgent.Agent (AdAgent.history a) (AdAgent.collected_data a)
                   (AdAgent.prompts a ++ [p0]))
      | inr data =>
          if Schemas.AGENT_OUTPUT_SCHEMA data then
            fst run = data /\
            AdAgent.prompts (snd run) = (AdAgent.prompts a ++ [p0])%list
          else
            let p1 := "Ctx: " ++ AdAgent.context_of authenticated
                        (Some ("JSON Schema Error: " ++ schema_error data
                                 ++ ". Retry with valid JSON."))
                        ++ Py.nl ++ "User: " ++ user_input in
            Py.contains (schema_error data) p1 /\
            AdAgent.prompts (snd run) = (AdAgent.prompts a ++ [p0; p1])%list /\
            fst run =
              match generate (Datatypes.S k) p1 with
              | inl e => AdAgent.answer "Fail" ("System Error: " ++ e) "NONE"
              | inr data' =>
                  if Schemas.AGENT_OUTPUT_SCHEMA data' then data'
                  else AdAgent.answer "Fail"
                         "System Error: Output Validation Failed." "NONE"
              end
      end) /\
  (forall (SYSTEM_PROMPT : string) (json_dumps : gmap string Py.pyval -> string)
          (completion : list LLMClient.chat_message -> Py.result LLMClient.response)
          (messages : list LLMClient.chat_message) (context : gmap string Py.pyval)
          (c : LLMClient.client),
      let request := LLMClient.full_messages SYSTEM_PROMPT json_dumps messages context in
      let run := LLMClient.get_response SYSTEM_PROMPT json_dumps completion
                   messages context c in
      LLMClient.requests (snd run) = (LLMClient.requests c ++ [request])%list /\
      match completion request with
      | inl e =>
          LLMClient.message (fst run) =
            Some ("I apologize, but I encountered an error: " ++ Py.str_exn e
                    ++ ". Let's try again.") /\
          LLMClient.action (fst run) = Some "collect" /\
          LLMClient.state (fst run) = Some context
      | inr result =>
          LLMClient.message (fst run) = LLMClient.message result /\
          LLMClient.action (fst run) = LLMClient.action result
      end) /\
  (forall (S : Type) (A : API.TikTokAPI S)
          (llm : list LLMClient.chat_message -> gmap string Py.pyval ->
                 Py.result LLMClient.response)
          (user_msg : string) (m : ConversationManager.manager S),
      match llm (ConversationManager.messages m
                   ++ [LLMClient.ChatMessage "user" user_msg])%list
                (ConversationManager.ad_config m) with
      | inl e =>
          fst (ConversationManager.process_message llm user_msg m) =
            "I apologize, but I encountered an error: " ++ Py.str_exn e
              ++ ". Could you please try again?"
      | inr _ => True
      end).
Proof.
  split; [|split].
  - intros generate schema_error authenticated user_input system_context a.
    cbv zeta. unfold AdAgent.process_message.
    pose proof (try_block_prompts generate schema_error authenticated user_input
                  system_context a) as Hp.
    unfold AdAgent.try_block in *.
    destruct (generate _ _) as [e|data]; [reflexivity|].
    destruct (Schemas.AGENT_OUTPUT_SCHEMA data); [split; [reflexivity|exact Hp]|].
    split.
    { unfold AdAgent.context_of.
      assert (Ht : Py.truthy ("JSON Schema Error: " ++ schema_error data
                                ++ ". Retry with valid JSON.") = true)
        by reflexivity.
      rewrite Ht.
      apply contains_app_r, contains_app_l.
      do 4 apply contains_app_r. apply contains_app_l, contains_refl. }
    cbn [snd] in Hp.
    unfold AdAgent.process_message_retry.
    match goal with
    | |- context [AdAgent.try_block generate schema_error authenticated
                    user_input ?c ?b] =>
        pose proof (try_block_prompts generate schema_error authenticated
                      user_input c b) as Hq;
        unfold AdAgent.try_block in *
    end.
    cbn [AdAgent.prompts] in *. rewrite length_app in *.
    cbn [List.length] in *. rewrite Nat.add_1_r in *.
    destruct (generate (Datatypes.S _) _) as [e'|data'].
    + split; [|reflexivity]. cbn [snd AdAgent.prompts] in *.
      rewrite <- app_assoc. reflexivity.
    + destruct (Schemas.AGENT_OUTPUT_SCHEMA data');
        (split; [|reflexivity]); cbn [snd AdAgent.prompts] in *;
        rewrite <- app_assoc; reflexivity.
  - intros SYSTEM_PROMPT json_dumps completion messages context c. cbv zeta.
    unfold LLMClient.get_response.
    destruct (completion _) as [e|result]; repeat split.
  - intros S A llm user_msg m.
    destruct (llm _ _) as [e|r] eqn:E; [|exact I].
    unfold ConversationManager.process_message, ConversationManager.turn.
    cbn [ConversationManager.append_message ConversationManager.messages
         ConversationManager.ad_config].
    rewrite E. reflexivity.
Qed.

(** ** More on the validation pipeline *)

Section FieldRules.
Import Pydantic AdConfig.

Lemma lstrip_length (s : string) : (String.length (lstrip s) <= String.length s)%nat.
Proof.
  induction s as [|c s IH]; simpl; [lia|].
  destruct (isspace c); simpl; lia.
Qed.

Lemma rstrip_length (s : string) : (String.length (rstrip s) <= String.length s)%nat.
Proof.
  induction s as [|c s IH]; simpl; [lia|].
  destruct (rstrip s) as [|d r]; [destruct (isspace c)|]; simpl in *; lia.
Qed.

Lemma strip_length (s : string) : (String.length (strip s) <= String.length s)%nat.
Proof.
  unfold strip. pose proof (rstrip_length (lstrip s)). pose proof (lstrip_length s). lia.
Qed.

(** A non-empty list of errors stays non-empty. *)
Lemma validate_model_keeps_errors (fs : list (string * field_spec))
    (input values : gmap string pyval) (errs : list error) :
  errs <> [] -> snd (validate_model fs input values errs) <> [].
Proof.
  revert values errs. induction fs as [|[name f] fs IH]; intros values errs Hne.
  - exact Hne.
  - cbn [validate_model]. destruct (validate_field name f input values).
    + apply IH. destruct errs; [congruence|discriminate].
    + apply IH, Hne.
Qed.

Lemma campaign_field (kwargs values : gmap string pyval) :
  validate_field "campaign_name"
    (StrField (Some 3%nat) None (Some validate_campaign_name)) kwargs values =
  match kwargs !! "campaign_name" with
  | None => inl (Error "campaign_name" "field required" "value_error.missing" "")
  | Some PyNone =>
      inl (Error "campaign_name" "none is not an allowed value"
             "type_error.none.not_allowed" "")
  | Some (PyStr s) =>
      if (String.length s <? 3)%nat then
        inl (Error "campaign_name" "ensure this value has at least 3 characters"
               "value_error.any_str.min_length" "; limit_value=3")
      else if (String.length (strip s) <? 3)%nat then
        inl (value_error "campaign_name" "Campaign name must be at least 3 characters")
      else inr (PyStr (strip s))
  end.
Proof.
  unfold validate_field. destruct (kwargs !! "campaign_name") as [[|s]|]; try reflexivity.
  unfold validate_value, length_check.
  destruct (String.length s <? 3)%nat; [reflexivity|].
  unfold validate_campaign_name.
  destruct (String.length (strip s) <? 3)%nat; reflexivity.
Qed.

Lemma ad_text_field_full (kwargs values : gmap string pyval) :
  validate_field "ad_text" (StrField None (Some 100%nat) (Some validate_ad_text))
    kwargs values =
  match kwargs !! "ad_text" with
  | None => inl (Error "ad_text" "field required" "value_error.missing" "")
  | Some PyNone =>
      inl (Error "ad_text" "none is not an allowed value"
             "type_error.none.not_allowed" "")
  | Some (PyStr s) =>
      if (100 <? String.length s)%nat then
        inl (Error "ad_text" "ensure this value has at most 100 characters"
               "value_error.any_str.max_length" "; limit_value=100")
      else inr (PyStr s)
  end.
Proof.
  destruct (kwargs !! "ad_text") as [[|s]|] eqn:E.
  - unfold validate_field. rewrite E. reflexivity.
  - apply ad_text_field, E.
  - unfold validate_field. rewrite E. reflexivity.
Qed.

Lemma cta_field (kwargs values : gmap string pyval) :
  validate_field "cta" (StrField None None None) kwargs values =
  match kwargs !! "cta" with
  | None => inl (Error "cta" "field required" "value_error.missing" "")
  | Some PyNone =>
      inl (Error "cta" "none is not an allowed value" "type_error.none.not_allowed" "")
  | Some (PyStr s) => inr (PyStr s)
  end.
Proof.
  unfold validate_field. destruct (kwargs !! "cta") as [[|s]|]; reflexivity.
Qed.

(** The violations of one of the first four fields are those of the
    field alone. *)
Lemma field_violations (kwargs : gmap string pyval) :
  violations_of "campaign_name" kwargs =
    match validate_field "campaign_name"
            (StrField (Some 3%nat) None (Some validate_campaign_name)) kwargs ∅ with
    | inl e => [e] | inr _ => []
    end /\
  violations_of "objective" kwargs =
    match validate_field "objective"
            (StrField None None (Some validate_objective)) kwargs ∅ with
    | inl e => [e] | inr _ => []
    end /\
  violations_of "cta" kwargs =
    match validate_field "cta" (StrField None None None) kwargs ∅ with
    | inl e => [e] | inr _ => []
    end.
Proof.
  unfold violations_of. rewrite violations_unfold.
  unfold fields. cbn [validate_model].
  destruct (validate_field "campaign_name" _ _ _) as [e1|v1] eqn:E1;
    [apply validate_field_loc in E1|];
  rewrite !objective_field;
  destruct (kwargs !! "objective") as [[|o]|];
  try destruct (bool_decide (o ∈ ["Traffic"; "Conversions"]));
  (destruct (validate_field "ad_text" _ _ _) as [e3|v3] eqn:E3;
    [apply validate_field_loc in E3|]);
  rewrite !cta_field;
  destruct (kwargs !! "cta") as [[|c]|];
  (destruct (validate_field "music_id" _ _ _) as [e5|v5] eqn:E5;
    [apply validate_field_loc in E5|]);
  cbn [snd app List.filter loc value_error];
  rewrite ?E1, ?E3, ?E5; simpl; repeat split; reflexivity.
Qed.

(** The fields of the errors, in order, are picked from the field
    names in declaration order. *)
Lemma violations_in_order (kwargs : gmap string pyval) :
  map loc (violations kwargs)
    `sublist_of` ["campaign_name"; "objective"; "ad_text"; "cta"; "music_id"].
Proof.
  rewrite violations_unfold. unfold fields. cbn [validate_model].
  destruct (validate_field "campaign_name" _ _ _) as [e1|v1] eqn:E1;
    [apply validate_field_loc in E1|];
  (destruct (validate_field "objective" _ _ _) as [e2|v2] eqn:E2;
    [apply validate_field_loc in E2|]);
  (destruct (validate_field "ad_text" _ _ _) as [e3|v3] eqn:E3;
    [apply validate_field_loc in E3|]);
  (destruct (validate_field "cta" _ _ _) as [e4|v4] eqn:E4;
    [apply validate_field_loc in E4|]);
  (destruct (validate_field "music_id" _ _ _) as [e5|v5] eqn:E5;
    [apply validate_field_loc in E5|]);
  cbn [snd app map]; rewrite ?E1, ?E2, ?E3, ?E4, ?E5;
  repeat first [apply sublist_nil | apply sublist_skip | apply sublist_cons].
Qed.

End FieldRules.

Section Acceptance.
Import Pydantic AdConfig.

Lemma objective_mem (o : string) :
  bool_decide (o ∈ ["Traffic"; "Conversions"]) = true <->
  o = "Traffic" \/ o = "Conversions".
Proof.
  rewrite bool_decide_eq_true. rewrite !elem_of_cons, elem_of_nil. tauto.
Qed.

Lemma campaign_ok (kwargs values : gmap string pyval) (v : pyval) :
  validate_field "campaign_name"
    (StrField (Some 3%nat) None (Some validate_campaign_name)) kwargs values = inr v <->
  exists n, kwargs !! "campaign_name" = Some (PyStr n) /\
            (3 <= String.length (strip n))%nat /\ v = PyStr (strip n).
Proof.
  rewrite campaign_field. split.
  - destruct (kwargs !! "campaign_name") as [[|n]|]; try discriminate.
    destruct (String.length n <? 3)%nat; [discriminate|].
    destruct (String.length (strip n) <? 3)%nat eqn:L; [discriminate|].
    intros [= <-]. exists n. apply Nat.ltb_ge in L. auto.
  - intros (n & -> & L & ->).
    pose proof (strip_length n) as Hs.
    destruct (String.length n <? 3)%nat eqn:L1; [apply Nat.ltb_lt in L1; lia|].
    destruct (String.length (strip n) <? 3)%nat eqn:L2; [apply Nat.ltb_lt in L2; lia|].
    reflexivity.
Qed.

Lemma objective_ok (kwargs values : gmap string pyval) (v : pyval) :
  validate_field "objective" (StrField None None (Some validate_objective))
    kwargs values = inr v <->
  exists o, kwargs !! "objective" = Some (PyStr o) /\
            (o = "Traffic" \/ o = "Conversions") /\ v = PyStr o.
Proof.
  rewrite objective_field. split.
  - destruct (kwargs !! "objective") as [[|o]|]; try discriminate.
    destruct (bool_decide _) eqn:B; [|discriminate].
    intros [= <-]. exists o. apply objective_mem in B. auto.
  - intros (o & -> & B & ->). apply objective_mem in B. rewrite B. reflexivity.
Qed.

Lemma ad_text_ok (kwargs values : gmap string pyval) (v : pyval) :
  validate_field "ad_text" (StrField None (Some 100%nat) (Some validate_ad_text))
    kwargs values = inr v <->
  exists t, kwargs !! "ad_text" = Some (PyStr t) /\
            (String.length t <= 100)%nat /\ v = PyStr t.
Proof.
  rewrite ad_text_field_full. split.
  - destruct (kwargs !! "ad_text") as [[|t]|]; try discriminate.
    destruct (100 <? String.length t)%nat eqn:L; [discriminate|].
    intros [= <-]. exists t. apply Nat.ltb_ge in L. auto.
  - intros (t & -> & L & ->).
    destruct (100 <? String.length t)%nat eqn:L1; [apply Nat.ltb_lt in L1; lia|].
    reflexivity.
Qed.

Lemma cta_ok (kwargs values : gmap string pyval) (v : pyval) :
  validate_field "cta" (StrField None None None) kwargs values = inr v <->
  exists c, kwargs !! "cta" = Some (PyStr c) /\ v = PyStr c.
Proof.
  rewrite cta_field. split.
  - destruct (kwargs !! "cta") as [[|c]|]; try discriminate.
    intros [= <-]. eauto.
  - intros (c & -> & ->). reflexivity.
Qed.

Lemma strip_nonblank_truthy (m : string) : strip m <> "" -> truthy m = true.
Proof. destruct m; [intros H; exfalso; apply H; reflexivity | reflexivity]. Qed.

Lemma music_ok (kwargs values : gmap string pyval) (o : string) (v : pyval) :
  values !! "objective" = Some (PyStr o) ->
  (validate_field "music_id" (OptStrField (Some validate_music_logic) false)
     kwargs values = inr v <->
   match kwargs !! "music_id" with
   | None => True
   | Some PyNone => o <> "Conversions"
   | Some (PyStr m) => strip m <> ""
   end /\ v = default PyNone (kwargs !! "music_id")).
Proof.
  intros Ho. rewrite music_field.
  destruct (kwargs !! "music_id") as [[|m]|]; cbn [default].
  - unfold validate_music_logic. rewrite Ho. cbn [truthy_val negb].
    rewrite andb_true_r.
    destruct (bool_decide (Some (PyStr o) = Some (PyStr "Conversions"))) eqn:B.
    + apply bool_decide_eq_true in B. injection B as ->.
      split; [discriminate | intros [H _]; congruence].
    + apply bool_decide_eq_false in B.
      split; [intros [= <-]; split; [congruence|reflexivity]
             | intros [_ ->]; reflexivity].
  - unfold validate_music_logic. rewrite Ho. cbn [truthy_val].
    destruct (String.length (strip m) =? 0)%nat eqn:L.
    + apply length_zero in L.
      destruct (bool_decide _ && _);
        (split; [discriminate | intros [H _]; congruence]).
    + assert (Hne : strip m <> "")
        by (intros E; apply length_zero in E; congruence).
      rewrite (strip_nonblank_truthy m Hne). cbn [negb]. rewrite andb_false_r.
      split; [intros [= <-]; auto | intros [_ ->]; reflexivity].
  - split; [intros [= <-]; auto | intros [_ ->]; reflexivity].
Qed.

(** One round of [validate_model] on the way to an accepted input. *)
Lemma accept_step (name : string) (f : field_spec) (rest : list (string * field_spec))
    (kwargs values cfg : gmap string pyval) :
  match validate_model ((name, f) :: rest) kwargs values [] with
  | (v, []) => inr v
  | (_, e) => inl e
  end = (inr cfg : list error + gmap string pyval) <->
  exists v, validate_field name f kwargs values = inr v /\
    match validate_model rest kwargs (<[name := v]> values) [] with
    | (v, []) => inr v
    | (_, e) => inl e
    end = (inr cfg : list error + gmap string pyval).
Proof.
  cbn [validate_model app].
  destruct (validate_field name f kwargs values) as [e|v].
  - split; [|intros (v & Hv & _); discriminate].
    pose proof (validate_model_keeps_errors rest kwargs values [e]) as Hk.
    destruct (validate_model rest kwargs values [e]) as [vs [|e' es]];
      [exfalso; apply Hk; [discriminate|reflexivity] | discriminate].
  - split; [intros H; exists v; auto | intros (v' & [= <-] & H); exact H].
Qed.

End Acceptance.

(** X1. The campaign name is judged after trimming: whatever the other
    fields are, a configuration whose campaign name is the string [s]
    has no [campaign_name] violation exactly when the trimmed name has
    at least three characters. *)
Theorem X1_campaign_name_rule :
  forall (kwargs : gmap string Py.pyval) (s : string),
    kwargs !! "campaign_name" = Some (Py.PyStr s) ->
    (AdConfig.violations_of "campaign_name" kwargs = [] <->
     (3 <= String.length (Py.strip s))%nat).
Proof.
  intros kwargs s E.
  destruct (field_violations kwargs) as (-> & _ & _).
  rewrite campaign_field, E.
  pose proof (strip_length s) as Hs.
  destruct (String.length s <? 3)%nat eqn:L1.
  - apply Nat.ltb_lt in L1. split; [discriminate | lia].
  - destruct (String.length (Py.strip s) <? 3)%nat eqn:L2.
    + apply Nat.ltb_lt in L2. split; [discriminate | lia].
    + apply Nat.ltb_ge in L2. split; [intros _; exact L2 | reflexivity].
Qed.

Lemma X1_campaign_name_rule_witness :
  AdConfig.violations_of "campaign_name"
    (<["campaign_name" := Py.PyStr "  Abc  "]> ∅) = [] /\
  AdConfig.violations_of "campaign_name"
    (<["campaign_name" := Py.PyStr "  Ab  "]> ∅) <> [].
Proof.
  split.
  - apply (X1_campaign_name_rule _ "  Abc  "); [reflexivity | vm_compute; lia].
  - intros H. apply (X1_campaign_name_rule _ "  Ab  ") in H; [|reflexivity].
    vm_compute in H. lia.
Defined.

(** X2. The objective is compared literally: whatever the other fields
    are, a configuration whose objective is the string [o] has no
    [objective] violation exactly when [o] is "Traffic" or
    "Conversions". *)
Theorem X2_objective_rule :
  forall (kwargs : gmap string Py.pyval) (o : string),
    kwargs !! "objective" = Some (Py.PyStr o) ->
    (AdConfig.violations_of "objective" kwargs = [] <->
     o = "Traffic" \/ o = "Conversions").
Proof.
  intros kwargs o E.
  destruct (field_violations kwargs) as (_ & -> & _).
  rewrite objective_field, E. rewrite <- objective_mem.
  destruct (bool_decide _); split; congruence.
Qed.

Lemma X2_objective_rule_witness :
  AdConfig.violations_of "objective" (<["objective" := Py.PyStr "Traffic"]> ∅) = [] /\
  AdConfig.violations_of "objective" (<["objective" := Py.PyStr "traffic"]> ∅) <> [].
Proof.
  split.
  - apply (X2_objective_rule _ "Traffic"); [reflexivity | left; reflexivity].
  - intros H. apply (X2_objective_rule _ "traffic") in H; [|reflexivity].
    destruct H as [H|H]; discriminate H.
Defined.

(** X3. The call to action only has to be there: a configuration has no
    [cta] violation exactly when [cta] is passed as a string, the empty
    string included; a missing key and [None] are violations. *)
Theorem X3_cta_rule :
  forall kwargs : gmap string Py.pyval,
    AdConfig.violations_of "cta" kwargs = [] <->
    exists s, kwargs !! "cta" = Some (Py.PyStr s).
Proof.
  intros kwargs.
  destruct (field_violations kwargs) as (_ & _ & ->).
  rewrite cta_field.
  destruct (kwargs !! "cta") as [[|c]|]; split;
    try discriminate; try (intros [s Hs]; discriminate); eauto.
Qed.

Lemma X3_cta_rule_witness :
  AdConfig.violations_of "cta" (Examples.kwargs [("cta", Py.PyStr "")]) = [].
Proof.
  apply X3_cta_rule. exists "". reflexivity.
Defined.

Section FieldOrder.
Import Pydantic AdConfig.

(** The music rule reads nothing of the validated values but the
    objective. *)
Lemma music_values (kwargs values1 values2 : gmap string pyval) :
  values1 !! "objective" = values2 !! "objective" ->
  validate_field "music_id" (OptStrField (Some validate_music_logic) false)
    kwargs values1 =
  validate_field "music_id" (OptStrField (Some validate_music_logic) false)
    kwargs values2.
Proof.
  intros H. rewrite !music_field.
  destruct (kwargs !! "music_id") as [v|]; [|reflexivity].
  unfold validate_music_logic. rewrite H. reflexivity.
Qed.

(** The errors of the constructor, field by field. *)
Lemma violations_by_field (kwargs : gmap string pyval) :
  let seen : gmap string pyval :=
    match kwargs !! "objective" with
    | Some (PyStr o) =>
        if bool_decide (o ∈ ["Traffic"; "Conversions"])
        then <["objective" := PyStr o]> ∅ else ∅
    | _ => ∅
    end in
  violations kwargs =
    flat_map (fun nf => match validate_field (fst nf) (snd nf) kwargs seen with
                        | inl e => [e]
                        | inr _ => []
                        end) fields.
Proof.
  intros seen. rewrite violations_unfold. unfold fields.
  cbn [flat_map fst snd].
  rewrite (campaign_field kwargs seen), (objective_field kwargs seen),
    (ad_text_field_full kwargs seen), (cta_field kwargs seen).
  cbn [validate_model].
  rewrite (campaign_field kwargs ∅).
  assert (Hlast : forall (values : gmap string pyval) (errs : list error),
             values !! "objective" = seen !! "objective" ->
             snd (match validate_field "music_id"
                          (OptStrField (Some validate_music_logic) false)
                          kwargs values with
                  | inl e => (values, (errs ++ [e])%list)
                  | inr v => (<["music_id" := v]> values, errs)
                  end) =
             (errs ++ match validate_field "music_id"
                              (OptStrField (Some validate_music_logic) false)
                              kwargs seen with
                      | inl e => [e]
                      | inr _ => []
                      end ++ [])%list).
  { intros values errs Hv. rewrite (music_values kwargs values seen Hv).
    destruct (validate_field "music_id" _ kwargs seen); cbn [snd];
      rewrite ?app_nil_r; reflexivity. }
  subst seen.
  destruct (kwargs !! "campaign_name") as [[|n]|];
    try destruct (String.length n <? 3)%nat;
    try destruct (String.length (strip n) <? 3)%nat;
    rewrite objective_field;
    (destruct (kwargs !! "objective") as [[|o]|];
     try destruct (bool_decide (o ∈ ["Traffic"; "Conversions"])));
    rewrite ad_text_field_full;
    (destruct (kwargs !! "ad_text") as [[|t]|];
     try destruct (100 <? String.length t)%nat);
    rewrite cta_field;
    (destruct (kwargs !! "cta") as [[|c]|]);
    cbn [validate_model];
    (rewrite Hlast by (simplify_map_eq; reflexivity));
    reflexivity.
Qed.

End FieldOrder.

(** X4. Validation does not stop at the first failing field. Every
    field is validated by itself, whatever became of the fields before
    it; the music rule alone looks at another field, the objective,
    and sees it when it is valid. The errors of the constructor are
    the errors of the single fields, in the order in which the fields
    are declared, so there are as many errors as fields that fail: with
    no argument at all, the four required fields are all reported. *)
Theorem X4_violations_in_field_order :
  forall kwargs : gmap string Py.pyval,
    let seen : gmap string Py.pyval :=
      match kwargs !! "objective" with
      | Some (Py.PyStr o) =>
          if bool_decide (o ∈ ["Traffic"; "Conversions"])
          then <["objective" := Py.PyStr o]> ∅ else ∅
      | _ => ∅
      end in
    AdConfig.violations kwargs =
      flat_map (fun nf =>
                  match Pydantic.validate_field (fst nf) (snd nf) kwargs seen with
                  | inl e => [e]
                  | inr _ => []
                  end) AdConfig.fields /\
    map Pydantic.loc (AdConfig.violations kwargs)
      `sublist_of` ["campaign_name"; "objective"; "ad_text"; "cta"; "music_id"] /\
    map Pydantic.loc (AdConfig.violations ∅)
      = ["campaign_name"; "objective"; "ad_text"; "cta"].
Proof.
  intros kwargs seen. split; [apply violations_by_field|].
  split; [apply violations_in_order | vm_compute; reflexivity].
Qed.

(** X5. What [AdConfig] accepts and what it returns. The constructor
    succeeds exactly when the campaign name is a string with at least
    three characters after trimming, the objective is "Traffic" or
    "Conversions", the ad text is a string of at most 100 characters,
    the call to action is a string, and the music id is not passed, or
    is [None] with an objective other than Conversions, or is a string
    that is not blank. The result holds the five fields: the campaign
    name trimmed, the others as passed, and [None] for a music id that
    was not passed. *)
Theorem X5_AdConfig_accepts :
  forall kwargs cfg : gmap string Py.pyval,
    AdConfig.AdConfig kwargs = inr cfg <->
    exists n o t c : string,
      kwargs !! "campaign_name" = Some (Py.PyStr n) /\
      (3 <= String.length (Py.strip n))%nat /\
      kwargs !! "objective" = Some (Py.PyStr o) /\
      (o = "Traffic" \/ o = "Conversions") /\
      kwargs !! "ad_text" = Some (Py.PyStr t) /\
      (String.length t <= 100)%nat /\
      kwargs !! "cta" = Some (Py.PyStr c) /\
      match kwargs !! "music_id" with
      | None => True
      | Some Py.PyNone => o <> "Conversions"
      | Some (Py.PyStr m) => Py.strip m <> ""
      end /\
      cfg = <["music_id" := default Py.PyNone (kwargs !! "music_id")]>
            (<["cta" := Py.PyStr c]>
            (<["ad_text" := Py.PyStr t]>
            (<["objective" := Py.PyStr o]>
            (<["campaign_name" := Py.PyStr (Py.strip n)]> ∅)))).
Proof.
  intros kwargs cfg. unfold AdConfig.AdConfig, Pydantic.construct, AdConfig.fields.
  rewrite accept_step. do 4 setoid_rewrite accept_step.
  split.
  - intros (v1 & H1 & v2 & H2 & v3 & H3 & v4 & H4 & v5 & H5 & Hc).
    apply campaign_ok in H1 as (n & Hn & Ln & ->).
    apply objective_ok in H2 as (o & Ho & Bo & ->).
    apply ad_text_ok in H3 as (t & Ht & Lt & ->).
    apply cta_ok in H4 as (c & Hc' & ->).
    apply (music_ok _ _ o) in H5 as (Hm & ->); [|by simplify_map_eq].
    cbn [Pydantic.validate_model] in Hc. injection Hc as <-.
    exists n, o, t, c. repeat (split; [assumption|]). reflexivity.
  - intros (n & o & t & c & Hn & Ln & Ho & Bo & Ht & Lt & Hc & Hm & ->).
    exists (Py.PyStr (Py.strip n)). split; [apply campaign_ok; eauto|].
    exists (Py.PyStr o). split; [apply objective_ok; eauto|].
    exists (Py.PyStr t). split; [apply ad_text_ok; eauto|].
    exists (Py.PyStr c). split; [apply cta_ok; eauto|].
    exists (default Py.PyNone (kwargs !! "music_id")).
    split; [apply (music_ok _ _ o); [by simplify_map_eq | auto]|].
    reflexivity.
Qed.

Lemma X5_AdConfig_accepts_witness :
  exists cfg, AdConfig.AdConfig MoreExamples.traffic_config = inr cfg.
Proof.
  eexists. apply X5_AdConfig_accepts.
  exists "Summer Sale 2026", "Traffic", "Get 50% off on all products!", "Shop Now".
  split; [reflexivity|]. split; [vm_compute; lia|].
  split; [reflexivity|]. split; [left; reflexivity|].
  split; [reflexivity|]. split; [vm_compute; lia|].
  split; [reflexivity|]. split; [exact I | reflexivity].
Defined.

(** ** The simulated capability of mock_api.py *)

Section MockFacts.
Import API MockTikTokAPI.
Context {R : Type} `{RandomSource R}.

Lemma after_last_no_sep (sep : ascii) (s : string) :
  str_in (String sep EmptyString) (after_last sep s) = false.
Proof.
  induction s as [|c s IH]; [reflexivity|].
  cbn [after_last].
  destruct (Ascii.eqb c sep) eqn:E; [exact IH|].
  destruct (str_in (String sep EmptyString) s) eqn:Hs; [exact IH|].
  unfold str_in; fold str_in. rewrite Hs. cbn [startswith].
  rewrite Ascii.eqb_sym, E. reflexivity.
Qed.

Lemma after_last_suffix (sep : ascii) (s : string) :
  exists pre, s = pre ++ after_last sep s.
Proof.
  induction s as [|c s [pre IH]]; [exists ""; reflexivity|].
  cbn [after_last].
  destruct (Ascii.eqb c sep);
    [exists (String c pre); simpl; congruence|].
  destruct (str_in (String sep EmptyString) s);
    [exists (String c pre); simpl; congruence|].
  exists "". reflexivity.
Qed.

Lemma suffix_without (c : ascii) (pre t : string) :
  str_in (String c EmptyString) (pre ++ t) = false ->
  str_in (String c EmptyString) t = false.
Proof.
  induction pre as [|x pre IH]; [intros Hs; exact Hs|].
  change (String x pre ++ t) with (String x (pre ++ t)).
  unfold str_in; fold str_in. intros Hs.
  apply orb_false_iff in Hs as [_ Hs]. apply IH, Hs.
Qed.

(** Where failures are not simulated the generator is not consulted. *)
Lemma induced_failure_off (st : state R) :
  simulate_failures st = false -> induced_failure st = (false, st).
Proof. unfold induced_failure. now intros ->. Qed.

Lemma induced_failure_on (st : state R) :
  simulate_failures st = true ->
  (fst (random (rng st)) < failure_rate st)%Q ->
  induced_failure st = (true, with_rng st (snd (random (rng st)))).
Proof.
  unfold induced_failure. intros -> Hlt.
  destruct (random (rng st)) as [x g]. cbn [fst snd] in *.
  destruct (Qlt_le_dec x (failure_rate st)) as [_|Hle]; [reflexivity|].
  exfalso. exact (Qlt_not_le _ _ Hlt Hle).
Qed.

End MockFacts.

(** X6. Catalogue lookup of the simulated capability, failures switched
    off: [validate_music_id] succeeds for an id that is in the catalogue
    or starts with "UPLOAD_", and echoes the id; for any other id it
    fails with MUSIC_NOT_FOUND and a message that quotes the id, an
    error the classifier marks as not retryable. The token is not looked
    at and the capability is left as it was. *)
Theorem X6_mock_validate_lookup :
  forall (R : Type) (RS : MockTikTokAPI.RandomSource R)
         (st : MockTikTokAPI.state R) (id token : string),
    MockTikTokAPI.simulate_failures st = false ->
    (id ∈ MockTikTokAPI.valid_music_ids st \/ Py.startswith "UPLOAD_" id = true ->
     MockTikTokAPI.mock_validate_music_id id token st =
       (API.Success (API.MusicData id ("Sample Track " ++ id) "Mock Artist" 30 "Pop"),
        st)) /\
    (id ∉ MockTikTokAPI.valid_music_ids st -> Py.startswith "UPLOAD_" id = false ->
     exists msg,
       MockTikTokAPI.mock_validate_music_id id token st =
         (API.Failure "MUSIC_NOT_FOUND" msg, st) /\
       Py.contains id msg /\
       ErrorInterpreter.retryable (ErrorInterpreter.interpret "MUSIC_NOT_FOUND") = false).
Proof.
  intros R RS st id token Hoff.
  unfold MockTikTokAPI.mock_validate_music_id.
  rewrite (induced_failure_off st Hoff). split.
  - intros [Hin|Hp].
    + rewrite bool_decide_eq_true_2 by exact Hin. reflexivity.
    + rewrite Hp, orb_true_r. reflexivity.
  - intros Hin Hp. rewrite bool_decide_eq_false_2 by exact Hin. rewrite Hp.
    eexists. split; [reflexivity|]. split; [|reflexivity].
    apply contains_app_r, contains_app_l, contains_refl.
Qed.

Lemma X6_mock_validate_lookup_witness :
  (exists d, MockTikTokAPI.mock_validate_music_id "12345" "token" Examples.quiet_mock
             = (API.Success d, Examples.quiet_mock)) /\
  (exists msg, MockTikTokAPI.mock_validate_music_id "not-a-real-id" "token"
                 Examples.quiet_mock
               = (API.Failure "MUSIC_NOT_FOUND" msg, Examples.quiet_mock)).
Proof.
  destruct (X6_mock_validate_lookup nat _ Examples.quiet_mock "12345" "token" eq_refl)
    as [Hyes _].
  destruct (X6_mock_validate_lookup nat _ Examples.quiet_mock "not-a-real-id" "token"
              eq_refl) as [_ Hno].
  split.
  - eexists. apply Hyes. left. vm_compute. repeat constructor.
  - destruct Hno as (msg & Hm & _).
    + vm_compute. intros Hin.
      repeat (apply elem_of_cons in Hin as [Hin|Hin]; [discriminate Hin|]).
      inversion Hin.
    + reflexivity.
    + exists msg. exact Hm.
Defined.

(** X7. Induced failures of the simulated capability: when failures are
    simulated and the number drawn lies below the failure rate,
    [validate_music_id] rejects every id, catalogued or not, with
    INVALID_TOKEN, which the classifier marks as retryable, and
    [upload_music] fails with GEO_RESTRICTED, marked as not retryable,
    and registers nothing. *)
Theorem X7_mock_induced_failures :
  forall (R : Type) (RS : MockTikTokAPI.RandomSource R)
         (st : MockTikTokAPI.state R) (arg token : string),
    MockTikTokAPI.simulate_failures st = true ->
    (fst (MockTikTokAPI.random (MockTikTokAPI.rng st)) < MockTikTokAPI.failure_rate st)%Q ->
    fst (MockTikTokAPI.mock_validate_music_id arg token st)
      = API.Failure "INVALID_TOKEN" "Access token has expired" /\
    ErrorInterpreter.retryable (ErrorInterpreter.interpret "INVALID_TOKEN") = true /\
    fst (MockTikTokAPI.mock_upload_music arg token st)
      = API.Failure "GEO_RESTRICTED" "Music upload is not available in your region" /\
    ErrorInterpreter.retryable (ErrorInterpreter.interpret "GEO_RESTRICTED") = false /\
    MockTikTokAPI.valid_music_ids (snd (MockTikTokAPI.mock_upload_music arg token st))
      = MockTikTokAPI.valid_music_ids st.
Proof.
  intros R RS st arg token Hon Hlt.
  unfold MockTikTokAPI.mock_validate_music_id, MockTikTokAPI.mock_upload_music.
  rewrite (induced_failure_on st Hon Hlt). repeat split.
Qed.

Lemma X7_mock_induced_failures_witness :
  fst (MockTikTokAPI.mock_validate_music_id "12345" "token" MoreExamples.failing_mock)
    = API.Failure "INVALID_TOKEN" "Access token has expired".
Proof.
  apply (X7_mock_induced_failures nat _ MoreExamples.failing_mock "12345" "token");
    reflexivity.
Defined.

(** X8. No operation of the simulated capability removes an id from the
    catalogue or changes the failure settings: after [validate_music_id],
    [upload_music] and [create_ad] the old catalogue is a prefix of the
    new one, and [simulate_failures] and [failure_rate] are as before. *)
Theorem X8_mock_catalogue_grows :
  forall (R : Type) (RS : MockTikTokAPI.RandomSource R)
         (st : MockTikTokAPI.state R) (arg token : string)
         (payload : gmap string Py.pyval),
    let keeps (st' : MockTikTokAPI.state R) :=
      MockTikTokAPI.valid_music_ids st `prefix_of` MockTikTokAPI.valid_music_ids st' /\
      MockTikTokAPI.simulate_failures st' = MockTikTokAPI.simulate_failures st /\
      MockTikTokAPI.failure_rate st' = MockTikTokAPI.failure_rate st in
    keeps (snd (MockTikTokAPI.mock_validate_music_id arg token st)) /\
    keeps (snd (MockTikTokAPI.mock_upload_music arg token st)) /\
    keeps (snd (MockTikTokAPI.mock_create_ad payload token st)).
Proof.
  intros R RS st arg token payload. cbv zeta.
  unfold MockTikTokAPI.mock_validate_music_id, MockTikTokAPI.mock_upload_music,
    MockTikTokAPI.mock_create_ad, MockTikTokAPI.induced_failure.
  destruct (MockTikTokAPI.simulate_failures st) eqn:Hs.
  - destruct (MockTikTokAPI.random (MockTikTokAPI.rng st)) as [x g].
    cbn [MockTikTokAPI.with_rng MockTikTokAPI.valid_music_ids MockTikTokAPI.rng].
    destruct (Qlt_le_dec x (MockTikTokAPI.failure_rate st));
      destruct (Qlt_le_dec x (5 # 100));
      destruct (Qlt_le_dec x (8 # 100));
      destruct (Qlt_le_dec x (10 # 100));
      try destruct (bool_decide _ || _);
      repeat match goal with
             | |- context [MockTikTokAPI.randint ?a ?b ?g] =>
                 destruct (MockTikTokAPI.randint a b g) as [? ?]
             end;
      cbn; rewrite ?Hs; repeat split; try reflexivity;
      try (apply prefix_app_r; reflexivity).
  - destruct (bool_decide _ || _);
      repeat match goal with
             | |- context [MockTikTokAPI.randint ?a ?b ?g] =>
                 destruct (MockTikTokAPI.randint a b g) as [? ?]
             end;
      cbn; rewrite ?Hs; repeat split; try reflexivity;
      try (apply prefix_app_r; reflexivity).
Qed.

Section BaseName.
Import Py.

Lemma append_empty_r (s : string) : s ++ "" = s.
Proof. induction s as [|c s IH]; simpl; congruence. Qed.

(** What precedes the part after the last separator is empty or ends
    with the separator. *)
Lemma after_last_split (sep : ascii) (s : string) :
  exists pre,
    s = pre ++ after_last sep s /\
    (pre = "" \/ exists p, pre = p ++ String sep "").
Proof.
  induction s as [|c s (pre & IH & Hpre)]; [exists ""; split; [reflexivity|left; reflexivity]|].
  cbn [after_last].
  destruct (Ascii.eqb c sep) eqn:E.
  - apply Ascii.eqb_eq in E. subst c.
    exists (String sep pre). split; [simpl; congruence|]. right.
    destruct Hpre as [->|(p & ->)]; [exists ""; reflexivity|].
    exists (String sep p). reflexivity.
  - destruct (str_in (String sep EmptyString) s) eqn:Hs.
    + exists (String c pre). split; [simpl; congruence|]. right.
      destruct Hpre as [->|(p & ->)].
      * exfalso. simpl in IH. rewrite IH in Hs.
        rewrite after_last_no_sep in Hs. discriminate.
      * exists (String c p). reflexivity.
    + exists "". split; [reflexivity | left; reflexivity].
Qed.

End BaseName.

(** X9. The title that [upload_music] reports is the base name of the
    path: the path is the title preceded by nothing or by a part that
    ends with a slash or a backslash, and the title itself contains
    neither a slash nor a backslash. So the title is what follows the
    last separator, and the whole path when there is none. *)
Theorem X9_mock_upload_title_is_basename :
  forall (R : Type) (RS : MockTikTokAPI.RandomSource R)
         (st st' : MockTikTokAPI.state R) (file_path token : string)
         (d : API.upload_data),
    MockTikTokAPI.mock_upload_music file_path token st = (API.Success d, st') ->
    (exists pre,
       file_path = pre ++ API.up_title d /\
       (pre = "" \/
        exists p c, pre = p ++ String c "" /\ (c = "/"%char \/ c = "\"%char))) /\
    Py.str_in "/" (API.up_title d) = false /\
    Py.str_in "\" (API.up_title d) = false.
Proof.
  intros R RS st st' file_path token d.
  unfold MockTikTokAPI.mock_upload_music.
  destruct (MockTikTokAPI.induced_failure st) as [[|] st1]; [discriminate|].
  destruct (MockTikTokAPI.randint _ _ _) as [n g].
  intros [= <- _]. cbn [API.up_title].
  destruct (after_last_split "/" file_path) as (p1 & H1 & E1).
  destruct (after_last_split "\" (Py.after_last "/" file_path)) as (p2 & H2 & E2).
  split; [|split].
  - exists (p1 ++ p2). split; [rewrite append_assoc, <- H2; exact H1|].
    destruct E2 as [->|(q & ->)].
    + rewrite append_empty_r.
      destruct E1 as [->|(q & ->)]; [left; reflexivity|].
      right. exists q, "/"%char. split; [reflexivity | left; reflexivity].
    + right. exists (p1 ++ q), "\"%char.
      split; [rewrite append_assoc; reflexivity | right; reflexivity].
  - apply (suffix_without "/" p2). rewrite <- H2. apply after_last_no_sep.
  - apply after_last_no_sep.
Qed.

Lemma X9_mock_upload_title_is_basename_witness :
  exists d st',
    MockTikTokAPI.mock_upload_music "/path/to/track.mp3" "token" Examples.quiet_mock
      = (API.Success d, st') /\
    (exists pre,
       "/path/to/track.mp3" = pre ++ API.up_title d /\
       (pre = "" \/
        exists p c, pre = p ++ String c "" /\ (c = "/"%char \/ c = "\"%char))) /\
    Py.str_in "/" (API.up_title d) = false /\
    Py.str_in "\" (API.up_title d) = false.
Proof.
  eexists. eexists. split; [reflexivity|].
  eapply (X9_mock_upload_title_is_basename nat _ Examples.quiet_mock _
            "/path/to/track.mp3" "token").
  reflexivity.
Defined.

(** ** More on the turn of the conversation manager *)

Section TurnFacts.
Import API LLMClient ConversationManager.
Context {S : Type} `{TikTokAPI S}.
Variable llm : list chat_message -> gmap string pyval -> result response.

(** What a handler does to the record of calls and to the
    configuration. *)
Lemma validate_music_effect (m : manager S) :
  (exists c, calls (snd (_validate_music m)) = (calls m ++ c)%list /\
             (List.length c <= 1)%nat) /\
  ad_config (snd (_validate_music m)) = ad_config m.
Proof.
  unfold _validate_music.
  destruct (default PyNone (ad_config m !! "music_id")) as [|[|c mid]];
    try (split; [exists []; rewrite app_nil_r; split; [reflexivity|simpl; lia]
                | reflexivity]).
  destruct (validate_music_id _ _ _) as [[e|[d|code msg]] a];
    (split; [eexists; split; [reflexivity|simpl; lia] | reflexivity]).
Qed.

Lemma upload_music_effect (file_path : string) (m : manager S) :
  (exists c, calls (snd (_upload_music file_path m)) = (calls m ++ c)%list /\
             (List.length c <= 1)%nat) /\
  (ad_config (snd (_upload_music file_path m)) = ad_config m \/
   exists id, ad_config (snd (_upload_music file_path m))
              = <["music_id" := PyStr id]> (ad_config m)).
Proof.
  unfold _upload_music.
  destruct (upload_music _ _ _) as [[e|[d|code msg]] a];
    (split; [eexists; split; [reflexivity|simpl; lia]|]);
    [left; reflexivity | right; eexists; reflexivity | left; reflexivity].
Qed.

Lemma submit_ad_effect (m : manager S) :
  (exists c, calls (snd (_submit_ad m)) = (calls m ++ c)%list /\
             (List.length c <= 1)%nat) /\
  ad_config (snd (_submit_ad m)) = ad_config m.
Proof.
  unfold _submit_ad.
  destruct (AdConfig.AdConfig (ad_config m)) as [errs|cfg];
    [split; [exists []; rewrite app_nil_r; split; [reflexivity|simpl; lia]
            | reflexivity]|].
  destruct (create_ad _ _ _) as [[[e|e]|[d|code msg]] a];
    (split; [eexists; split; [reflexivity|simpl; lia] | reflexivity]).
Qed.

(** A configuration without [None] entries stays so under a merge. *)
Lemma merge_no_none (delta cfg : gmap string pyval) :
  (forall k, cfg !! k <> Some PyNone) ->
  forall k, merge delta cfg !! k <> Some PyNone.
Proof.
  intros Hc k. rewrite manager_merge_lookup.
  destruct (delta !! k) as [[|s]|]; [apply Hc | discriminate | apply Hc].
Qed.

End TurnFacts.

(** X10. One turn makes at most one capability call: after
    [process_message] the record of calls is the old one followed by at
    most one call, whatever the language-model client answers and
    whatever the capability does. *)
Theorem X10_at_most_one_call_per_turn :
  forall (S : Type) (A : API.TikTokAPI S)
         (llm : list LLMClient.chat_message -> gmap string Py.pyval ->
                Py.result LLMClient.response)
         (user_msg : string) (m : ConversationManager.manager S),
    exists c : list API.call,
      ConversationManager.calls
        (snd (ConversationManager.process_message llm user_msg m))
        = (ConversationManager.calls m ++ c)%list /\
      (List.length c <= 1)%nat.
Proof.
  intros S A llm user_msg m.
  unfold ConversationManager.process_message.
  set (m0 := ConversationManager.append_message m "user" user_msg).
  assert (Ht : exists c,
             ConversationManager.calls (snd (ConversationManager.turn llm user_msg m0))
             = (ConversationManager.calls m ++ c)%list /\ (List.length c <= 1)%nat).
  { unfold ConversationManager.turn.
    assert (Hnil : exists c : list API.call,
               ConversationManager.calls m = (ConversationManager.calls m ++ c)%list
               /\ (List.length c <= 1)%nat)
      by (exists []; rewrite app_nil_r; split; [reflexivity|simpl; lia]).
    destruct (llm _ _) as [e|r]; [exact Hnil|].
    destruct (LLMClient.message r) as [agent_msg|]; [|exact Hnil].
    set (m1 := match LLMClient.state r with Some _ => _ | None => _ end).
    assert (Hm1 : ConversationManager.calls m1 = ConversationManager.calls m)
      by (subst m1 m0; destruct (LLMClient.state r); reflexivity).
    destruct (String.eqb _ "validate_music");
      [rewrite <- Hm1; apply (proj1 (validate_music_effect m1))|].
    destruct (String.eqb _ "upload_music");
      [rewrite <- Hm1; apply (proj1 (upload_music_effect user_msg m1))|].
    destruct (String.eqb _ "submit"); [|cbn [snd]; rewrite Hm1; exact Hnil].
    pose proof (proj1 (submit_ad_effect m1)) as Hs. rewrite Hm1 in Hs.
    destruct (ConversationManager._submit_ad m1) as [msg m2]. exact Hs. }
  destruct (ConversationManager.turn llm user_msg m0) as [[e|agent_msg] m'];
    exact Ht.
Qed.

(** X11. A turn whose action is none of validate_music, upload_music
    and submit (collect, a missing action, or anything else) returns the
    model's message verbatim, calls no capability, and changes the
    configuration only by merging the proposed state. *)
Theorem X11_plain_turn :
  forall (S : Type) (A : API.TikTokAPI S)
         (llm : list LLMClient.chat_message -> gmap string Py.pyval ->
                Py.result LLMClient.response)
         (user_msg : string) (m : ConversationManager.manager S)
         (r : LLMClient.response) (agent_msg : string),
    llm (ConversationManager.messages m ++ [LLMClient.ChatMessage "user" user_msg])%list
        (ConversationManager.ad_config m) = inr r ->
    LLMClient.message r = Some agent_msg ->
    default "collect" (LLMClient.action r)
      ∉ ["validate_music"; "upload_music"; "submit"] ->
    ConversationManager.process_message llm user_msg m =
      (agent_msg,
       ConversationManager.Manager
         (ConversationManager.messages m ++
            [LLMClient.ChatMessage "user" user_msg;
             LLMClient.ChatMessage "assistant" agent_msg])%list
         (match LLMClient.state r with
          | Some delta => ConversationManager.merge delta (ConversationManager.ad_config m)
          | None => ConversationManager.ad_config m
          end)
         (ConversationManager.api m) (ConversationManager.calls m)).
Proof.
  intros S A llm user_msg m r agent_msg Hl Hmsg Hact.
  unfold ConversationManager.process_message, ConversationManager.turn.
  cbn [ConversationManager.append_message ConversationManager.messages
       ConversationManager.ad_config].
  rewrite Hl, Hmsg.
  assert (Hne : forall a, a ∈ ["validate_music"; "upload_music"; "submit"] ->
                          String.eqb (default "collect" (LLMClient.action r)) a = false).
  { intros a Ha. apply String.eqb_neq. intros E. apply Hact. rewrite E. exact Ha. }
  rewrite !Hne by (repeat constructor).
  destruct (LLMClient.state r);
    unfold ConversationManager.append_message, ConversationManager.set_config;
    cbn [ConversationManager.messages ConversationManager.ad_config
         ConversationManager.api ConversationManager.calls];
    rewrite <- app_assoc; reflexivity.
Qed.

Lemma X11_plain_turn_witness :
  fst (ConversationManager.process_message
         (fun _ _ => inr (LLMClient.Response (Some "What is your campaign name?")
                            None (Some (<["objective" := Py.PyStr "Traffic"]> ∅))
                            (Some "collect") None))
         "hi" (Examples.manager_with ∅))
    = "What is your campaign name?".
Proof.
  rewrite (X11_plain_turn _ _ _ "hi" (Examples.manager_with ∅)
             (LLMClient.Response (Some "What is your campaign name?")
                None (Some (<["objective" := Py.PyStr "Traffic"]> ∅))
                (Some "collect") None)
             "What is your campaign name?" eq_refl eq_refl).
  - reflexivity.
  - cbn. intros Hin.
    repeat (apply elem_of_cons in Hin as [Hin|Hin]; [discriminate Hin|]).
    inversion Hin.
Defined.

(** X12. The configuration of the manager never holds [None]: if no
    entry is [None] before a turn, none is after it, whatever the
    language-model client proposes and whatever the capability
    returns. *)
Theorem X12_config_never_holds_none :
  forall (S : Type) (A : API.TikTokAPI S)
         (llm : list LLMClient.chat_message -> gmap string Py.pyval ->
                Py.result LLMClient.response)
         (user_msg : string) (m : ConversationManager.manager S),
    (forall k, ConversationManager.ad_config m !! k <> Some Py.PyNone) ->
    forall k,
      ConversationManager.ad_config
        (snd (ConversationManager.process_message llm user_msg m)) !! k
      <> Some Py.PyNone.
Proof.
  intros S A llm user_msg m Hinv.
  unfold ConversationManager.process_message.
  set (m0 := ConversationManager.append_message m "user" user_msg).
  assert (Ht : forall k,
             ConversationManager.ad_config
               (snd (ConversationManager.turn llm user_msg m0)) !! k
             <> Some Py.PyNone).
  { unfold ConversationManager.turn.
    destruct (llm _ _) as [e|r]; [exact Hinv|].
    destruct (LLMClient.message r) as [agent_msg|]; [|exact Hinv].
    set (m1 := match LLMClient.state r with Some _ => _ | None => _ end).
    assert (Hm1 : forall k, ConversationManager.ad_config m1 !! k <> Some Py.PyNone).
    { subst m1 m0. destruct (LLMClient.state r) as [delta|]; [|exact Hinv].
      apply merge_no_none, Hinv. }
    destruct (String.eqb _ "validate_music").
    { rewrite (proj2 (validate_music_effect m1)). exact Hm1. }
    destruct (String.eqb _ "upload_music").
    { destruct (proj2 (upload_music_effect user_msg m1)) as [->|[id ->]];
        [exact Hm1|].
      intros k. destruct (decide ("music_id" = k)) as [<-|Hne].
      - rewrite lookup_insert_eq. discriminate.
      - rewrite lookup_insert_ne by exact Hne. apply Hm1. }
    destruct (String.eqb _ "submit"); [|exact Hm1].
    pose proof (proj2 (submit_ad_effect m1)) as Hs.
    destruct (ConversationManager._submit_ad m1) as [msg m2].
    cbn [snd] in *. rewrite Hs. exact Hm1. }
  destruct (ConversationManager.turn llm user_msg m0) as [[e|agent_msg] m'];
    exact Ht.
Qed.

Lemma X12_config_never_holds_none_witness :
  ConversationManager.ad_config
    (snd (ConversationManager.process_message
            (fun _ _ => inr (LLMClient.Response (Some "ok") None
                               (Some (<["music_id" := Py.PyNone]> ∅))
                               (Some "collect") None))
            "no music" (Examples.manager_with ∅))) !! "music_id"
  <> Some Py.PyNone.
Proof.
  apply X12_config_never_holds_none.
  intros k. cbn. rewrite lookup_empty. discriminate.
Defined.

(** X13. The merge of the manager never removes a key, takes every
    value from the configuration or from the delta, and is idempotent:
    merging the same delta twice gives what merging it once gives. *)
Theorem X13_merge_keeps_keys :
  forall (delta cfg : gmap string Py.pyval),
    (forall k, is_Some (cfg !! k) ->
               is_Some (ConversationManager.merge delta cfg !! k)) /\
    (forall k v, ConversationManager.merge delta cfg !! k = Some v ->
                 cfg !! k = Some v \/ delta !! k = Some v) /\
    ConversationManager.merge delta (ConversationManager.merge delta cfg)
      = ConversationManager.merge delta cfg.
Proof.
  intros delta cfg. split; [|split].
  - intros k Hk. rewrite manager_merge_lookup.
    destruct (delta !! k) as [[|s]|]; eauto.
  - intros k v. rewrite manager_merge_lookup.
    destruct (delta !! k) as [[|s]|]; auto.
  - apply map_eq. intros k. rewrite !manager_merge_lookup.
    destruct (delta !! k) as [[|s]|]; reflexivity.
Qed.

Lemma X13_merge_keeps_keys_witness :
  is_Some (ConversationManager.merge (<["cta" := Py.PyNone]> ∅)
             (<["cta" := Py.PyStr "Shop Now"]> ∅) !! "cta").
Proof.
  destruct (X13_merge_keeps_keys (<["cta" := Py.PyNone]> ∅)
              (<["cta" := Py.PyStr "Shop Now"]> ∅)) as (H & _ & _).
  apply H. exists (Py.PyStr "Shop Now"). reflexivity.
Defined.

(** ** The manager over the simulated capability, and the chat callback *)

Section ManagerOverMock.
Import API MockTikTokAPI ConversationManager.
Context {R : Type} `{RandomSource R}.

(** [_validate_music] on a stored reference that carries the upload
    prefix, failures switched off. *)
Lemma validate_uploaded (m : manager (state R)) (rest : string) :
  simulate_failures (api m) = false ->
  ad_config m !! "music_id" = Some (PyStr ("UPLOAD_" ++ rest)) ->
  exists text,
    _validate_music m =
      (inr text,
       called m (CallValidateMusic ("UPLOAD_" ++ rest) "mock_access_token") (api m)) /\
    contains ("Sample Track " ++ "UPLOAD_" ++ rest) text.
Proof.
  intros Hoff Hid. unfold _validate_music. rewrite Hid. cbn [from_option id].
  change ("UPLOAD_" ++ rest) with (String "U" ("PLOAD_" ++ rest)) at 1.
  cbv iota.
  change (String "U" ("PLOAD_" ++ rest)) with ("UPLOAD_" ++ rest).
  cbn [validate_music_id mock_api]. unfold mock_validate_music_id.
  rewrite (induced_failure_off _ Hoff).
  rewrite startswith_app, orb_true_r.
  eexists. split; [reflexivity|].
  cbn [title]. do 4 apply contains_app_r. apply contains_app_l, contains_refl.
Qed.

End ManagerOverMock.

(** X14. Uploading through the manager makes the music id usable at
    once: over the simulated capability with failures switched off,
    [_upload_music] stores the new reference under ["music_id"], and
    [_validate_music], called next, finds it valid and answers with the
    track named after it; the two calls are recorded in this order. *)
Theorem X14_upload_then_validate_in_manager :
  forall (R : Type) (RS : MockTikTokAPI.RandomSource R)
         (m : ConversationManager.manager (MockTikTokAPI.state R))
         (file_path : string),
    MockTikTokAPI.simulate_failures (ConversationManager.api m) = false ->
    let m1 := snd (ConversationManager._upload_music file_path m) in
    let run := ConversationManager._validate_music m1 in
    exists id : string,
      Py.startswith "UPLOAD_" id = true /\
      ConversationManager.ad_config m1 !! "music_id" = Some (Py.PyStr id) /\
      ConversationManager.calls (snd run) =
        (ConversationManager.calls m ++
           [API.CallUploadMusic file_path "mock_access_token";
            API.CallValidateMusic id "mock_access_token"])%list /\
      exists text, fst run = inr text /\ Py.contains ("Sample Track " ++ id) text.
Proof.
  intros R RS m file_path Hoff. cbv zeta.
  unfold ConversationManager._upload_music.
  cbn [API.upload_music MockTikTokAPI.mock_api].
  unfold MockTikTokAPI.mock_upload_music.
  rewrite (induced_failure_off _ Hoff).
  destruct (MockTikTokAPI.randint 10000 99999 _) as [n g].
  cbn [snd API.up_music_id].
  match goal with
  | |- context [ConversationManager._validate_music ?x] => set (m1 := x)
  end.
  destruct (validate_uploaded m1 (Py.str_of_Z n)) as (text & Hv & Ht);
    [exact Hoff | apply lookup_insert_eq |].
  exists ("UPLOAD_" ++ Py.str_of_Z n).
  split; [apply startswith_app|].
  split; [apply lookup_insert_eq|].
  rewrite Hv. cbn [fst snd]. split.
  - subst m1. unfold ConversationManager.called, ConversationManager.set_config.
    cbn [ConversationManager.calls]. rewrite <- app_assoc. reflexivity.
  - exists text. split; [reflexivity | exact Ht].
Qed.

Lemma X14_upload_then_validate_in_manager_witness :
  exists id : string,
    ConversationManager.ad_config
      (snd (ConversationManager._upload_music "/path/to/custom.mp3"
              (Examples.manager_with ∅))) !! "music_id" = Some (Py.PyStr id).
Proof.
  destruct (X14_upload_then_validate_in_manager nat _ (Examples.manager_with ∅)
              "/path/to/custom.mp3" eq_refl) as (id & _ & Hid & _).
  exists id. exact Hid.
Defined.

(** X15. The retry offer follows the classifier: when the capability
    rejects a valid configuration with an error code, the answer of
    [_submit_ad] ends with the retry question if the code is classified
    as retryable, and for the four codes classified as not retryable it
    does not mention a retry at all. *)
Theorem X15_retry_offer_follows_classifier :
  forall (S : Type) (A : API.TikTokAPI S) (m : ConversationManager.manager S)
         (cfg : gmap string Py.pyval) (code msg : string) (a : S),
    AdConfig.AdConfig (ConversationManager.ad_config m) = inr cfg ->
    API.create_ad cfg "mock_access_token" (ConversationManager.api m)
      = (inr (API.Failure code msg), a) ->
    (ErrorInterpreter.retryable (ErrorInterpreter.interpret code) = true ->
     exists pre,
       fst (ConversationManager._submit_ad m) =
         pre ++ "Would you like me to retry the submission?") /\
    (code ∈ ["INSUFFICIENT_PERMISSIONS"; "MUSIC_NOT_FOUND"; "INVALID_MUSIC_ID";
             "GEO_RESTRICTED"] ->
     Py.str_in "retry" (fst (ConversationManager._submit_ad m)) = false).
Proof.
  intros S A m cfg code msg a Hcfg Hcall.
  unfold ConversationManager._submit_ad. rewrite Hcfg, Hcall. cbn [fst].
  split.
  - intros ->. eexists. rewrite <- !append_assoc. reflexivity.
  - intros Hin.
    repeat (apply elem_of_cons in Hin as [->|Hin]; [vm_compute; reflexivity|]).
    inversion Hin.
Qed.

Lemma X15_retry_offer_follows_classifier_witness :
  exists pre,
    fst (ConversationManager._submit_ad MoreExamples.rejected_manager) =
      pre ++ "Would you like me to retry the submission?".
Proof.
  destruct (X15_retry_offer_follows_classifier _ _ MoreExamples.rejected_manager
              (<["music_id" := Py.PyNone]> MoreExamples.traffic_config)
              "INVALID_TOKEN" "Access token has expired"
              (MockTikTokAPI.init true (1 # 10) tt)) as [H _].
  - vm_compute. reflexivity.
  - vm_compute. reflexivity.
  - apply H. reflexivity.
Defined.

(** ** The chat callback of app.py *)

Section ChatFnFacts.
Import API LLMClient ConversationManager.
Context {S : Type} `{TikTokAPI S}.
Variable llm : list chat_message -> gmap string pyval -> result response.

(** The history after [process_message], as an equation on the pair. *)
Lemma process_message_history (user_msg : string) (m : manager S) :
  messages (snd (process_message llm user_msg m)) =
    (messages m ++ [ChatMessage "user" user_msg;
                    ChatMessage "assistant" (fst (process_message llm user_msg m))])%list.
Proof.
  unfold process_message.
  pose proof (turn_messages llm user_msg (append_message m "user" user_msg)) as Ht.
  destruct (turn llm user_msg _) as [[e|agent_msg] m'];
    simpl in *; rewrite Ht; rewrite <- app_assoc; reflexivity.
Qed.

End ChatFnFacts.

(** X16. The chat callback drops blank input and trims the rest: a
    message that is empty or only whitespace leaves the displayed
    history and the manager untouched (the model is not called); any
    other message is shown as typed, while the manager receives and
    records it trimmed, followed by the answer shown. *)
Theorem X16_chat_fn_blank_and_trim :
  forall (S : Type) (A : API.TikTokAPI S)
         (llm : list LLMClient.chat_message -> gmap string Py.pyval ->
                Py.result LLMClient.response)
         (message : string) (history : list (string * string))
         (m : ConversationManager.manager S),
    (Py.strip message = "" -> App.chat_fn llm message history m = (history, m)) /\
    (Py.strip message <> "" ->
     exists answer,
       fst (App.chat_fn llm message history m) = (history ++ [(message, answer)])%list /\
       ConversationManager.messages (snd (App.chat_fn llm message history m)) =
         (ConversationManager.messages m ++
            [LLMClient.ChatMessage "user" (Py.strip message);
             LLMClient.ChatMessage "assistant" answer])%list).
Proof.
  intros S A llm message history m. unfold App.chat_fn. split.
  - intros ->. cbn [Py.truthy negb]. rewrite orb_true_r. reflexivity.
  - intros Hne. rewrite (strip_nonblank_truthy message Hne).
    destruct (Py.strip message) as [|c s] eqn:E; [congruence|].
    cbn [Py.truthy negb orb].
    pose proof (process_message_history llm (String c s) m) as Hh.
    destruct (ConversationManager.process_message llm (String c s) m)
      as [answer m'].
    exists answer. split; [reflexivity | exact Hh].
Qed.

Lemma X16_chat_fn_blank_and_trim_witness :
  App.chat_fn (fun _ _ => inr (LLMClient.Response (Some "Hello!") None None None None))
    "   " [] (Examples.manager_with ∅) = ([], Examples.manager_with ∅) /\
  exists answer,
    fst (App.chat_fn
           (fun _ _ => inr (LLMClient.Response (Some "Hello!") None None None None))
           "  hi " [] (Examples.manager_with ∅)) = [("  hi ", answer)].
Proof.
  split.
  - apply X16_chat_fn_blank_and_trim. reflexivity.
  - destruct (X16_chat_fn_blank_and_trim _ _
                (fun _ _ => inr (LLMClient.Response (Some "Hello!") None None None None))
                "  hi " [] (Examples.manager_with ∅)) as [_ H].
    destruct H as (answer & Ha & _); [vm_compute; discriminate|].
    exists answer. exact Ha.
Defined.

(** ** More on AdAgent *)

Section AgentFacts.
Import Json AdAgent Schemas.
Variable generate : nat -> string -> string + json.
Variable schema_error : json -> string.

Lemma answer_fields (thought message_to_user action : string) :
  get "message_to_user" (answer thought message_to_user action)
    = Some (JStr message_to_user) /\
  get "action" (answer thought message_to_user action) = Some (JStr action).
Proof. split; reflexivity. Qed.

(** What the schema guarantees about an output. *)
Lemma schema_fields (data : json) :
  AGENT_OUTPUT_SCHEMA data = true ->
  exists (o state : gmap string json) (msg act : string),
    data = JObj o /\
    o !! "message_to_user" = Some (JStr msg) /\
    o !! "action" = Some (JStr act) /\
    act ∈ ["NONE"; "VALIDATE_MUSIC"; "SUBMIT_AD"; "UPLOAD_MUSIC"] /\
    o !! "updated_ad_state" = Some (JObj state) /\
    (forall v, state !! "campaign_name" = Some v -> is_string v = true) /\
    (forall v, state !! "objective" = Some v -> is_string v = true) /\
    (forall v, state !! "creative_details" = Some v -> is_object v = true).
Proof.
  destruct data as [| | | | |o]; try discriminate.
  unfold AGENT_OUTPUT_SCHEMA, required, property.
  rewrite !andb_true_iff, !bool_decide_eq_true.
  intros ((((((((_ & [m Hm]) & [a Ha]) & [s Hs]) & _) & Hms) & Has) & _) & Hss).
  rewrite Hm in Hms. rewrite Ha in Has. rewrite Hs in Hss.
  destruct m as [| | |msg| |]; try discriminate.
  destruct a as [| | |act| |]; try discriminate.
  destruct s as [| | | | |state]; try discriminate.
  exists o, state, msg, act.
  unfold action_ok in Has. apply bool_decide_eq_true in Has.
  unfold updated_ad_state_ok, property in Hss.
  rewrite !andb_true_iff in Hss. destruct Hss as ((Hc & Ho) & Hd).
  repeat (split; [first [reflexivity | assumption]|]).
  repeat split; intros v Hv; [rewrite Hv in Hc | rewrite Hv in Ho | rewrite Hv in Hd];
    assumption.
Qed.

(** One pass through the [try] block. *)
Lemma try_block_cases (authenticated : bool) (user_input : string)
    (system_context : option string) (a : agent) :
  let run := try_block generate schema_error authenticated user_input
               system_context a in
  history (snd run) = history a /\ collected_data (snd run) = collected_data a /\
  (exists e, fst run = SchemaInvalid e \/ fst run = Raised e)
  \/
  exists data state,
    fst run = Returned data /\ AGENT_OUTPUT_SCHEMA data = true /\
    get "updated_ad_state" data = Some (JObj state) /\
    history (snd run) = (history a ++ [(user_input, data)])%list /\
    collected_data (snd run) = merge state (collected_data a).
Proof.
  cbv zeta. unfold try_block.
  destruct (generate _ _) as [e|data]; [left; cbn; eauto|].
  destruct (AGENT_OUTPUT_SCHEMA data) eqn:Hs; [|left; cbn; eauto].
  right. destruct (schema_fields data Hs)
    as (o & state & msg & act & -> & _ & _ & _ & Hst & _).
  exists (JObj o), state. cbn [fst snd history collected_data get].
  rewrite Hst. cbn [from_option id]. auto.
Qed.

End AgentFacts.

(** X17. What a turn of [AdAgent] does to the agent. Either the turn
    fails, the answer is a fixed "System Error" answer with action
    NONE, and neither the history nor the accumulated state changes;
    or the answer is an output of the model that passes the schema,
    the history grows by exactly that exchange and the accumulated
    state is the old one merged with the answer's state delta. This
    holds as well when the first output was rejected and the second
    one is taken. *)
Theorem X17_agent_turn_outcomes :
  forall (generate : nat -> string -> string + Json.json)
         (schema_error : Json.json -> string)
         (authenticated : bool) (user_input : string)
         (system_context : option string) (a : AdAgent.agent),
    let run := AdAgent.process_message generate schema_error authenticated
                 user_input system_context a in
    (AdAgent.history (snd run) = AdAgent.history a /\
     AdAgent.collected_data (snd run) = AdAgent.collected_data a /\
     exists e, fst run = AdAgent.answer "Fail" ("System Error: " ++ e) "NONE")
    \/
    (Schemas.AGENT_OUTPUT_SCHEMA (fst run) = true /\
     exists state,
       Json.get "updated_ad_state" (fst run) = Some (Json.JObj state) /\
       AdAgent.history (snd run) =
         (AdAgent.history a ++ [(user_input, fst run)])%list /\
       AdAgent.collected_data (snd run) =
         AdAgent.merge state (AdAgent.collected_data a)).
Proof.
  intros generate schema_error authenticated user_input system_context a run.
  subst run. unfold AdAgent.process_message.
  pose proof (try_block_cases generate schema_error authenticated user_input
                system_context a) as H1. cbv zeta in H1.
  destruct (AdAgent.try_block generate schema_error authenticated user_input
              system_context a) as [p a1].
  cbn [fst snd] in H1.
  destruct H1 as [(Hh & Hc & e & [->| ->])|(data & state & -> & Hs & Hg & Hh & Hc)].
  - (* the first output fails the schema: second pass *)
    unfold AdAgent.process_message_retry.
    pose proof (try_block_cases generate schema_error authenticated user_input
                  (Some ("JSON Schema Error: " ++ e ++ ". Retry with valid JSON."))
                  a1) as H2. cbv zeta in H2.
    destruct (AdAgent.try_block generate schema_error authenticated user_input _ a1)
      as [p2 a2].
    cbn [fst snd] in H2.
    destruct H2 as [(Hh2 & Hc2 & e2 & [->| ->])
                   |(data & state & -> & Hs & Hg & Hh2 & Hc2)]; cbn [fst snd].
    + left. rewrite Hh2, Hc2, Hh, Hc. repeat split.
      exists "Output Validation Failed.". reflexivity.
    + left. rewrite Hh2, Hc2, Hh, Hc. repeat split. exists e2. reflexivity.
    + right. split; [exact Hs|]. exists state.
      rewrite Hh2, Hc2, Hh, Hc. auto.
  - left. cbn [fst snd]. repeat split; [exact Hh | exact Hc |].
    exists e. reflexivity.
  - right. cbn [fst snd]. split; [exact Hs|]. exists state. auto.
Qed.

(** X18. Every answer of [AdAgent.process_message] can be read the way
    [chat_interface] reads it: it has a string under
    ["message_to_user"] and a string under ["action"], and the action
    is one of the four the interface knows, whatever the model
    returned. *)
Theorem X18_agent_answer_is_well_formed :
  forall (generate : nat -> string -> string + Json.json)
         (schema_error : Json.json -> string)
         (authenticated : bool) (user_input : string)
         (system_context : option string) (a : AdAgent.agent),
    let run := AdAgent.process_message generate schema_error authenticated
                 user_input system_context a in
    exists msg act,
      Json.get "message_to_user" (fst run) = Some (Json.JStr msg) /\
      Json.get "action" (fst run) = Some (Json.JStr act) /\
      act ∈ ["NONE"; "VALIDATE_MUSIC"; "SUBMIT_AD"; "UPLOAD_MUSIC"].
Proof.
  intros generate schema_error authenticated user_input system_context a run.
  assert (Hfail : forall t m, exists msg act,
             Json.get "message_to_user" (AdAgent.answer t m "NONE")
               = Some (Json.JStr msg) /\
             Json.get "action" (AdAgent.answer t m "NONE") = Some (Json.JStr act) /\
             act ∈ ["NONE"; "VALIDATE_MUSIC"; "SUBMIT_AD"; "UPLOAD_MUSIC"]).
  { intros t m. exists m, "NONE". destruct (answer_fields t m "NONE") as [-> ->].
    repeat split. apply elem_of_cons. left. reflexivity. }
  assert (Hok : forall data, Schemas.AGENT_OUTPUT_SCHEMA data = true ->
             exists msg act,
               Json.get "message_to_user" data = Some (Json.JStr msg) /\
               Json.get "action" data = Some (Json.JStr act) /\
               act ∈ ["NONE"; "VALIDATE_MUSIC"; "SUBMIT_AD"; "UPLOAD_MUSIC"]).
  { intros data Hs.
    destruct (schema_fields data Hs)
      as (o & state & msg & act & -> & Hm & Ha & Hin & _).
    exists msg, act. cbn [Json.get]. auto. }
  subst run. unfold AdAgent.process_message, AdAgent.process_message_retry,
    AdAgent.try_block.
  destruct (generate _ _) as [e|data]; cbn [fst snd]; [apply Hfail|].
  destruct (Schemas.AGENT_OUTPUT_SCHEMA data) eqn:Hs; cbn [fst snd];
    [apply Hok, Hs|].
  cbn [AdAgent.prompts AdAgent.history AdAgent.collected_data].
  destruct (generate _ _) as [e2|data2]; cbn [fst snd]; [apply Hfail|].
  destruct (Schemas.AGENT_OUTPUT_SCHEMA data2) eqn:Hs2; cbn [fst snd];
    [apply Hok, Hs2 | apply Hfail].
Qed.

(** X19. The accumulated state of [AdAgent] stays readable by
    [chat_interface]: if ["campaign_name"] and ["objective"], when
    present, are strings and ["creative_details"], when present, is a
    dictionary, the same holds after any turn, because the schema
    admits nothing else under these keys. *)
Theorem X19_agent_state_stays_typed :
  forall (generate : nat -> string -> string + Json.json)
         (schema_error : Json.json -> string)
         (authenticated : bool) (user_input : string)
         (system_context : option string) (a : AdAgent.agent),
    let typed (cd : gmap string Json.json) :=
      (forall v, cd !! "campaign_name" = Some v -> Json.is_string v = true) /\
      (forall v, cd !! "objective" = Some v -> Json.is_string v = true) /\
      (forall v, cd !! "creative_details" = Some v -> Json.is_object v = true) in
    typed (AdAgent.collected_data a) ->
    typed (AdAgent.collected_data
             (snd (AdAgent.process_message generate schema_error authenticated
                     user_input system_context a))).
Proof.
  intros generate schema_error authenticated user_input system_context a typed Ht.
  assert (Hmerge : forall data cd, Schemas.AGENT_OUTPUT_SCHEMA data = true ->
            typed cd ->
            typed (AdAgent.merge
                     match default (Json.JObj ∅) (Json.get "updated_ad_state" data) with
                     | Json.JObj o => o
                     | _ => ∅
                     end cd)).
  { intros data cd Hs (Hc & Ho & Hd).
    destruct (schema_fields data Hs)
      as (o & state & msg & act & -> & _ & _ & _ & Hst & Hsc & Hso & Hsd).
    cbn [Json.get]. rewrite Hst. cbn [from_option id].
    repeat split; intros v; rewrite agent_merge_lookup;
      match goal with
      | |- context [state !! ?k] => destruct (state !! k) as [w|] eqn:E
      end; intros Hv;
      first [ injection Hv as <-; eauto | eauto ]. }
  unfold AdAgent.process_message, AdAgent.process_message_retry,
    AdAgent.try_block.
  destruct (generate _ _) as [e|data]; cbn [fst snd AdAgent.collected_data];
    [exact Ht|].
  destruct (Schemas.AGENT_OUTPUT_SCHEMA data) eqn:Hs;
    cbn [fst snd AdAgent.collected_data]; [apply Hmerge; assumption|].
  cbn [AdAgent.prompts AdAgent.history AdAgent.collected_data].
  destruct (generate _ _) as [e2|data2]; cbn [fst snd AdAgent.collected_data];
    [exact Ht|].
  destruct (Schemas.AGENT_OUTPUT_SCHEMA data2) eqn:Hs2;
    cbn [fst snd AdAgent.collected_data]; [apply Hmerge; assumption | exact Ht].
Qed.

Lemma X19_agent_state_stays_typed_witness :
  match
    AdAgent.collected_data
      (snd (AdAgent.process_message (fun _ _ => inr MoreExamples.output_with_details)
              (fun _ => "invalid") true "use track 123" None MoreExamples.typed_agent))
      !! "creative_details"
  with
  | Some v => Json.is_object v = true
  | None => False
  end /\
  match
    AdAgent.collected_data
      (snd (AdAgent.process_message (fun _ _ => inr MoreExamples.output_with_details)
              (fun _ => "invalid") true "use track 123" None MoreExamples.typed_agent))
      !! "campaign_name"
  with
  | Some v => Json.is_string v = true
  | None => False
  end.
Proof.
  destruct (X19_agent_state_stays_typed
              (fun _ _ => inr MoreExamples.output_with_details)
              (fun _ => "invalid") true "use track 123" None MoreExamples.typed_agent)
    as (Hn & _ & Hd).
  { repeat split; intros v Hv; vm_compute in Hv; injection Hv as <-; reflexivity. }
  split.
  - destruct (AdAgent.collected_data _ !! "creative_details") as [v|] eqn:E;
      [exact (Hd v eq_refl) | vm_compute in E; discriminate E].
  - destruct (AdAgent.collected_data _ !! "campaign_name") as [v|] eqn:E;
      [exact (Hn v eq_refl) | vm_compute in E; discriminate E].
Defined.

(** ** The branches of [chat_interface] (src/ui.py) *)

Section InterfaceFacts.
Import Py Json Reply ChatInterface.

Lemma lookup_creative_details (state o : gmap string json) (mid : string) :
  music_id_of (<["creative_details" := JObj (<["music_id" := JStr mid]> o)]> state)
    = inr (Some (JStr mid)).
Proof.
  unfold music_id_of. rewrite lookup_insert_eq. f_equal.
  apply lookup_insert_eq.
Qed.

Context {S : Type}.
Variable validate_music_id : json -> S -> reply * S.

(** The music check makes at most the one call, and passes on the
    errors it was given exactly when it does not add one. *)
Lemma music_check_cases (mid : option json) (errors : list string) (a : S) :
  let passes :=
    match mid with
    | Some j =>
        if truthy_json mid then negb (is_error (fst (validate_music_id j a)))
        else true
    | None => true
    end in
  let run := music_check validate_music_id mid errors a in
  (snd run = [] \/ exists j, mid = Some j /\ snd run = [ValidateMusic j]) /\
  (passes = true -> fst (fst run) = inr errors) /\
  (passes = false ->
   fst (fst run) = inl (KeyError "message") \/
   exists e, fst (fst run) = inr (errors ++ [e])%list).
Proof.
  cbv zeta. unfold music_check.
  destruct mid as [j|]; [|repeat split; [left; reflexivity | discriminate]].
  destruct (truthy_json (Some j));
    [|repeat split; [left; reflexivity | discriminate]].
  destruct (validate_music_id j a) as [mr a']. cbn [fst snd].
  split; [right; exists j; split; reflexivity|].
  destruct (is_error mr); cbn [negb]; split; try discriminate; try reflexivity.
  intros _. destruct (message mr) as [v|]; [right; eexists; reflexivity|].
  left. reflexivity.
Qed.

End InterfaceFacts.

(** X20. The submit gate of [chat_interface]. A stored
    ["creative_details"] that is no dictionary makes the SUBMIT_AD
    branch end in [AttributeError] before any capability call. In
    every other state the capability's [submit_ad] is called exactly
    when all of these hold: the stored campaign name and objective are
    truthy; a Conversions objective comes with a truthy music id; and a
    truthy music id has passed the capability's [validate_music_id] in
    this very branch. When it is called it is the last call, it is
    called once, with the payload built from the stored state, and at
    most the one music check precedes it. *)
Theorem X20_interface_submit_gate :
  forall (S : Type)
         (validate_music_id : Json.json -> S -> Reply.reply * S)
         (submit_ad : Json.json -> S -> Reply.reply * S)
         (agent_says : string -> string)
         (msg : string) (state : gmap string Json.json) (a : S),
    let gate :=
      match ChatInterface.music_id_of state with
      | inl _ => false
      | inr mid =>
          ChatInterface.truthy_json (state !! "campaign_name")
          && ChatInterface.truthy_json (state !! "objective")
          && (negb (ChatInterface.is_str (state !! "objective") "Conversions")
              || ChatInterface.truthy_json mid)
          && match mid with
             | Some j =>
                 if ChatInterface.truthy_json mid
                 then negb (Reply.is_error (fst (validate_music_id j a)))
                 else true
             | None => true
             end
      end in
    let payload :=
      Json.JObj
        (<["campaign" :=
             Json.JObj
               (<["name" := default Json.JNull (state !! "campaign_name")]>
               (<["objective" := default Json.JNull (state !! "objective")]> ∅))]>
        (<["creative" := default (Json.JObj ∅) (state !! "creative_details")]> ∅)) in
    let run :=
      ChatInterface.submit_branch validate_music_id submit_ad agent_says
        msg state a in
    (forall e, ChatInterface.music_id_of state = inl e ->
               run = (ChatInterface.Raises e, a, [])) /\
    (gate = true ->
     snd run = [ChatInterface.SubmitAd payload] \/
     exists j,
       ChatInterface.music_id_of state = inr (Some j) /\
       snd run = [ChatInterface.ValidateMusic j; ChatInterface.SubmitAd payload]) /\
    (gate = false ->
     snd run = [] \/
     exists j,
       ChatInterface.music_id_of state = inr (Some j) /\
       snd run = [ChatInterface.ValidateMusic j]).
Proof.
  intros S validate_music_id submit_ad agent_says msg state a gate payload run.
  subst run gate payload. unfold ChatInterface.submit_branch.
  destruct (ChatInterface.music_id_of state) as [e|mid].
  { split; [intros e' [= <-]; reflexivity|].
    split; [discriminate | intros _; left; reflexivity]. }
  split; [discriminate|].
  set (errors := if ChatInterface.is_str (state !! "objective") "Conversions"
                    && negb (ChatInterface.truthy_json mid)
                 then ["Conversions require Music."] else []).
  pose proof (music_check_cases validate_music_id mid errors a) as Hc.
  cbv zeta in Hc.
  set (passes := match mid with
                 | Some j =>
                     if ChatInterface.truthy_json mid
                     then negb (Reply.is_error (fst (validate_music_id j a)))
                     else true
                 | None => true
                 end) in *.
  destruct (ChatInterface.music_check validate_music_id mid errors a)
    as [[res a1] calls] eqn:Hrun.
  cbn [fst snd] in Hc. destruct Hc as (Hcalls & Hpass & Hfail).
  assert (Hkeep : calls = [] \/
                  exists j, @inr ChatInterface.error _ mid = inr (Some j) /\
                            calls = [ChatInterface.ValidateMusic j]).
  { destruct Hcalls as [->|(j & -> & ->)]; [left; reflexivity|].
    right. exists j. split; reflexivity. }
  assert (Hblocked : forall o : ChatInterface.outcome,
             snd (o, a1, calls) = [] \/
             exists j, @inr ChatInterface.error _ mid = inr (Some j) /\
                       snd (o, a1, calls) = [ChatInterface.ValidateMusic j])
    by (intros o; exact Hkeep).
  destruct passes eqn:Hp.
  - (* the music check passes *)
    rewrite (Hpass eq_refl). clear Hrun.
    rewrite andb_true_r.
    subst errors.
    destruct (ChatInterface.is_str (state !! "objective") "Conversions"
              && negb (ChatInterface.truthy_json mid)) eqn:Hconv.
    + (* Conversions without music *)
      apply andb_true_iff in Hconv as [Ho Hm]. apply negb_true_iff in Hm.
      rewrite Ho, Hm. cbn [negb orb]. rewrite andb_false_r.
      split; [discriminate | intros _; apply Hblocked].
    + assert (Hor : negb (ChatInterface.is_str (state !! "objective") "Conversions")
                    || ChatInterface.truthy_json mid = true).
      { destruct (ChatInterface.is_str (state !! "objective") "Conversions");
          destruct (ChatInterface.truthy_json mid); try reflexivity; discriminate. }
      rewrite Hor, andb_true_r.
      destruct (ChatInterface.truthy_json (state !! "campaign_name"));
        destruct (ChatInterface.truthy_json (state !! "objective"));
        cbn [negb orb andb];
        try (split; [discriminate | intros _; apply Hblocked]).
      destruct (submit_ad _ a1) as [r a2].
      split; [|discriminate]. intros _.
      assert (Hsnd : forall o : ChatInterface.outcome,
                 snd (o, a2, (calls ++ [ChatInterface.SubmitAd
                   (Json.JObj
                      (<["campaign" :=
                           Json.JObj
                             (<["name" := default Json.JNull (state !! "campaign_name")]>
                             (<["objective" := default Json.JNull (state !! "objective")]> ∅))]>
                      (<["creative" := default (Json.JObj ∅) (state !! "creative_details")]> ∅)))])%list)
                 = (calls ++ [ChatInterface.SubmitAd
                   (Json.JObj
                      (<["campaign" :=
                           Json.JObj
                             (<["name" := default Json.JNull (state !! "campaign_name")]>
                             (<["objective" := default Json.JNull (state !! "objective")]> ∅))]>
                      (<["creative" := default (Json.JObj ∅) (state !! "creative_details")]> ∅)))])%list)
        by reflexivity.
      destruct (Reply.is_error r); [destruct (ChatInterface.advice r)|];
        rewrite Hsnd;
        (destruct Hkeep as [->|(j & Hj & ->)];
         [left; reflexivity | right; exists j; split; [exact Hj | reflexivity]]).
  - (* the music check fails *)
    rewrite andb_false_r. split; [discriminate|]. intros _.
    destruct (Hfail eq_refl) as [->|(e & ->)].
    + apply Hblocked.
    + destruct errors; apply Hblocked.
Qed.

Lemma X20_interface_submit_gate_witness :
  ChatInterface.submit_branch
    (fun _ st => SimpleMock.validate_music_id "123" st)
    (fun _ st => SimpleMock.submit_ad st)
    (fun text => text) "Submitting." MoreExamples.broken_state SimpleMock.init
    = (ChatInterface.Raises ChatInterface.AttributeError, SimpleMock.init, []) /\
  exists payload,
    snd (ChatInterface.submit_branch
           (fun _ st => SimpleMock.validate_music_id "123" st)
           (fun _ st => SimpleMock.submit_ad st)
           (fun text => text) "Submitting." MoreExamples.ready_state SimpleMock.init)
      = [ChatInterface.ValidateMusic (Json.JStr "123"); ChatInterface.SubmitAd payload].
Proof.
  split.
  - apply (X20_interface_submit_gate SimpleMock.state
             (fun _ st => SimpleMock.validate_music_id "123" st)
             (fun _ st => SimpleMock.submit_ad st)
             (fun text => text) "Submitting." MoreExamples.broken_state
             SimpleMock.init).
    reflexivity.
  - destruct (X20_interface_submit_gate SimpleMock.state
             (fun _ st => SimpleMock.validate_music_id "123" st)
             (fun _ st => SimpleMock.submit_ad st)
             (fun text => text) "Submitting." MoreExamples.ready_state
             SimpleMock.init) as (_ & H & _).
    destruct H as [H|(j & Hj & H)]; [vm_compute; reflexivity | | ].
    + vm_compute in H. discriminate H.
    + eexists. rewrite H. vm_compute in Hj. injection Hj as <-. reflexivity.
Defined.

(** X21. The UPLOAD_MUSIC branch of [chat_interface]. A failed upload
    changes neither the message nor the agent's state. A successful
    one stores the new id under ["creative_details"]["music_id"],
    which is where the SUBMIT_AD branch reads the music id, keeps every
    other key of the state and every other key of the creative details,
    and names the id in the message. The branch raises exactly when the
    upload succeeded and the reply has no music id or the stored
    creative details are no dictionary. *)
Theorem X21_interface_upload_branch :
  forall (S : Type) (upload_music : string -> S -> Reply.reply * S)
         (msg : string) (state : gmap string Json.json) (a : S),
    let r := fst (upload_music "test.mp3" a) in
    let run := ChatUpload.upload_branch upload_music msg state a in
    (Reply.status r <> "success" ->
     run = Some (msg, state, snd (upload_music "test.mp3" a))) /\
    (Reply.status r = "success" ->
     (forall mid details,
        Reply.music_id r = Some mid ->
        default (Json.JObj ∅) (state !! "creative_details") = Json.JObj details ->
        exists state',
          run = Some (msg ++ Py.nl ++ "(System: Uploaded ID " ++ mid ++ ")", state',
                      snd (upload_music "test.mp3" a)) /\
          ChatInterface.music_id_of state' = inr (Some (Json.JStr mid)) /\
          (forall k, k <> "creative_details" -> state' !! k = state !! k) /\
          (forall k, k <> "music_id" ->
             Json.get k (default (Json.JObj ∅) (state' !! "creative_details"))
               = details !! k)) /\
     (run = None <->
      Reply.music_id r = None \/
      Json.is_object (default (Json.JObj ∅) (state !! "creative_details")) = false)).
Proof.
  intros S upload_music msg state a r run. subst r run.
  unfold ChatUpload.upload_branch.
  destruct (upload_music "test.mp3" a) as [r a']. cbn [fst snd].
  split.
  - intros Hne. apply String.eqb_neq in Hne. rewrite Hne. reflexivity.
  - intros Heq. apply String.eqb_eq in Heq. rewrite Heq. split.
    + intros mid details -> ->. eexists. split; [reflexivity|].
      split; [apply lookup_creative_details|]. split.
      * intros k Hk. apply lookup_insert_ne. congruence.
      * intros k Hk. rewrite lookup_insert_eq. cbn [from_option id Json.get].
        apply lookup_insert_ne. congruence.
    + destruct (Reply.music_id r) as [mid|].
      * destruct (default (Json.JObj ∅) (state !! "creative_details"));
          cbn [Json.is_object]; split; intros H;
          first [ discriminate | reflexivity
                | right; reflexivity
                | destruct H as [H|H]; discriminate ].
      * split; [left; reflexivity | reflexivity].
Qed.

Lemma X21_interface_upload_branch_witness :
  exists state',
    ChatUpload.upload_branch (SimpleMock.upload_music "0a1b2c3d") "Uploading."
      Examples.short_name_state SimpleMock.init
      = Some ("Uploading." ++ Py.nl ++ "(System: Uploaded ID mock_up_0a1b2c3d)",
              state', SimpleMock.init) /\
    ChatInterface.music_id_of state' = inr (Some (Json.JStr "mock_up_0a1b2c3d")).
Proof.
  destruct (X21_interface_upload_branch SimpleMock.state
              (SimpleMock.upload_music "0a1b2c3d") "Uploading."
              Examples.short_name_state SimpleMock.init) as [_ H].
  destruct H as [H _]; [reflexivity|].
  destruct (H "mock_up_0a1b2c3d" ∅ eq_refl eq_refl) as (state' & Hr & Hm & _).
  exists state'. split; [exact Hr | exact Hm].
Defined.

(** X22. Uploading through the two capabilities of src/. Over the
    simulated capability the UPLOAD_MUSIC branch always succeeds when
    the stored creative details are absent or a dictionary, and the id
    it stores is one the simulated [validate_music_id] accepts, so the
    music check of a later SUBMIT_AD cannot fail on it. Over the live
    capability the branch never changes the message, the state or the
    capability: there the upload is not implemented. *)
Theorem X22_upload_by_capability :
  forall (msg : string) (state : gmap string Json.json),
    (forall (token_hex : string) (st : SimpleMock.state) (details : gmap string Json.json),
       default (Json.JObj ∅) (state !! "creative_details") = Json.JObj details ->
       exists mid state' shown,
         ChatUpload.upload_branch (SimpleMock.upload_music token_hex) msg state st
           = Some (shown, state', st) /\
         ChatInterface.music_id_of state' = inr (Some (Json.JStr mid)) /\
         ChatInterface.truthy_json (Some (Json.JStr mid)) = true /\
         SimpleMock.validate_music_id mid st = (Reply.success, st)) /\
    (forall (st : RealTikTokAPI.state),
       ChatUpload.upload_branch RealAuth.upload_music msg state st
         = Some (msg, state, st)).
Proof.
  intros msg state. split.
  - intros token_hex st details Hd.
    exists ("mock_up_" ++ token_hex). eexists. eexists.
    unfold ChatUpload.upload_branch, SimpleMock.upload_music.
    cbn [Reply.status Reply.music_id String.eqb Ascii.eqb Bool.eqb].
    change ("success" =? "success")%string with true. cbv iota.
    rewrite Hd. split; [reflexivity|].
    rewrite lookup_creative_details. split; [reflexivity|].
    split; [reflexivity|].
    unfold SimpleMock.validate_music_id.
    change ("mock_up_" ++ token_hex) with ("mock_up" ++ String "_" token_hex).
    rewrite startswith_app. reflexivity.
  - intros st. reflexivity.
Qed.

Lemma X22_upload_by_capability_witness :
  exists mid,
    SimpleMock.validate_music_id mid SimpleMock.init = (Reply.success, SimpleMock.init) /\
    exists state' shown,
      ChatUpload.upload_branch (SimpleMock.upload_music "0a1b2c3d") "Uploading."
        Examples.short_name_state SimpleMock.init = Some (shown, state', SimpleMock.init).
Proof.
  destruct (X22_upload_by_capability "Uploading." Examples.short_name_state) as [H _].
  destruct (H "0a1b2c3d" SimpleMock.init ∅ eq_refl)
    as (mid & state' & shown & Hr & _ & _ & Hv).
  exists mid. split; [exact Hv|]. exists state', shown. exact Hr.
Defined.

(** ** More on the live capability (src/api_real.py) *)

Section LiveFacts.
Import Reply RealTikTokAPI.
Variable clock : nat -> Q.
Variable refresh_http : nat -> refresh_response.
Variable create_http : nat -> create_response.



Lemma is_error_status (r : reply) :
  is_error r = true -> status r <> "success".
Proof.
  unfold is_error. intros H%String.eqb_eq. rewrite H. discriminate.
Qed.

(** Without a refresh token, [refresh_access_token] fails and only
    leaves its entry in the trace. *)
Lemma refresh_without_token (s : site) (st : state) :
  is_truthy (refresh_token st) = false ->
  refresh_access_token clock refresh_http s st
    = (false, record (RefreshAttempt s false) st).
Proof. intros H. unfold refresh_access_token. rewrite H. reflexivity. Qed.


End LiveFacts.



(** X24. [submit_ad] of the live capability without any credential:
    with no access token and no refresh token it answers "Session
    expired", sends neither an ad-creation nor a refresh request, reads
    no clock, keeps the credential fields, and has gone through
    [refresh_access_token] twice, once inside [ensure_token] and once
    in the forced attempt after it. *)
Theorem X24_submit_ad_without_credential :
  forall (clock : nat -> Q)
         (refresh_http : nat -> RealTikTokAPI.refresh_response)
         (create_http : nat -> RealTikTokAPI.create_response)
         (st : RealTikTokAPI.state),
    RealTikTokAPI.is_truthy (RealTikTokAPI.access_token st) = false ->
    RealTikTokAPI.is_truthy (RealTikTokAPI.refresh_token st) = false ->
    RealTikTokAPI.submit_ad clock refresh_http create_http st =
      (RealTikTokAPI.session_expired,
       RealTikTokAPI.State
         (RealTikTokAPI.access_token st) (RealTikTokAPI.refresh_token st)
         (RealTikTokAPI.expires_at st) (RealTikTokAPI.clock_reads st)
         (RealTikTokAPI.refresh_requests st) (RealTikTokAPI.create_requests st)
         (RealTikTokAPI.trace st ++
            [RealTikTokAPI.RefreshAttempt RealTikTokAPI.InEnsureToken false;
             RealTikTokAPI.RefreshAttempt RealTikTokAPI.AfterFailedEnsure false])%list).
Proof.
  intros clock refresh_http create_http st Ha Hr.
  unfold RealTikTokAPI.submit_ad. cbn [seq RealTikTokAPI.submit_loop].
  unfold RealTikTokAPI.ensure_token. rewrite Ha. cbv beta iota zeta.
  rewrite (refresh_without_token clock refresh_http _ st Hr). cbv beta iota zeta.
  change (Reply.is_error RealTikTokAPI.session_expired) with true.
  cbv beta iota zeta. cbn [Nat.eqb].
  rewrite (refresh_without_token clock refresh_http RealTikTokAPI.AfterFailedEnsure
             (RealTikTokAPI.record
                (RealTikTokAPI.RefreshAttempt RealTikTokAPI.InEnsureToken false) st)
             Hr).
  cbv beta iota zeta.
  unfold RealTikTokAPI.record.
  cbn [RealTikTokAPI.access_token RealTikTokAPI.refresh_token
       RealTikTokAPI.expires_at RealTikTokAPI.clock_reads
       RealTikTokAPI.refresh_requests RealTikTokAPI.create_requests
       RealTikTokAPI.trace].
  rewrite <- app_assoc. reflexivity.
Qed.

Lemma X24_submit_ad_without_credential_witness :
  fst (RealTikTokAPI.submit_ad Examples.clock_1000 Examples.refresh_works
         Examples.rejected_once Examples.no_credential)
    = RealTikTokAPI.session_expired.
Proof.
  rewrite (X24_submit_ad_without_credential Examples.clock_1000
             Examples.refresh_works Examples.rejected_once Examples.no_credential
             eq_refl eq_refl).
  reflexivity.
Defined.



(** ** Connecting: the token exchange, the anti-forgery state and the
       callback endpoint *)

Section ConnectFacts.
Import Reply RealTikTokAPI RealAuth.


End ConnectFacts.





(** X28. The callback endpoint (src/server.py). With the live
    capability, a request without a code, or with a state that
    [verify_state] does not accept, ends in an error page and leaves the
    state file and the credential as they were, whatever the token
    endpoint would have answered; the "Connected" page is returned only
    for a non-empty code whose state was accepted and whose exchange
    succeeded. With the simulated capability, where the state is not
    checked, every non-empty code connects, and [ensure_token] succeeds
    afterwards. *)
Theorem X28_callback :
  forall (clock : nat -> Q) (token_http : string -> RealAuth.token_response)
         (repr_scopes : list string -> string)
         (code state : option string)
         (f : RealAuth.state_file) (st : RealTikTokAPI.state),
    let connected :=
      "<h1>Connected! You can close this tab and return to the Agent.</h1>" in
    let run := Server.live_callback clock token_http repr_scopes code state (f, st) in
    (Py.truthy (default "" code) = false \/ RealAuth.verify_state state f = false ->
     snd run = (f, st) /\ fst run <> connected) /\
    (fst run = connected ->
     exists c,
       code = Some c /\ c <> "" /\ RealAuth.verify_state state f = true /\
       Reply.status
         (fst (RealAuth.get_access_token clock token_http repr_scopes c st))
         = "success") /\
    (forall (verify : option string -> SimpleMock.state -> bool)
            (c : string) (m : SimpleMock.state),
       c <> "" ->
       exists m',
         Server.callback false verify SimpleMockAuth.get_access_token
           (Some c) state m = (connected, m') /\
         SimpleMock.ensure_token m' = (Reply.success, m')).
Proof.
  intros clock token_http repr_scopes code state f st connected run.
  subst run connected.
  unfold Server.live_callback, Server.callback. split; [|split].
  - intros H. destruct code as [[|c cs]|]; cbn [fst snd];
      try (split; [reflexivity | discriminate]).
    destruct H as [H|H]; [discriminate|].
    rewrite H. cbn [negb andb fst snd]. split; [reflexivity | discriminate].
  - destruct code as [[|c cs]|]; cbn [fst snd]; try discriminate.
    destruct (RealAuth.verify_state state f) eqn:Hv; cbn [negb andb fst snd];
      [|discriminate].
    destruct (RealAuth.get_access_token clock token_http repr_scopes
                (String c cs) st) as [res st'] eqn:Hg.
    cbn [fst snd].
    destruct (String.eqb (Reply.status res) "success") eqn:Hs; cbn [fst].
    + intros _. exists (String c cs). apply String.eqb_eq in Hs.
      repeat split; [discriminate | rewrite Hg; exact Hs].
    + intros Habs. exfalso. revert Habs. clear.
      destruct (Reply.message res) as [[|x]|]; cbn [from_option id Py.str_val];
        discriminate.
  - intros verify c m Hc. destruct c as [|c cs]; [congruence|].
    eexists. cbn [andb]. unfold SimpleMockAuth.get_access_token.
    cbn [Reply.status Reply.success]. change ("success" =? "success")%string with true.
    split; reflexivity.
Qed.

Lemma X28_callback_witness :
  snd (Server.live_callback Examples.clock_1000
         (fun _ => RealAuth.TokenBody (Some 0%Z) None (Some "tok") None
                     (RealAuth.ScopeStr "ads_management,creative_management") None)
         (fun _ => "[...]") (Some "auth_code") (Some "forged")
         (Some (Some "a1b2c3d4e5f60718"), Examples.no_credential))
    = (Some (Some "a1b2c3d4e5f60718"), Examples.no_credential).
Proof.
  destruct (X28_callback Examples.clock_1000
              (fun _ => RealAuth.TokenBody (Some 0%Z) None (Some "tok") None
                          (RealAuth.ScopeStr "ads_management,creative_management") None)
              (fun _ => "[...]") (Some "auth_code") (Some "forged")
              (Some (Some "a1b2c3d4e5f60718")) Examples.no_credential) as [H _].
  destruct H as [H _]; [right; vm_compute; reflexivity | exact H].
Defined.

(** X29. [validate_music_id] of the live capability. It asks the music
    endpoint at most once, and only after [ensure_token] has succeeded;
    when [ensure_token] fails its error reply is returned unchanged and
    nothing is asked. A reply with status "success" means the endpoint
    was asked about this very id and answered with code 0 and data.
    Apart from what [ensure_token] does, the capability is unchanged. *)
Theorem X29_live_validate_music_id :
  forall (clock : nat -> Q)
         (refresh_http : nat -> RealTikTokAPI.refresh_response)
         (music_http : string -> RealAuth.music_response)
         (music_id : string) (st : RealTikTokAPI.state),
    let auth := RealTikTokAPI.ensure_token clock refresh_http st in
    let run := RealAuth.validate_music_id clock refresh_http music_http music_id st in
    snd (fst run) = snd auth /\
    (Reply.is_error (fst auth) = true ->
     fst (fst run) = fst auth /\ snd run = []) /\
    (Reply.is_error (fst auth) = false -> snd run = [music_id]) /\
    (Reply.status (fst (fst run)) = "success" ->
     snd run = [music_id] /\
     exists m, music_http music_id = RealAuth.MusicBody (Some 0%Z) m true).
Proof.
  intros clock refresh_http music_http music_id st auth run. subst auth run.
  unfold RealAuth.validate_music_id.
  destruct (RealTikTokAPI.ensure_token clock refresh_http st) as [auth st1].
  cbn [fst snd].
  destruct (Reply.is_error auth) eqn:Herr; cbn [fst snd].
  - split; [reflexivity|]. split; [auto|]. split; [discriminate|].
    intros Hs. destruct (is_error_status auth Herr Hs).
  - destruct (music_http music_id) as [c m d|e] eqn:Hm.
    + destruct (bool_decide (c = Some 0%Z)) eqn:Hc.
      * apply bool_decide_eq_true in Hc. subst c.
        destruct d; cbn [fst snd Reply.status];
          (split; [reflexivity|]); (split; [discriminate|]);
          (split; [reflexivity|]); [|discriminate].
        intros _. split; [reflexivity|]. exists m. reflexivity.
      * cbn [fst snd Reply.status].
        split; [reflexivity|]. split; [discriminate|]. split; [reflexivity|].
        discriminate.
    + cbn [fst snd Reply.status].
      split; [reflexivity|]. split; [discriminate|]. split; [reflexivity|].
      discriminate.
Qed.

Lemma X29_live_validate_music_id_witness :
  snd (RealAuth.validate_music_id Examples.clock_1000 Examples.refresh_fails
         (fun _ => RealAuth.MusicBody (Some 0%Z) None true) "7001"
         Examples.no_credential) = [].
Proof.
  destruct (X29_live_validate_music_id Examples.clock_1000 Examples.refresh_fails
              (fun _ => RealAuth.MusicBody (Some 0%Z) None true) "7001"
              Examples.no_credential) as (_ & H & _).
  destruct H as [_ H]; [reflexivity | exact H].
Defined.
